(** * HabitTracker: streak analytics

    A shallow embedding of the streak computations of the HabitTracker
    application and the properties they satisfy.

    Embedded source files:
    - [src/database/db_handler.py]  the read accessors of [DatabaseHandler]
      ([get_all_habits], [get_completions], [get_last_completion]);
    - [src/analytics/analytics.py]  [get_longest_streak_for_habit],
      [get_longest_streak], [get_habits_to_complete_today], [get_all_streaks];
    - [src/models/habit.py]         [Habit.calculate_streak].

    Modelling conventions.
    - A Python [int] is a [Z].
    - A naive [datetime] is the number of microseconds elapsed since the
      midnight that starts proleptic-Gregorian ordinal day 0, as a [Z]; the
      subtraction of two datetimes is a [timedelta], again a number of
      microseconds, and [timedelta.days] is its floor division by the
      microseconds of one day.  Timezone-aware datetimes are not modelled:
      every timestamp the application writes comes from
      [datetime.now().isoformat()] or [strptime(...).isoformat()] and is
      naive.
    - [datetime.fromisoformat] belongs to the Python library, not to the
      repository: the development is parametric in the string parser (a
      Section variable), and a concrete parser for the layouts the
      application writes is supplied for evaluation on concrete data.
    - An exception is a value of [exn]; a call either returns or raises
      ([outcome]).  The [print] in the [except] branch of
      [get_longest_streak_for_habit] writes to the console only and is not
      part of the model. *)

From Stdlib Require Import ZArith Lia Bool Ascii.
From stdpp Require Import base list sorting strings.

Local Open Scope Z_scope.

(** ** Python values and exceptions *)

(** The value found under the key ['completed_date'] of a completion row:
    [None] or a [str]. *)
Inductive pyval : Type :=
  | PyNone
  | PyStr (s : string).

Inductive exn : Type :=
  | ValueError (s : string)   (* fromisoformat on a string it rejects *)
  | TypeError                 (* fromisoformat on a value that is not a str *)
  | IndexError.               (* list index out of range *)

Inductive outcome (A : Type) : Type :=
  | Return (a : A)
  | Raise (e : exn).
Arguments Return {A} a.
Arguments Raise {A} e.

Global Instance outcome_ret : MRet outcome := @Return.
Global Instance outcome_bind : MBind outcome := λ A B k m,
  match m with
  | Return a => k a
  | Raise e => Raise e
  end.

(** [list(filter(p, l))] where [p] may raise.  (The comprehension
    [[f(x) for x in l]] where [f] may raise is [mapM f l]: the elements are
    evaluated from left to right and the first exception ends it.) *)
Fixpoint filterM {A} (p : A → outcome bool) (l : list A) : outcome (list A) :=
  match l with
  | [] => Return []
  | x :: l' =>
      b ← p x ; ys ← filterM p l' ; Return (if b : bool then x :: ys else ys)
  end.

(** [for x in l: s = f(s, x)] where the body may raise. *)
Fixpoint foldM `{MBind M, MRet M} {A S} (f : S → A → M S) (l : list A) (s : S) : M S :=
  match l with
  | [] => mret s
  | x :: l' => s' ← f s x ; foldM f l' s'
  end.

(** [l[i]] for a non-negative index. *)
Definition py_index {A} (l : list A) (i : nat) : outcome A :=
  match l !! i with
  | Some x => Return x
  | None => Raise IndexError
  end.

(** [max(l, key=key, default=default)]: the first element whose key is not
    exceeded by any other (a later element replaces the candidate only when
    its key is strictly greater). *)
Definition py_max_by {A} (key : A → Z) (l : list A) (default : A) : A :=
  match l with
  | [] => default
  | x :: l' => fold_left (fun best y => if key best <? key y then y else best) l' x
  end.

(** ** Dates and times *)

Abbreviation datetime := Z.

Definition us_per_day : Z := 86400000000.

(** [td.days] of a [timedelta] of [td] microseconds. *)
Definition days (td : Z) : Z := td / us_per_day.

(** [dt.date()], as the ordinal of the day. *)
Definition date (dt : datetime) : Z := dt / us_per_day.

(** [sorted(l)] on datetimes: a stable merge sort by [<=]. *)
Definition sorted (l : list datetime) : list datetime := merge_sort Z.le l.

(** ** Rows of the database (src/database/db_handler.py) *)

Record habit_row : Type := {
  hr_id : Z;
  hr_user_id : Z;
  hr_name : string;
  hr_description : string;
  hr_periodicity : Z;
  hr_creation_date : string
}.

Record completion_row : Type := {
  cr_id : Z;
  cr_habit_id : Z;
  cr_completed_date : pyval
}.

Record database : Type := {
  habits_table : list habit_row;
  completions_table : list completion_row
}.

(** [SELECT * FROM habits WHERE user_id = ?] *)
Definition get_all_habits (db : database) (user_id : Z) : list habit_row :=
  filter (fun h => hr_user_id h = user_id) (habits_table db).

(** [SELECT * FROM completions WHERE habit_id = ?] *)
Definition get_completions (db : database) (habit_id : Z) : list completion_row :=
  filter (fun c => cr_habit_id c = habit_id) (completions_table db).

(** The order of SQLite on the column [completed_date]: NULL sorts before
    every text, texts are compared byte by byte. *)
Definition sql_le (a b : pyval) : bool :=
  match a, b with
  | PyNone, _ => true
  | PyStr _, PyNone => false
  | PyStr s, PyStr t => String.leb s t
  end.

(** [SELECT * FROM completions WHERE habit_id = ? ORDER BY completed_date
    DESC LIMIT 1], as [fetchone] returns it: [None] when the habit has no
    row, else a row with the greatest [completed_date] (the earliest such
    row of the table when several rows carry it). *)
Definition get_last_completion (db : database) (habit_id : Z) : option completion_row :=
  match get_completions db habit_id with
  | [] => None
  | c :: cs =>
      Some (fold_left
              (fun best c' =>
                 if sql_le (cr_completed_date c') (cr_completed_date best)
                 then best else c')
              cs c)
  end.

(** ** Analytics (src/analytics/analytics.py) *)

(** The test of the continuation rule inside [streak_reducer]. *)
Definition continues (periodicity diff : Z) : bool :=
  ((periodicity =? 1) && (diff =? 1))
  || ((periodicity >? 1) && ((1 <=? diff) && (diff <=? periodicity))).

Definition streak_reducer (periodicity : Z)
    (acc : datetime * Z * Z) (date_pair : datetime) : datetime * Z * Z :=
  let '(prev_date, streak, max_streak) := acc in
  let curr_date := date_pair in
  let diff := days (curr_date - prev_date) in
  if continues periodicity diff
  then (curr_date, streak + 1, Z.max max_streak (streak + 1))
  else (curr_date, 1, Z.max max_streak streak).

(** [reduce(streak_reducer, dates[1:], (dates[0], 1, 1))] and the projection
    of [max_streak]; [dates[0]] raises on the empty list. *)
Definition reduce_streak (periodicity : Z) (dates : list datetime) : outcome Z :=
  match dates with
  | [] => Raise IndexError
  | d0 :: rest =>
      let '(_, final_streak, max_streak) :=
        fold_left (streak_reducer periodicity) rest (d0, 1, 1) in
      Return max_streak
  end.

(** The loop of [calculate_streak] inside [get_all_streaks]: one iteration
    for each [i] of [range(1, len(dates))], on the state
    [(max_streak, current_streak)]. *)
Definition all_streaks_step (periodicity : Z) (dates : list datetime)
    (st : Z * Z) (i : nat) : outcome (Z * Z) :=
  let '(max_streak, current_streak) := st in
  di ← py_index dates i ;
  dp ← py_index dates (i - 1) ;
  let diff := days (di - dp) in
  if (1 <=? diff) && (diff <=? periodicity)
  then Return (max_streak, current_streak + 1)
  else Return (Z.max max_streak current_streak, 1).

Definition all_streaks_loop (periodicity : Z) (dates : list datetime) : outcome Z :=
  st ← foldM (all_streaks_step periodicity dates)
         (seq 1 (length dates - 1)) (1, 1) ;
  Return (Z.max (fst st) (snd st)).

Section Analytics.

(** [datetime.fromisoformat] on a [str]: [None] stands for [ValueError]. *)
Variable parse_iso : string → option datetime.

Definition fromisoformat (v : pyval) : outcome datetime :=
  match v with
  | PyNone => Raise TypeError
  | PyStr s =>
      match parse_iso s with
      | Some d => Return d
      | None => Raise (ValueError s)
      end
  end.

Definition is_not_None (v : pyval) : bool :=
  match v with PyNone => false | PyStr _ => true end.

(** [[datetime.fromisoformat(c['completed_date']) for c in completions
     if c['completed_date'] is not None]] *)
Definition parse_dates_not_None (completions : list completion_row)
    : outcome (list datetime) :=
  mapM (fun c => fromisoformat (cr_completed_date c))
       (filter (fun c => is_not_None (cr_completed_date c) = true) completions).

(** The body of [get_longest_streak_for_habit] once [completions] is
    bound. *)
Definition longest_streak_of (completions : list completion_row)
    (periodicity : Z) : outcome Z :=
  match completions with
  | [] => Return 0
  | _ =>
      match parse_dates_not_None completions with
      | Raise e => Return 0            (* except Exception: return 0 *)
      | Return parsed =>
          let dates := sorted parsed in
          if (length dates =? 1)%nat then Return 1
          else reduce_streak periodicity dates
      end
  end.

Definition get_longest_streak_for_habit (db : database)
    (habit_id periodicity : Z) : outcome Z :=
  longest_streak_of (get_completions db habit_id) periodicity.

(** [get_longest_streak]: in the first component Python's [None] is [None]
    and a habit row [h] is [Some h]. *)
Definition get_longest_streak (db : database) (user_id : Z)
    : outcome (option habit_row * Z) :=
  let habits := get_all_habits db user_id in
  match habits with
  | [] => Return (None, 0)
  | _ =>
      streaks ← mapM (fun habit =>
                   s ← get_longest_streak_for_habit db (hr_id habit)
                         (hr_periodicity habit) ;
                   Return (Some habit, s)) habits ;
      Return (py_max_by snd streaks (None, 0))
  end.

(** [is_due_today] of [get_habits_to_complete_today]; [today] is the
    ordinal of [datetime.now().date()]. *)
Definition is_due_today (db : database) (today : Z) (habit : habit_row)
    : outcome bool :=
  match get_last_completion db (hr_id habit) with
  | None => Return true
  | Some last_completion =>
      last ← fromisoformat (cr_completed_date last_completion) ;
      let last_date := date last in
      Return (hr_periodicity habit <=? today - last_date)
  end.

Definition get_habits_to_complete_today (db : database) (today user_id : Z)
    : outcome (list habit_row) :=
  filterM (is_due_today db today) (get_all_habits db user_id).

(** [calculate_streak] of [get_all_streaks]. *)
Definition all_streaks_calculate_streak (db : database) (habit : habit_row)
    : outcome Z :=
  match get_completions db (hr_id habit) with
  | [] => Return 0
  | completions =>
      parsed ← mapM (fun c => fromisoformat (cr_completed_date c)) completions ;
      all_streaks_loop (hr_periodicity habit) (sorted parsed)
  end.

(** [get_all_streaks]: the dict [{"name": n, "streak": s}] is the pair
    [(n, s)]. *)
Definition get_all_streaks (db : database) (user_id : Z)
    : outcome (list (string * Z)) :=
  match get_all_habits db user_id with
  | [] => Return []
  | habits =>
      mapM (fun h => s ← all_streaks_calculate_streak db h ;
                     Return (hr_name h, s)) habits
  end.

End Analytics.

(** ** A concrete ISO-8601 parser

    An instance of the parser for the sample data: it accepts the layouts
    the application writes, [YYYY-MM-DD], [YYYY-MM-DDTHH:MM:SS] and
    [YYYY-MM-DDTHH:MM:SS.ffffff], and rejects every other string (Python's
    [fromisoformat] accepts more layouts).  The day count follows [_ymd2ord]
    of CPython's [datetime].  The general statements below hold for every
    parser. *)

Definition is_leap (year : Z) : bool :=
  (year mod 4 =? 0) && (negb (year mod 100 =? 0) || (year mod 400 =? 0)).

Definition days_before_year (year : Z) : Z :=
  let y := year - 1 in y * 365 + y / 4 - y / 100 + y / 400.

Definition days_in_month (year month : Z) : Z :=
  if (month =? 2) && is_leap year then 29
  else nth (Z.to_nat month) [0; 31; 28; 31; 30; 31; 30; 31; 31; 30; 31; 30; 31] 0.

Definition days_before_month (year month : Z) : Z :=
  nth (Z.to_nat month) [0; 0; 31; 59; 90; 120; 151; 181; 212; 243; 273; 304; 334] 0
  + (if (2 <? month) && is_leap year then 1 else 0).

Definition ymd2ord (year month day : Z) : Z :=
  days_before_year year + days_before_month year month + day.

Definition digit (c : ascii) : option Z :=
  let n := Z.of_N (N_of_ascii c) in
  if (48 <=? n) && (n <=? 57) then Some (n - 48) else None.

Fixpoint read_digits (n : nat) (s : string) (acc : Z) : option (Z * string) :=
  match n with
  | O => Some (acc, s)
  | S n' =>
      match s with
      | String c s' => d ← digit c; read_digits n' s' (10 * acc + d)
      | EmptyString => None
      end
  end.

Definition expect (c : ascii) (s : string) : option string :=
  match s with
  | String c' s' => if Ascii.eqb c c' then Some s' else None
  | EmptyString => None
  end.

Definition parse_time (s : string) : option Z :=
  '(hh, s) ← read_digits 2 s 0;
  s ← expect ":"%char s;
  '(mm, s) ← read_digits 2 s 0;
  s ← expect ":"%char s;
  '(ss, s) ← read_digits 2 s 0;
  if (hh <? 24) && (mm <? 60) && (ss <? 60) then
    let secs := (hh * 60 + mm) * 60 + ss in
    match s with
    | EmptyString => Some (secs * 1000000)
    | String "."%char s =>
        '(us, s) ← read_digits 6 s 0;
        match s with
        | EmptyString => Some (secs * 1000000 + us)
        | _ => None
        end
    | _ => None
    end
  else None.

Definition iso_parse (s : string) : option datetime :=
  '(y, s) ← read_digits 4 s 0;
  s ← expect "-"%char s;
  '(m, s) ← read_digits 2 s 0;
  s ← expect "-"%char s;
  '(d, s) ← read_digits 2 s 0;
  if (1 <=? y) && (1 <=? m) && (m <=? 12) && (1 <=? d) && (d <=? days_in_month y m)
  then
    let midnight := ymd2ord y m d * us_per_day in
    match s with
    | EmptyString => Some midnight
    | String "T"%char s => t ← parse_time s; Some (midnight + t)
    | _ => None
    end
  else None.

(** ** Python objects: the database and the list objects of a run

    The functions above give the value a call returns.  To speak of what a
    call does to the objects it is handed, the same code is also read over a
    world made of the database and a heap of list objects: a reference is an
    index into the heap, [sorted], slices and comprehensions allocate a new
    list, [list.sort] overwrites the list it is called on. *)

Inductive pyobj : Type :=
  | RowList (rows : list completion_row)
  | DateList (dates : list datetime).

Abbreviation ref := nat.

Record world : Type := {
  w_db : database;
  w_heap : list pyobj
}.

Definition M (A : Type) : Type := world → outcome A * world.

Global Instance M_ret : MRet M := λ A a w, (Return a, w).
Global Instance M_bind : MBind M := λ A B k m w,
  match m w with
  | (Return a, w') => k a w'
  | (Raise e, w') => (Raise e, w')
  end.

(** A computation that touches no object. *)
Definition lift {A} (o : outcome A) : M A := λ w, (o, w).

(** [try: m  except Exception as e: handler(e)] *)
Definition try_except {A} (m : M A) (handler : exn → M A) : M A := λ w,
  match m w with
  | (Return a, w') => (Return a, w')
  | (Raise e, w') => handler e w'
  end.

(** A new list object. *)
Definition new_list (o : pyobj) : M ref := λ w,
  (Return (length (w_heap w)),
   {| w_db := w_db w; w_heap := w_heap w ++ [o] |}).

Definition read_rows (r : ref) : M (list completion_row) := λ w,
  match w_heap w !! r with
  | Some (RowList l) => (Return l, w)
  | _ => (Raise TypeError, w)
  end.

Definition read_dates (r : ref) : M (list datetime) := λ w,
  match w_heap w !! r with
  | Some (DateList l) => (Return l, w)
  | _ => (Raise TypeError, w)
  end.

(** [r.sort()]: in place. *)
Definition list_sort (r : ref) : M unit := λ w,
  match w_heap w !! r with
  | Some (DateList l) =>
      (Return (), {| w_db := w_db w;
                     w_heap := <[r := DateList (sorted l)]> (w_heap w) |})
  | _ => (Raise TypeError, w)
  end.

(** [db.get_completions(habit_id)]: a fresh list of the selected rows. *)
Definition db_get_completions (habit_id : Z) : M ref := λ w,
  new_list (RowList (get_completions (w_db w) habit_id)) w.

Section ObjectModel.

Variable parse_iso : string → option datetime.

(** [get_longest_streak_for_habit] over the world; [None] of the
    [try] block stands for the [return 0] of its [except] branch. *)
Definition get_longest_streak_for_habit_obj (habit_id periodicity : Z) : M Z :=
  completions ← db_get_completions habit_id;
  rows ← read_rows completions;
  match rows with
  | [] => mret 0
  | _ =>
      tried ← try_except
        (rows ← read_rows completions;
         parsed ← lift (parse_dates_not_None parse_iso rows);
         comprehension ← new_list (DateList parsed);
         l ← read_dates comprehension;
         dates ← new_list (DateList (sorted l));
         mret (Some dates))
        (λ e, mret None);
      match tried with
      | None => mret 0
      | Some dates =>
          l ← read_dates dates;
          if (length l =? 1)%nat then mret 1
          else
            l ← read_dates dates;
            slice ← new_list (DateList (drop 1 l));        (* dates[1:] *)
            l ← read_dates dates;
            d0 ← lift (py_index l 0);                      (* dates[0] *)
            rest ← read_dates slice;
            let '(_, final_streak, max_streak) :=
              fold_left (streak_reducer periodicity) rest (d0, 1, 1) in
            mret max_streak
      end
  end.

End ObjectModel.

(** ** The Habit class (src/models/habit.py) *)

Record Habit : Type := {
  name : string;
  description : string;
  periodicity : Z;
  creation_date : datetime;
  completions : ref            (* the list object [self.completions] *)
}.

(** One iteration of the loop of [Habit.calculate_streak]. *)
Definition calculate_streak_step (self : Habit) (streak : Z) (i : nat) : M Z :=
  l ← read_dates (completions self);
  di ← lift (py_index l i);
  l ← read_dates (completions self);
  dp ← lift (py_index l (i - 1));
  let diff := days (di - dp) in
  if diff <=? periodicity self then mret (streak + 1) else mret 1.

Definition calculate_streak (self : Habit) : M Z :=
  l ← read_dates (completions self);
  match l with
  | [] => mret 0
  | _ =>
      _ ← list_sort (completions self);
      l ← read_dates (completions self);
      foldM (calculate_streak_step self) (seq 1 (length l - 1)) 1
  end.

(** ** Runs of a sorted list of dates

    The vocabulary of the specification: a run is a maximal block of
    consecutive dates in which every adjacent pair satisfies the
    continuation rule. *)

(** The continuation rule of the Streak Engine, in the words of the
    specification. *)
Definition extends_streak (P diff : Z) : Prop :=
  (P = 1 ∧ diff = 1) ∨ (P > 1 ∧ 1 ≤ diff ≤ P).

Global Instance extends_streak_dec P diff : Decision (extends_streak P diff) :=
  or_dec (and_dec (decide (P = 1)) (decide (diff = 1)))
         (and_dec (decide (P > 1)) (and_dec (decide (1 ≤ diff)) (decide (diff ≤ P)))).

(** The cut of a list into its maximal runs; [ext prev curr] tells whether
    [curr] continues the run of [prev]. *)
Fixpoint split_runs (ext : datetime → datetime → bool) (l : list datetime)
    : list (list datetime) :=
  match l with
  | [] => []
  | x :: l' =>
      match split_runs ext l' with
      | (y :: r) :: rs =>
          if ext x y then (x :: y :: r) :: rs else [x] :: (y :: r) :: rs
      | _ => [[x]]
      end
  end.

Definition run_lengths (ext : datetime → datetime → bool) (l : list datetime) : list Z :=
  map (λ r, Z.of_nat (length r)) (split_runs ext l).

Definition max_run_length (ext : datetime → datetime → bool) (l : list datetime) : Z :=
  foldr Z.max 0 (run_lengths ext l).

Definition last_run_length (ext : datetime → datetime → bool) (l : list datetime) : Z :=
  default 0 (last (run_lengths ext l)).

(** Runs under the rule of the Streak Engine. *)
Definition engine_ext (P : Z) (prev curr : datetime) : bool :=
  bool_decide (extends_streak P (days (curr - prev))).

(** Runs under the rule "the whole-day difference is at most the
    periodicity". *)
Definition within_ext (P : Z) (prev curr : datetime) : bool :=
  bool_decide (days (curr - prev) ≤ P).

(** ** Vocabulary of the statements and sample data *)

(** A completion has a valid timestamp when [fromisoformat] accepts it. *)
Definition has_valid_timestamp (parse_iso : string → option datetime)
    (c : completion_row) : bool :=
  match fromisoformat parse_iso (cr_completed_date c) with
  | Return _ => true
  | Raise _ => false
  end.

Definition mk_habit (id user_id : Z) (name : string) (periodicity : Z) : habit_row :=
  {| hr_id := id; hr_user_id := user_id; hr_name := name; hr_description := "";
     hr_periodicity := periodicity; hr_creation_date := "2023-08-30T14:23:55" |}.

Definition mk_completion (id habit_id : Z) (completed_date : pyval) : completion_row :=
  {| cr_id := id; cr_habit_id := habit_id; cr_completed_date := completed_date |}.

(** The fixture of [tests/test_analytics.py] after the additions of
    [test_get_longest_streak]. *)
Definition fixture_db : database :=
  {| habits_table :=
       [ mk_habit 1 1 "Exercise" 1; mk_habit 2 1 "Reading" 7;
         mk_habit 3 1 "Meditation" 5 ];
     completions_table :=
       [ mk_completion 1 1 (PyStr "2023-08-30T15:00:00");
         mk_completion 2 1 (PyStr "2023-08-31T15:00:00");
         mk_completion 3 3 (PyStr "2023-09-04T15:00:00");
         mk_completion 4 2 (PyStr "2023-08-30T15:00:00");
         mk_completion 5 1 (PyStr "2023-09-01T15:00:00");
         mk_completion 6 2 (PyStr "2023-09-06T15:00:00");
         mk_completion 7 3 (PyStr "2023-09-09T15:00:00") ] |}.

(** The same rows in another order of insertion. *)
Definition shuffled_db : database :=
  {| habits_table := habits_table fixture_db;
     completions_table := reverse (completions_table fixture_db) |}.

(** One daily habit with a valid and a malformed timestamp. *)
Definition malformed_db : database :=
  {| habits_table := [ mk_habit 1 1 "Exercise" 1 ];
     completions_table :=
       [ mk_completion 1 1 (PyStr "2023-08-30T15:00:00");
         mk_completion 2 1 (PyStr "30/08/2023") ] |}.

(** One daily habit with a valid and a missing timestamp. *)
Definition missing_db : database :=
  {| habits_table := [ mk_habit 1 1 "Exercise" 1 ];
     completions_table :=
       [ mk_completion 1 1 (PyStr "2023-08-30T15:00:00");
         mk_completion 2 1 PyNone ] |}.

(** One habit with a single completion. *)
Definition single_db : database :=
  {| habits_table := [ mk_habit 3 1 "Meditation" 5 ];
     completions_table := [ mk_completion 1 3 (PyStr "2023-09-04T15:00:00") ] |}.

(** Habits without any completion. *)
Definition idle_db : database :=
  {| habits_table := [ mk_habit 1 1 "Exercise" 1; mk_habit 2 1 "Reading" 7 ];
     completions_table := [] |}.

(** A daily habit completed on days 0, 1, 2 and 4 after 2023-08-30, as in
    [test_calculate_streak_broken]. *)
Definition broken_db : database :=
  {| habits_table := [ mk_habit 1 1 "Meditation" 1 ];
     completions_table :=
       [ mk_completion 1 1 (PyStr "2023-08-30");
         mk_completion 2 1 (PyStr "2023-08-31");
         mk_completion 3 1 (PyStr "2023-09-01");
         mk_completion 4 1 (PyStr "2023-09-03") ] |}.

(** A daily habit completed twice on the same day. *)
Definition same_day_db : database :=
  {| habits_table := [ mk_habit 1 1 "Exercise" 1 ];
     completions_table :=
       [ mk_completion 1 1 (PyStr "2023-08-30T08:00:00");
         mk_completion 2 1 (PyStr "2023-08-30T20:00:00") ] |}.

(** The dates of a database row list, for the [Habit] object that holds the
    same completions. *)
Definition dates_of (cs : list completion_row) : list datetime :=
  omap (λ c, match cr_completed_date c with
             | PyStr s => iso_parse s
             | PyNone => None
             end) cs.

(** A world whose heap holds one list of dates, at reference 0. *)
Definition world_of_dates (db : database) (l : list datetime) : world :=
  {| w_db := db; w_heap := [DateList l] |}.

Definition habit_object (periodicity : Z) : Habit :=
  {| name := "Meditation"; description := "Morning routine";
     periodicity := periodicity; creation_date := 63829036800000000;
     completions := 0%nat |}.


(** ** The remaining functions of analytics.py *)

(** [get_habits_by_periodicity] of analytics.py: the Python [filter] over the
    rows of [db.get_all_habits]. *)
Definition get_habits_by_periodicity (db : database) (user_id periodicity : Z)
    : list habit_row :=
  let habits := get_all_habits db user_id in
  filter (λ habit, hr_periodicity habit = periodicity) habits.



(** ** DatabaseHandler: the connection and its write accessors
    (src/database/db_handler.py)

    The state of a connection is the content of the three tables, each in
    the order of its rowids, the counters SQLite keeps for the
    [AUTOINCREMENT] keys, and the setting of [PRAGMA foreign_keys] (the
    handler never changes it; SQLite enforces [FOREIGN KEY ... ON DELETE
    CASCADE] only when it is on).  The arguments have the types the callers
    pass: integers for ids and periodicities, [str] for names; a date
    argument with default [None] is a [pyval].  [now] is the text of
    [datetime.now().isoformat()] at the call. *)

Record user_row : Type := {
  ur_id : Z;
  ur_username : string;
  ur_email : string;
  ur_creation_date : string
}.

Record handler : Type := {
  foreign_keys : bool;
  users_table : list user_row;
  tables : database;
  seq_users : Z;
  seq_habits : Z;
  seq_completions : Z
}.

(** A statement either is executed, leaving a result and a new state, or
    fails on a constraint with [sqlite3.IntegrityError], the tables being
    as before. *)
Inductive db_result (A : Type) : Type :=
  | Done (a : A) (h : handler)
  | IntegrityError.
Arguments Done {A} a h.
Arguments IntegrityError {A}.

Module DatabaseHandler.

(** [create_tables] on a new database file. *)
Definition create_tables (fk : bool) : handler :=
  {| foreign_keys := fk; users_table := [];
     tables := {| habits_table := []; completions_table := [] |};
     seq_users := 0; seq_habits := 0; seq_completions := 0 |}.

(** The rowid of [INTEGER PRIMARY KEY AUTOINCREMENT]: one more than the
    largest rowid the table has ever held. *)
Definition next_rowid (seq : Z) (ids : list Z) : Z :=
  Z.max seq (foldr Z.max 0 ids) + 1.

(** [v or default] where [v] is [None] or a [str]: the empty string is
    false. *)
Definition py_or (v : pyval) (default : string) : string :=
  match v with
  | PyNone => default
  | PyStr EmptyString => default
  | PyStr s => s
  end.

Definition add_user (h : handler) (username email : string)
    (creation_date : pyval) (now : string) : Z * handler :=
  let creation_date := py_or creation_date now in
  let id := next_rowid (seq_users h) (ur_id <$> users_table h) in
  (id,
   {| foreign_keys := foreign_keys h;
      users_table := users_table h ++
        [{| ur_id := id; ur_username := username; ur_email := email;
            ur_creation_date := creation_date |}];
      tables := tables h;
      seq_users := id; seq_habits := seq_habits h;
      seq_completions := seq_completions h |}).

Definition update_user (h : handler) (user_id : Z) (new_username new_email : string)
    : handler :=
  {| foreign_keys := foreign_keys h;
     users_table :=
       (λ u, if decide (ur_id u = user_id)
                 then {| ur_id := ur_id u; ur_username := new_username;
                         ur_email := new_email;
                         ur_creation_date := ur_creation_date u |}
                 else u) <$> users_table h;
     tables := tables h;
     seq_users := seq_users h; seq_habits := seq_habits h;
     seq_completions := seq_completions h |}.

Definition add_habit (h : handler) (user_id : Z) (name description : string)
    (periodicity : Z) (creation_date : pyval) (now : string) : db_result () :=
  let creation_date := py_or creation_date now in
  if foreign_keys h && negb (bool_decide (user_id ∈ (ur_id <$> users_table h)))
  then IntegrityError
  else
    let id := next_rowid (seq_habits h) (hr_id <$> habits_table (tables h)) in
    Done ()
      {| foreign_keys := foreign_keys h;
         users_table := users_table h;
         tables :=
           {| habits_table := habits_table (tables h) ++
                [{| hr_id := id; hr_user_id := user_id; hr_name := name;
                    hr_description := description; hr_periodicity := periodicity;
                    hr_creation_date := creation_date |}];
              completions_table := completions_table (tables h) |};
         seq_users := seq_users h; seq_habits := id;
         seq_completions := seq_completions h |}.

Definition add_completion (h : handler) (habit_id : Z) (completed_date : pyval)
    (now : string) : db_result () :=
  let completed_date := py_or completed_date now in
  if foreign_keys h
     && negb (bool_decide (habit_id ∈ (hr_id <$> habits_table (tables h))))
  then IntegrityError
  else
    let id := next_rowid (seq_completions h)
                (cr_id <$> completions_table (tables h)) in
    Done ()
      {| foreign_keys := foreign_keys h;
         users_table := users_table h;
         tables :=
           {| habits_table := habits_table (tables h);
              completions_table := completions_table (tables h) ++
                [{| cr_id := id; cr_habit_id := habit_id;
                    cr_completed_date := PyStr completed_date |}] |};
         seq_users := seq_users h; seq_habits := seq_habits h;
         seq_completions := id |}.

(** [completed_date] is [NOT NULL]: an update to [None] that reaches a row
    fails. *)
Definition update_completion_date (h : handler) (completion_id : Z) (new_date : pyval)
    : db_result () :=
  match new_date with
  | PyNone =>
      if bool_decide (completion_id ∈ (cr_id <$> completions_table (tables h)))
      then IntegrityError else Done () h
  | PyStr _ =>
      Done ()
        {| foreign_keys := foreign_keys h;
           users_table := users_table h;
           tables :=
             {| habits_table := habits_table (tables h);
                completions_table :=
                  (λ c, if decide (cr_id c = completion_id)
                            then {| cr_id := cr_id c; cr_habit_id := cr_habit_id c;
                                    cr_completed_date := new_date |}
                            else c) <$> completions_table (tables h) |};
           seq_users := seq_users h; seq_habits := seq_habits h;
           seq_completions := seq_completions h |}
  end.

Definition get_all_users (h : handler) : list user_row := users_table h.

Definition update_habit (h : handler) (user_id : Z) (old_name new_name : string)
    (new_description : string) (new_periodicity : Z) : handler :=
  {| foreign_keys := foreign_keys h;
     users_table := users_table h;
     tables :=
       {| habits_table :=
            (λ r, if decide (hr_user_id r = user_id ∧ hr_name r = old_name)
                      then {| hr_id := hr_id r; hr_user_id := hr_user_id r;
                              hr_name := new_name;
                              hr_description := new_description;
                              hr_periodicity := new_periodicity;
                              hr_creation_date := hr_creation_date r |}
                      else r) <$> habits_table (tables h);
          completions_table := completions_table (tables h) |};
     seq_users := seq_users h; seq_habits := seq_habits h;
     seq_completions := seq_completions h |}.

(** The rows of [completions] that go with the deleted habits [gone] when
    the foreign keys are enforced. *)
Definition cascade_completions (fk : bool) (gone : list habit_row)
    (cs : list completion_row) : list completion_row :=
  if fk then filter (λ c, cr_habit_id c ∉ (hr_id <$> gone)) cs else cs.

Definition delete_habit (h : handler) (user_id : Z) (habit_name : string) : handler :=
  let hit := λ r, hr_user_id r = user_id ∧ hr_name r = habit_name in
  let gone := filter hit (habits_table (tables h)) in
  {| foreign_keys := foreign_keys h;
     users_table := users_table h;
     tables :=
       {| habits_table := filter (λ r, ¬ hit r) (habits_table (tables h));
          completions_table :=
            cascade_completions (foreign_keys h) gone (completions_table (tables h)) |};
     seq_users := seq_users h; seq_habits := seq_habits h;
     seq_completions := seq_completions h |}.

Definition delete_user (h : handler) (user_id : Z) : handler :=
  let gone_users := filter (λ u, ur_id u = user_id) (users_table h) in
  let gone_habits :=
    if foreign_keys h
    then filter (λ r, hr_user_id r ∈ (ur_id <$> gone_users)) (habits_table (tables h))
    else [] in
  {| foreign_keys := foreign_keys h;
     users_table := filter (λ u, ur_id u ≠ user_id) (users_table h);
     tables :=
       {| habits_table :=
            if foreign_keys h
            then filter (λ r, hr_user_id r ∉ (ur_id <$> gone_users))
                   (habits_table (tables h))
            else habits_table (tables h);
          completions_table :=
            cascade_completions (foreign_keys h) gone_habits
              (completions_table (tables h)) |};
     seq_users := seq_users h; seq_habits := seq_habits h;
     seq_completions := seq_completions h |}.

Definition get_user_id (h : handler) (username : string) : option Z :=
  ur_id <$> head (filter (λ u, ur_username u = username) (users_table h)).

Definition get_habit_by_name (h : handler) (user_id : Z) (habit_name : string)
    : option habit_row :=
  head (filter (λ r, hr_user_id r = user_id ∧ hr_name r = habit_name)
          (habits_table (tables h))).

(** [SELECT * FROM habits WHERE user_id = ? AND periodicity = ?] *)
Definition get_habits_by_periodicity (h : handler) (user_id periodicity : Z)
    : list habit_row :=
  filter (λ r, hr_user_id r = user_id ∧ hr_periodicity r = periodicity)
    (habits_table (tables h)).

Section delete_completion.

(** The SQL function [DATE] on a text: the day as [YYYY-MM-DD], or NULL
    ([None]) when SQLite does not read the text as a time. *)
Variable sql_date : string → option string.

Definition sql_date_of (v : pyval) : option string :=
  match v with
  | PyNone => None
  | PyStr s => sql_date s
  end.

(** [habit_id = ? AND DATE(completed_date) = DATE(?)]; a comparison with
    NULL is not true. *)
Definition delete_completion_hit (habit_id : Z) (completed_date : string)
    (c : completion_row) : bool :=
  bool_decide (cr_habit_id c = habit_id)
  && match sql_date_of (cr_completed_date c), sql_date completed_date with
     | Some d, Some d' => bool_decide (d = d')
     | _, _ => false
     end.

Definition delete_completion (h : handler) (habit_id : Z) (completed_date : string)
    : handler :=
  {| foreign_keys := foreign_keys h;
     users_table := users_table h;
     tables :=
       {| habits_table := habits_table (tables h);
          completions_table :=
            filter (λ c, delete_completion_hit habit_id completed_date c = false)
              (completions_table (tables h)) |};
     seq_users := seq_users h; seq_habits := seq_habits h;
     seq_completions := seq_completions h |}.

End delete_completion.

End DatabaseHandler.

(** ** The other methods of Habit (src/models/habit.py) *)

(** [l.append(x)]: in place. *)
Definition list_append (r : ref) (x : datetime) : M () := λ w,
  match w_heap w !! r with
  | Some (DateList l) =>
      (Return (), {| w_db := w_db w;
                     w_heap := <[r := DateList (l ++ [x])]> (w_heap w) |})
  | _ => (Raise TypeError, w)
  end.

(** [Habit.__init__]: [self.completions = []] is a new list. *)
Definition Habit_init (name description : string) (periodicity : Z)
    (creation_date : datetime) : M Habit :=
  r ← new_list (DateList []);
  mret {| name := name; description := description; periodicity := periodicity;
          creation_date := creation_date; completions := r |}.

(** [Habit.add_completion]; [now] is [datetime.now()]. *)
Definition Habit_add_completion (self : Habit) (now : datetime) : M () :=
  list_append (completions self) now.

(** ** Histories of a connection *)

(** A call of a write accessor with its arguments. *)
Inductive call : Type :=
  | AddUser (username email : string) (creation_date : pyval) (now : string)
  | UpdateUser (user_id : Z) (new_username new_email : string)
  | AddHabit (user_id : Z) (name description : string) (periodicity : Z)
             (creation_date : pyval) (now : string)
  | AddCompletion (habit_id : Z) (completed_date : pyval) (now : string)
  | UpdateCompletionDate (completion_id : Z) (new_date : pyval)
  | DeleteCompletion (habit_id : Z) (completed_date : string)
  | UpdateHabit (user_id : Z) (old_name new_name new_description : string)
                (new_periodicity : Z)
  | DeleteHabit (user_id : Z) (habit_name : string)
  | DeleteUser (user_id : Z).

(** The state a statement leaves: the tables are as before when it failed. *)
Definition state_after {A} (r : db_result A) (h : handler) : handler :=
  match r with
  | Done _ h' => h'
  | IntegrityError => h
  end.

Definition perform (sql_date : string → option string) (h : handler) (c : call)
    : handler :=
  match c with
  | AddUser username email creation_date now =>
      (DatabaseHandler.add_user h username email creation_date now).2
  | UpdateUser user_id new_username new_email =>
      DatabaseHandler.update_user h user_id new_username new_email
  | AddHabit user_id name description periodicity creation_date now =>
      state_after
        (DatabaseHandler.add_habit h user_id name description periodicity
           creation_date now) h
  | AddCompletion habit_id completed_date now =>
      state_after (DatabaseHandler.add_completion h habit_id completed_date now) h
  | UpdateCompletionDate completion_id new_date =>
      state_after (DatabaseHandler.update_completion_date h completion_id new_date) h
  | DeleteCompletion habit_id completed_date =>
      DatabaseHandler.delete_completion sql_date h habit_id completed_date
  | UpdateHabit user_id old_name new_name new_description new_periodicity =>
      DatabaseHandler.update_habit h user_id old_name new_name new_description
        new_periodicity
  | DeleteHabit user_id habit_name =>
      DatabaseHandler.delete_habit h user_id habit_name
  | DeleteUser user_id => DatabaseHandler.delete_user h user_id
  end.

(** The state after the calls [cs] on a new database. *)
Definition history (sql_date : string → option string) (fk : bool) (cs : list call)
    : handler :=
  fold_left (perform sql_date) cs (DatabaseHandler.create_tables fk).

(** The keys of a table are distinct and lie between 1 and the counter. *)
Definition keys_ok (seq : Z) (ids : list Z) : Prop :=
  NoDup ids ∧ Forall (λ i, 1 ≤ i ≤ seq) ids.

Definition handler_ok (h : handler) : Prop :=
  keys_ok (seq_users h) (ur_id <$> users_table h)
  ∧ keys_ok (seq_habits h) (hr_id <$> habits_table (tables h))
  ∧ keys_ok (seq_completions h) (cr_id <$> completions_table (tables h))
  ∧ Forall (λ c, cr_completed_date c ≠ PyNone) (completions_table (tables h))
  ∧ (foreign_keys h = true →
     Forall (λ r, hr_user_id r ∈ (ur_id <$> users_table h)) (habits_table (tables h))
     ∧ Forall (λ c, cr_habit_id c ∈ (hr_id <$> habits_table (tables h)))
         (completions_table (tables h))).

(** ** Sample data for the connection *)

(** An instance of [DATE] for the sample data: on a text [iso_parse] reads,
    its first ten characters. *)
Definition sqlite_date (s : string) : option string :=
  match iso_parse s with
  | Some _ => Some (String.substring 0 10 s)
  | None => None
  end.

(** One user with a daily habit completed twice on 2023-08-30 and once on
    2023-08-31, and a weekly habit never completed. *)
Definition sample_calls : list call :=
  [ AddUser "kate" "kate@example.com" PyNone "2023-08-30T14:23:55";
    AddHabit 1 "Exercise" "Daily workout" 1 PyNone "2023-08-30T14:23:55";
    AddHabit 1 "Reading" "Read a book" 7 PyNone "2023-08-30T14:23:55";
    AddCompletion 1 (PyStr "2023-08-30T07:00:00") "2023-08-30T14:23:55";
    AddCompletion 1 (PyStr "2023-08-30T09:00:00") "2023-08-30T14:23:55";
    AddCompletion 1 (PyStr "2023-08-31T08:00:00") "2023-08-31T14:23:55" ].

Definition sample_handler (fk : bool) : handler := history sqlite_date fk sample_calls.

(** ** The example data of a new user (src/main.py)

    [create_predefined_habits(user_id)] on the connection [h];
    [current_date] is the reading of [datetime.now()] at its start.  The
    messages written with [click.echo] are left out: they change neither the
    tables nor the dates. *)

Section create_predefined_habits.

(** [dt.isoformat()] *)
Variable isoformat : datetime → string.

(** The text of [datetime.now().isoformat()] inside [add_habit] and
    [add_completion], given by the state in which the call is made (no two
    calls of one run are made in the same state, so every sequence of
    readings is of this form).  It is read only when the date passed is
    empty. *)
Variable clock : handler → string.

(** Name, description and periodicity of the predefined habits. *)
Definition predefined_habits : list (string * string * Z) :=
  [ ("Exercise", "30 minutes of physical exercise", 1);
    ("Reading", "Read 20 pages of a book", 2);
    ("Meditation", "10 minutes of meditation", 3);
    ("Weekly Cleaning", "Clean the house thoroughly", 7);
    ("Grocery Shopping", "Buy weekly groceries", 7) ].

(** [while completion_date >= end_date: ...]; [fuel] bounds the number of
    turns, [None] is a loop that has not ended within it. *)
Fixpoint create_predefined_habits_while (fuel : nat) (h : handler) (habit_id : Z)
    (periodicity : Z) (completion_date end_date : datetime)
    : option (db_result ()) :=
  if bool_decide (end_date ≤ completion_date) then
    match fuel with
    | O => None
    | S fuel =>
        match DatabaseHandler.add_completion h habit_id
                (PyStr (isoformat completion_date)) (clock h) with
        | IntegrityError => Some IntegrityError
        | Done _ h' =>
            create_predefined_habits_while fuel h' habit_id periodicity
              (completion_date - periodicity * us_per_day) end_date
        end
    end
  else Some (Done () h).

(** The body of [for habit in predefined_habits].  [next(..., None)] finds
    the habit added just before, the first of that name among the user's
    habits; its default [None] is never taken (every result of the body on a
    successful [add_habit] is shown below to come from the loop), and the
    body has no result here in that case. *)
Definition create_predefined_habits_body (fuel : nat) (user_id : Z)
    (current_date : datetime) (h : handler) (habit : string * string * Z)
    : option (db_result ()) :=
  let '(name, description, periodicity) := habit in
  let creation_date := isoformat current_date in
  match DatabaseHandler.add_habit h user_id name description periodicity
          (PyStr creation_date) (clock h) with
  | IntegrityError => Some IntegrityError
  | Done _ h1 =>
      let habits := get_all_habits (tables h1) user_id in
      match head (hr_id <$> filter (λ r, hr_name r = name) habits) with
      | Some habit_id =>
          let completion_date := current_date in
          let end_date := current_date - 4 * 7 * us_per_day in
          create_predefined_habits_while fuel h1 habit_id periodicity
            completion_date end_date
      | None => None
      end
  end.

Fixpoint create_predefined_habits_for (fuel : nat) (user_id : Z)
    (current_date : datetime) (h : handler) (habits : list (string * string * Z))
    : option (db_result ()) :=
  match habits with
  | [] => Some (Done () h)
  | habit :: rest =>
      match create_predefined_habits_body fuel user_id current_date h habit with
      | Some (Done _ h') =>
          create_predefined_habits_for fuel user_id current_date h' rest
      | r => r
      end
  end.

Definition create_predefined_habits (fuel : nat) (h : handler) (user_id : Z)
    (current_date : datetime) : option (db_result ()) :=
  create_predefined_habits_for fuel user_id current_date h predefined_habits.

(** The dates of the completions of a habit of periodicity [P], in the
    order the loop adds them: [current_date], [P] days before, ..., while
    within 28 days. *)
Definition example_dates (current_date : datetime) (P : Z) : list datetime :=
  (λ k : nat, current_date - Z.of_nat k * (P * us_per_day))
    <$> seq 0 (Z.to_nat (28 / P) + 1).

(** The user's completions are not stored for a habit that has not been
    created yet. *)
Definition no_completion_ahead (h : handler) : Prop :=
  Forall (λ c, cr_habit_id c ≤ seq_habits h) (completions_table (tables h)).

End create_predefined_habits.

(** ** A concrete [isoformat]

    The text [datetime.isoformat] gives for the sample data; the date
    follows [_ord2ymd] of CPython's [datetime]. *)

Definition ord2ymd (n : Z) : Z * Z * Z :=
  let n := n - 1 in
  let n400 := n / 146097 in let n := n mod 146097 in
  let year := n400 * 400 + 1 in
  let n100 := n / 36524 in let n := n mod 36524 in
  let n4 := n / 1461 in let n := n mod 1461 in
  let n1 := n / 365 in let n := n mod 365 in
  let year := year + n100 * 100 + n4 * 4 + n1 in
  if (n1 =? 4) || (n100 =? 4) then (year - 1, 12, 31)
  else
    let leapyear := (n1 =? 3) && (negb (n4 =? 24) || (n100 =? 3)) in
    let month := Z.shiftr (n + 50) 5 in
    let preceding :=
      nth (Z.to_nat month) [0; 0; 31; 59; 90; 120; 151; 181; 212; 243; 273; 304; 334] 0
      + (if (2 <? month) && leapyear then 1 else 0) in
    if n <? preceding then
      let month := month - 1 in
      let preceding :=
        preceding
        - (nth (Z.to_nat month) [0; 31; 28; 31; 30; 31; 30; 31; 31; 30; 31; 30; 31] 0
           + (if (month =? 2) && leapyear then 1 else 0)) in
      (year, month, n - preceding + 1)
    else (year, month, n - preceding + 1).

(** The last [width] decimal digits of [n]. *)
Fixpoint zero_padded (width : nat) (n : Z) (rest : string) : string :=
  match width with
  | O => rest
  | S w => zero_padded w (n / 10)
             (String (ascii_of_N (Z.to_N (48 + n mod 10))) rest)
  end.

Definition iso_format (dt : datetime) : string :=
  let '(y, m, d) := ord2ymd (dt / us_per_day) in
  let us := dt mod us_per_day in
  let secs := us / 1000000 in
  let frac := us mod 1000000 in
  zero_padded 4 y (String "-"
    (zero_padded 2 m (String "-"
      (zero_padded 2 d (String "T"
        (zero_padded 2 (secs / 3600) (String ":"
          (zero_padded 2 (secs / 60 mod 60) (String ":"
            (zero_padded 2 (secs mod 60)
              (if frac =? 0 then EmptyString
               else String "." (zero_padded 6 frac EmptyString)))))))))))).

(** The sample connection after a second user has registered, and the
    clock of the sample runs. *)
Definition registered_handler : handler :=
  (DatabaseHandler.add_user (sample_handler true) "bob" "bob@example.com" PyNone
     "2023-09-04T18:00:00").2.

Definition sample_clock (h : handler) : string := "2023-09-04T18:00:01".

(** * Properties *)

(** ** The continuation rule and the reducer *)

Lemma continues_spec P diff : continues P diff = true ↔ extends_streak P diff.
Proof.
  unfold continues, extends_streak.
  rewrite orb_true_iff, !andb_true_iff, !Z.eqb_eq, Z.gtb_ltb, Z.ltb_lt, !Z.leb_le.
  lia.
Qed.

Lemma continues_false P diff : continues P diff = false ↔ ¬ extends_streak P diff.
Proof. rewrite <- continues_spec. destruct (continues P diff); naive_solver. Qed.

Lemma extends_streak_pos P diff : extends_streak P diff → 1 ≤ diff ≤ P.
Proof. unfold extends_streak. lia. Qed.

Lemma streak_reducer_prev P acc d : (streak_reducer P acc d).1.1 = d.
Proof. destruct acc as [[p s] m]. unfold streak_reducer. by destruct (continues _ _). Qed.

Lemma fold_streak_reducer_prev P l d0 s m :
  last (d0 :: l) = Some (fold_left (streak_reducer P) l (d0, s, m)).1.1.
Proof.
  revert d0 s m. induction l as [|x l IH]; intros d0 s m; [done|].
  cbn [fold_left]. destruct (streak_reducer P (d0, s, m) x) as [[p s'] m'] eqn:E.
  rewrite <- IH. pose proof (streak_reducer_prev P (d0, s, m) x) as Hp. rewrite E in Hp.
  simpl in Hp. subst p. rewrite (last_cons d0). rewrite last_cons. by destruct (last l).
Qed.

Lemma streak_reducer_inv P d0 s m x :
  1 ≤ s ≤ m →
  let '(_, s', m') := streak_reducer P (d0, s, m) x in 1 ≤ s' ≤ m' ∧ m ≤ m'.
Proof. intros Hsm. unfold streak_reducer. destruct (continues _ _); lia. Qed.

Lemma fold_streak_reducer_inv P l d0 s m :
  1 ≤ s ≤ m →
  let '(_, s', m') := fold_left (streak_reducer P) l (d0, s, m) in 1 ≤ s' ≤ m' ∧ m ≤ m'.
Proof.
  revert d0 s m. induction l as [|x l IH]; intros d0 s m Hsm; [simpl; lia|].
  cbn [fold_left]. pose proof (streak_reducer_inv P d0 s m x Hsm) as H1.
  destruct (streak_reducer P (d0, s, m) x) as [[p s1] m1].
  specialize (IH p s1 m1 ltac:(lia)).
  destruct (fold_left _ _ _) as [[p' s'] m']. lia.
Qed.

(** C1.  Let [(prev, streak, max_streak)] be the state of the scan of
    [get_longest_streak_for_habit] after the dates [d0 :: scanned], and [curr]
    the next date, at [diff] whole days from [prev].  Then [prev] is the last
    date scanned, and for every periodicity [P]: when [P = 1] and [diff = 1],
    or [P > 1] and [1 <= diff <= P], the reducer moves to [curr] with the
    running streak incremented by 1 and the maximum raised to it if larger;
    otherwise it moves to [curr] with the running streak reset to 1 and the
    maximum unchanged.  A pair with [diff = 0] never extends the streak. *)
Theorem streak_reducer_rule (P d0 : Z) (scanned : list Z) (curr : Z) :
  let '(prev, streak, max_streak) := fold_left (streak_reducer P) scanned (d0, 1, 1) in
  let diff := days (curr - prev) in
  let next := streak_reducer P (prev, streak, max_streak) curr in
  last (d0 :: scanned) = Some prev
  ∧ (extends_streak P diff →
       next = (curr, streak + 1, Z.max max_streak (streak + 1)))
  ∧ (¬ extends_streak P diff → next = (curr, 1, max_streak))
  ∧ (diff = 0 → next = (curr, 1, max_streak)).
Proof.
  pose proof (fold_streak_reducer_prev P scanned d0 1 1) as Hprev.
  pose proof (fold_streak_reducer_inv P scanned d0 1 1 ltac:(lia)) as Hinv.
  destruct (fold_left _ _ _) as [[prev streak] max_streak]. simpl in Hprev.
  cbv zeta. split; [done|].
  assert (Hno : ¬ extends_streak P (days (curr - prev)) →
          streak_reducer P (prev, streak, max_streak) curr = (curr, 1, max_streak)).
  { intros Hn. apply continues_false in Hn. unfold streak_reducer. rewrite Hn.
    f_equal. lia. }
  split; [|split; [done|]].
  - intros He. apply continues_spec in He. unfold streak_reducer. by rewrite He.
  - intros H0. apply Hno. rewrite H0. unfold extends_streak. lia.
Qed.

(** ** Sorting *)

Lemma sorted_Permutation l : sorted l ≡ₚ l.
Proof. apply merge_sort_Permutation. Qed.

Lemma sorted_StronglySorted l : StronglySorted Z.le (sorted l).
Proof. apply (StronglySorted_merge_sort Z.le). Qed.

Lemma sorted_perm_eq l l' : l ≡ₚ l' → sorted l = sorted l'.
Proof.
  intros Hp. apply (StronglySorted_unique Z.le); try apply sorted_StronglySorted.
  by rewrite !sorted_Permutation.
Qed.

Lemma length_sorted l : length (sorted l) = length l.
Proof. apply Permutation_length, sorted_Permutation. Qed.

Lemma sorted_nil_iff l : sorted l = [] ↔ l = [].
Proof.
  split; [|by intros ->].
  intros H. apply Permutation_nil. rewrite <- H. apply sorted_Permutation.
Qed.

(** ** Comprehensions that may raise *)

Section mapM_outcome.
Context {A B : Type} (f : A → outcome B).

Lemma mapM_nil : mapM f [] = Return [].
Proof. reflexivity. Qed.

Lemma mapM_cons x l :
  mapM f (x :: l) =
    match f x with
    | Return y => match mapM f l with
                  | Return ys => Return (y :: ys)
                  | Raise e => Raise e
                  end
    | Raise e => Raise e
    end.
Proof. reflexivity. Qed.

Lemma mapM_Return l k :
  mapM f l = Return k ↔ Forall2 (λ x y, f x = Return y) l k.
Proof.
  revert k. induction l as [|x l IH]; intros k.
  - rewrite mapM_nil. split; [intros [= <-]; constructor | by inversion 1].
  - rewrite mapM_cons. split.
    + destruct (f x) as [y|] eqn:Ex; [|done].
      destruct (mapM f l) as [ys|] eqn:El; [|done].
      intros [= <-]. constructor; [done|]. by apply IH.
    + inversion 1 as [|? y ? ys Hy Hys]; subst. rewrite Hy.
      apply IH in Hys. by rewrite Hys.
Qed.

Lemma mapM_Raise l :
  (∃ e, mapM f l = Raise e) ↔ Exists (λ x, ∃ e, f x = Raise e) l.
Proof.
  induction l as [|x l IH].
  - rewrite mapM_nil. split; [by intros [? ?] | by inversion 1].
  - rewrite mapM_cons, Exists_cons, <- IH.
    destruct (f x) as [y|e].
    + destruct (mapM f l) as [ys|e]; split.
      * by intros [? ?].
      * intros [[? ?]|[? ?]]; done.
      * eauto.
      * eauto.
    + split; eauto.
Qed.

Lemma mapM_length l k : mapM f l = Return k → length k = length l.
Proof. intros H%mapM_Return. symmetry. by eapply Forall2_length. Qed.

Lemma mapM_perm l l' :
  l ≡ₚ l' →
  match mapM f l, mapM f l' with
  | Return k, Return k' => k ≡ₚ k'
  | Raise _, Raise _ => True
  | _, _ => False
  end.
Proof.
  induction 1 as [|x l l' _ IH|x y l|l l' l'' _ IH1 _ IH2].
  - by rewrite mapM_nil.
  - rewrite !mapM_cons. destruct (f x); [|done].
    destruct (mapM f l), (mapM f l'); try done. by constructor.
  - rewrite !mapM_cons. destruct (f x), (f y); try done;
      destruct (mapM f l); try done. apply perm_swap.
  - destruct (mapM f l), (mapM f l'), (mapM f l''); try done. by etrans.
Qed.
End mapM_outcome.

(** ** The cut into runs *)

Section runs.
Context (ext : Z → Z → bool).

Lemma split_runs_cons x l :
  ∃ r rs, split_runs ext (x :: l) = (x :: r) :: rs.
Proof.
  cbn [split_runs]. destruct (split_runs ext l) as [|[|y r] rs]; eauto.
  destruct (ext x y); eauto.
Qed.

Lemma split_runs_step x y l :
  split_runs ext (x :: y :: l) =
    match split_runs ext (y :: l) with
    | r :: rs => if ext x y then (x :: r) :: rs else [x] :: r :: rs
    | [] => [[x]]
    end.
Proof.
  destruct (split_runs_cons y l) as (r & rs & E).
  change (split_runs ext (x :: y :: l)) with
    (match split_runs ext (y :: l) with
     | (y :: r) :: rs =>
         if ext x y then (x :: y :: r) :: rs else [x] :: (y :: r) :: rs
     | _ => [[x]]
     end).
  by rewrite E.
Qed.

Lemma concat_split_runs l : concat (split_runs ext l) = l.
Proof.
  induction l as [|x [|y l] IH]; [done..|].
  rewrite split_runs_step. destruct (split_runs_cons y l) as (r & rs & E).
  rewrite E in *. destruct (ext x y); simpl in *; by rewrite IH.
Qed.

Lemma split_runs_nonempty l : Forall (λ r, r ≠ []) (split_runs ext l).
Proof.
  induction l as [|x [|y l] IH]; [constructor | repeat constructor; done |].
  rewrite split_runs_step. destruct (split_runs_cons y l) as (r & rs & E).
  rewrite E in *. inversion IH; subst. destruct (ext x y); repeat constructor; done.
Qed.

(** Inside a run every adjacent pair continues. *)
Lemma split_runs_chain l :
  Forall (Sorted (λ a b, ext a b = true)) (split_runs ext l).
Proof.
  induction l as [|x [|y l] IH]; [constructor | repeat constructor |].
  rewrite split_runs_step. destruct (split_runs_cons y l) as (r & rs & E).
  rewrite E in *. inversion IH as [|? ? Hr Hrs]; subst.
  destruct (ext x y) eqn:Exy.
  - apply Forall_cons; split; [|done].
    apply Sorted_cons; [done|]. by apply HdRel_cons.
  - apply Forall_cons; split; [|by apply Forall_cons].
    apply Sorted_cons; constructor.
Qed.

(** Between two neighbouring runs the pair at the border does not. *)
Lemma split_runs_maximal l pre r1 r2 post :
  split_runs ext l = pre ++ r1 :: r2 :: post →
  ∃ a b, last r1 = Some a ∧ head r2 = Some b ∧ ext a b = false.
Proof.
  revert pre r1 r2 post.
  induction l as [|x [|y l] IH]; intros pre r1 r2 post.
  - by destruct pre.
  - by destruct pre as [|? [|]].
  - rewrite split_runs_step. destruct (split_runs_cons y l) as (r & rs & E).
    rewrite E in *. destruct (ext x y) eqn:Exy.
    + destruct pre as [|p pre]; simpl; intros [= <- Hrs].
      * destruct (IH [] (y :: r) r2 post) as (a & b & Ha & Hb & Hab);
          [by rewrite <- Hrs|].
        exists a, b. by rewrite last_cons_cons.
      * apply (IH ((y :: r) :: pre) r1 r2 post). simpl. by rewrite Hrs.
    + destruct pre as [|p pre]; simpl.
      * intros [= <- <- <-]. by exists x, y.
      * intros [= <- Hrs]. by apply (IH pre r1 r2 post).
Qed.

Lemma max_run_length_ge_last l : last_run_length ext l ≤ max_run_length ext l.
Proof.
  unfold last_run_length, max_run_length.
  induction (run_lengths ext l) as [|a [|b k] IH]; simpl in *; lia.
Qed.
End runs.

Lemma reduce_streak_singleton P d : reduce_streak P [d] = Return 1.
Proof. reflexivity. Qed.

(** ** The reducer against the runs *)

Lemma fold_streak_reducer_runs P rest prev s m r rs :
  1 ≤ s ≤ m →
  split_runs (engine_ext P) (prev :: rest) = r :: rs →
  (fold_left (streak_reducer P) rest (prev, s, m)).2
  = Z.max m (foldr Z.max 0 (s - 1 + Z.of_nat (length r)
                             :: map (λ r, Z.of_nat (length r)) rs)).
Proof.
  revert prev s m r rs. induction rest as [|c rest IH]; intros prev s m r rs Hsm.
  - intros [= <- <-]. simpl. lia.
  - rewrite split_runs_step. destruct (split_runs_cons (engine_ext P) c rest) as (r' & rs' & E).
    rewrite E. cbn [fold_left]. unfold streak_reducer at 2.
    unfold engine_ext at 1.
    destruct (continues P (days (c - prev))) eqn:Ec.
    + apply continues_spec in Ec. rewrite bool_decide_eq_true_2 by done.
      intros [= <- <-].
      rewrite (IH c (s + 1) (Z.max m (s + 1)) _ _ ltac:(lia) E).
      cbn [foldr map length]. lia.
    + apply continues_false in Ec. rewrite bool_decide_eq_false_2 by done.
      intros [= <- <-].
      rewrite (IH c 1 (Z.max m s) _ _ ltac:(lia) E).
      cbn [foldr map length]. lia.
Qed.

Lemma reduce_streak_max_run P dates :
  dates ≠ [] →
  reduce_streak P dates = Return (max_run_length (engine_ext P) dates).
Proof.
  destruct dates as [|d0 rest]; [done|]. intros _.
  destruct (split_runs_cons (engine_ext P) d0 rest) as (r & rs & E).
  pose proof (fold_streak_reducer_runs P rest d0 1 1 _ _ ltac:(lia) E) as H.
  unfold reduce_streak. destruct (fold_left _ _ _) as [[p s] m]. simpl in H.
  unfold max_run_length, run_lengths. rewrite E. subst m. f_equal.
  cbn [foldr map length]. lia.
Qed.

Section engine.
Variable parse_iso : string → option Z.
Local Abbreviation fromisoformat := (fromisoformat parse_iso).
Local Abbreviation longest_streak_of := (longest_streak_of parse_iso).
Local Abbreviation parse_dates_not_None := (parse_dates_not_None parse_iso).

Lemma longest_streak_of_eq cs P :
  cs ≠ [] →
  longest_streak_of cs P =
    match parse_dates_not_None cs with
    | Raise _ => Return 0
    | Return parsed => reduce_streak P (sorted parsed)
    end.
Proof.
  intros Hne. unfold longest_streak_of. destruct cs as [|c cs]; [done|].
  destruct (parse_dates_not_None (c :: cs)) as [parsed|]; [|done].
  destruct (Nat.eqb_spec (length (sorted parsed)) 1) as [H1|]; [|done].
  destruct (sorted parsed) as [|d [|]]; done.
Qed.

Lemma fromisoformat_Return v d :
  fromisoformat v = Return d ↔ ∃ s, v = PyStr s ∧ parse_iso s = Some d.
Proof.
  destruct v as [|s]; simpl.
  - split; [done | by intros (? & ? & ?)].
  - destruct (parse_iso s) as [d'|] eqn:E; split.
    + intros [= <-]. by exists s.
    + intros (? & [= <-] & Hs). congruence.
    + done.
    + intros (? & [= <-] & Hs). congruence.
Qed.

Lemma filter_not_None_all cs parsed :
  mapM (λ c, fromisoformat (cr_completed_date c)) cs = Return parsed →
  filter (λ c, is_not_None (cr_completed_date c) = true) cs = cs.
Proof.
  intros H%mapM_Return. induction H as [|c d cs ds Hc _ IH]; [done|].
  apply fromisoformat_Return in Hc as (s & Hs & _).
  rewrite filter_cons, decide_True; [by rewrite IH | by rewrite Hs].
Qed.

Lemma longest_streak_of_parsed cs P parsed :
  cs ≠ [] →
  mapM (λ c, fromisoformat (cr_completed_date c)) cs = Return parsed →
  longest_streak_of cs P = reduce_streak P (sorted parsed).
Proof.
  intros Hne Hp. rewrite longest_streak_of_eq by done.
  unfold parse_dates_not_None. by rewrite (filter_not_None_all _ _ Hp), Hp.
Qed.

(** C2.  When the habit has at least one completion and every timestamp
    parses, [get_longest_streak_for_habit] returns the greatest length of a
    run of the sorted dates under the continuation rule; the last run is one
    of them, so the result is at least its length. *)
Theorem longest_streak_is_max_run (db : database) (habit_id P : Z) (parsed : list Z) :
  get_completions db habit_id ≠ [] →
  mapM (λ c, fromisoformat (cr_completed_date c)) (get_completions db habit_id)
    = Return parsed →
  get_longest_streak_for_habit parse_iso db habit_id P
    = Return (max_run_length (engine_ext P) (sorted parsed))
  ∧ last_run_length (engine_ext P) (sorted parsed)
    ≤ max_run_length (engine_ext P) (sorted parsed).
Proof.
  intros Hne Hp. split; [|apply max_run_length_ge_last].
  unfold get_longest_streak_for_habit.
  rewrite (longest_streak_of_parsed _ _ _ Hne Hp).
  apply reduce_streak_max_run. rewrite sorted_nil_iff. intros ->.
  apply mapM_length in Hp. by destruct (get_completions db habit_id).
Qed.

(** C5.  For every periodicity, [get_longest_streak_for_habit] returns 0 when
    the habit has no completion and 1 when it has exactly one completion,
    whose timestamp parses. *)
Theorem longest_streak_empty_and_single (db : database) (habit_id P : Z) :
  (get_completions db habit_id = [] →
     get_longest_streak_for_habit parse_iso db habit_id P = Return 0)
  ∧ (∀ c d, get_completions db habit_id = [c] →
       fromisoformat (cr_completed_date c) = Return d →
       get_longest_streak_for_habit parse_iso db habit_id P = Return 1).
Proof.
  unfold get_longest_streak_for_habit. split.
  - by intros ->.
  - intros c d -> Hd.
    rewrite (longest_streak_of_parsed [c] P [d]); [done..|].
    by rewrite mapM_cons, Hd.
Qed.
End engine.

(** ** The loop of get_all_streaks against the reducer *)

Lemma py_index_app_mid {A} (pre : list A) x post :
  py_index (pre ++ x :: post) (length pre) = Return x.
Proof. unfold py_index. by rewrite list_lookup_middle. Qed.

Lemma all_streaks_fold P pre prev rest mx cur :
  1 ≤ cur →
  (st ← foldM (all_streaks_step P (pre ++ prev :: rest))
         (seq (S (length pre)) (length rest)) (mx, cur);
   Return (Z.max st.1 st.2))
  = Return (fold_left (streak_reducer P) rest (prev, cur, Z.max mx cur)).2.
Proof.
  revert pre prev mx cur. induction rest as [|c rest IH]; intros pre prev mx cur Hcur.
  - reflexivity.
  - cbn [length seq foldM fold_left].
    assert (Hi : py_index (pre ++ prev :: c :: rest) (S (length pre)) = Return c).
    { replace (S (length pre)) with (length (pre ++ [prev])) by (rewrite length_app; simpl; lia).
      rewrite (cons_middle prev pre), app_assoc. apply py_index_app_mid. }
    assert (Hp : py_index (pre ++ prev :: c :: rest) (S (length pre) - 1) = Return prev).
    { replace (S (length pre) - 1)%nat with (length pre) by lia. apply py_index_app_mid. }
    unfold all_streaks_step at 2. rewrite Hi, Hp. cbn [mbind outcome_bind].
    unfold streak_reducer at 2.
    assert (Hrule : (1 <=? days (c - prev)) && (days (c - prev) <=? P)
                    = continues P (days (c - prev))).
    { unfold continues. generalize (days (c - prev)) as diff. intros diff.
      rewrite Z.gtb_ltb.
      destruct (Z.eqb_spec P 1), (Z.ltb_spec 1 P), (Z.eqb_spec diff 1),
        (Z.leb_spec 1 diff), (Z.leb_spec diff P); simpl; try reflexivity; lia. }
    rewrite Hrule. specialize (IH (pre ++ [prev]) c).
    rewrite length_app in IH. simpl in IH. rewrite Nat.add_1_r in IH.
    rewrite <- app_assoc in IH. simpl in IH.
    destruct (continues P (days (c - prev))).
    + cbn [mbind outcome_bind]. rewrite (IH mx (cur + 1)) by lia.
      by replace (Z.max (Z.max mx cur) (cur + 1)) with (Z.max mx (cur + 1)) by lia.
    + cbn [mbind outcome_bind]. rewrite (IH (Z.max mx cur) 1) by lia.
      by replace (Z.max (Z.max mx cur) 1) with (Z.max (Z.max mx cur) cur) by lia.
Qed.

Lemma all_streaks_loop_reduce P dates :
  dates ≠ [] → all_streaks_loop P dates = reduce_streak P dates.
Proof.
  destruct dates as [|d0 rest]; [done|]. intros _.
  pose proof (all_streaks_fold P [] d0 rest 1 1 ltac:(lia)) as H.
  unfold all_streaks_loop, reduce_streak. cbn [length]. rewrite Nat.sub_1_r. simpl pred.
  simpl app in H. simpl length in H. rewrite H.
  by destruct (fold_left _ _ _) as [[? ?] ?].
Qed.

Section batch.
Variable parse_iso : string → option Z.

Lemma all_streaks_calculate_streak_engine db h v :
  all_streaks_calculate_streak parse_iso db h = Return v →
  get_longest_streak_for_habit parse_iso db (hr_id h) (hr_periodicity h) = Return v.
Proof.
  unfold all_streaks_calculate_streak, get_longest_streak_for_habit.
  destruct (get_completions db (hr_id h)) as [|c cs] eqn:Ecs; [done|].
  destruct (mapM _ (c :: cs)) as [parsed|e] eqn:Ep; [|done].
  cbn [mbind outcome_bind]. intros Hl.
  rewrite (longest_streak_of_parsed parse_iso (c :: cs) _ parsed) by done.
  rewrite <- Hl. symmetry. apply all_streaks_loop_reduce.
  rewrite sorted_nil_iff. intros ->. by apply mapM_length in Ep.
Qed.

(** C3.  Whenever [get_all_streaks] returns, its list pairs the owned
    habits, in order, each with its name and with the very value that
    [get_longest_streak_for_habit] returns for that habit and its
    periodicity. *)
Theorem get_all_streaks_agrees (db : database) (user_id : Z) (l : list (string * Z)) :
  get_all_streaks parse_iso db user_id = Return l →
  Forall2 (λ h e, e.1 = hr_name h
                  ∧ get_longest_streak_for_habit parse_iso db (hr_id h) (hr_periodicity h)
                    = Return e.2)
          (get_all_habits db user_id) l.
Proof.
  unfold get_all_streaks. intros H.
  assert (Hm : mapM (λ h, s ← all_streaks_calculate_streak parse_iso db h;
                          Return (hr_name h, s)) (get_all_habits db user_id) = Return l).
  { by destruct (get_all_habits db user_id). }
  clear H. apply mapM_Return in Hm.
  eapply Forall2_impl; [exact Hm|]. intros h [n s] Hh. simpl in *.
  destruct (all_streaks_calculate_streak parse_iso db h) as [v|] eqn:Ev; [|done].
  cbn [mbind outcome_bind] in Hh. injection Hh as <- <-.
  split; [done|]. by apply all_streaks_calculate_streak_engine.
Qed.
End batch.

(** ** max with a key *)

Section py_max_by.
Context {A : Type} (key : A → Z).

Local Abbreviation pick := (λ best y : A, if key best <? key y then y else best).

Lemma fold_pick_first done best l :
  (∃ pre post, done = pre ++ best :: post
               ∧ Forall (λ y, key y < key best) pre
               ∧ Forall (λ y, key y ≤ key best) post) →
  ∃ pre post, done ++ l = pre ++ fold_left pick l best :: post
              ∧ Forall (λ y, key y < key (fold_left pick l best)) pre
              ∧ Forall (λ y, key y ≤ key (fold_left pick l best)) post.
Proof.
  revert done best. induction l as [|y l IH]; intros done best (pre & post & -> & Hpre & Hpost).
  - exists pre, post. by rewrite app_nil_r.
  - cbn [fold_left]. rewrite (cons_middle y), app_assoc. apply IH.
    destruct (Z.ltb_spec (key best) (key y)) as [Hlt|Hge].
    + exists (pre ++ best :: post), []. split; [done|]. split; [|constructor].
      apply Forall_app. split; [|apply Forall_cons; split].
      * eapply Forall_impl; [exact Hpre|]. simpl. lia.
      * lia.
      * eapply Forall_impl; [exact Hpost|]. simpl. lia.
    + exists pre, (post ++ [y]). split; [by rewrite <- app_assoc|].
      split; [done|]. apply Forall_app. split; [done|].
      apply Forall_cons. split; [lia|constructor].
Qed.

(** [max] returns the first element of greatest key. *)
Lemma py_max_by_first x l d :
  ∃ pre post, x :: l = pre ++ py_max_by key (x :: l) d :: post
              ∧ Forall (λ y, key y < key (py_max_by key (x :: l) d)) pre
              ∧ Forall (λ y, key y ≤ key (py_max_by key (x :: l) d)) post.
Proof.
  apply (fold_pick_first [x] x l). exists [], []. repeat split; constructor.
Qed.
End py_max_by.

Section aggregator.
Variable parse_iso : string → option Z.
Local Abbreviation engine := (λ db h,
  get_longest_streak_for_habit parse_iso db (hr_id h) (hr_periodicity h)).

Lemma get_longest_streak_eq db user_id streaks :
  get_all_habits db user_id ≠ [] →
  Forall2 (λ h e, ∃ v, e = (Some h, v) ∧ engine db h = Return v)
          (get_all_habits db user_id) streaks →
  get_longest_streak parse_iso db user_id = Return (py_max_by snd streaks (None, 0)).
Proof.
  intros Hne HF. unfold get_longest_streak.
  destruct (get_all_habits db user_id) as [|h hs] eqn:E; [done|].
  assert (Hm : mapM (λ habit, s ← engine db habit; Return (Some habit, s)) (h :: hs)
               = Return streaks).
  { apply mapM_Return. eapply Forall2_impl; [exact HF|].
    intros h' e (v & -> & Hv). simpl. by rewrite Hv. }
  simpl in Hm. simpl. by rewrite Hm.
Qed.

Lemma engine_streaks db (hs : list habit_row) :
  Forall (λ h, ∃ v, engine db h = Return v) hs →
  ∃ streaks, Forall2 (λ h e, ∃ v, e = (Some h, v) ∧ engine db h = Return v) hs streaks.
Proof.
  induction 1 as [|h hs [v Hv] _ [streaks IH]]; [by exists []|].
  exists ((Some h, v) :: streaks). constructor; eauto.
Qed.

(** C6.  For a user without habits [get_longest_streak] returns
    [(None, 0)].  For a user with habits, each of which has a Streak Engine
    value, it returns a habit of the list together with its Streak Engine
    value; every habit before it in the list has a strictly smaller value and
    every habit after it a value at most equal: the first habit of greatest
    streak. *)
Theorem get_longest_streak_selects (db : database) (user_id : Z) :
  (get_all_habits db user_id = [] →
     get_longest_streak parse_iso db user_id = Return (None, 0))
  ∧ (get_all_habits db user_id ≠ [] →
     Forall (λ h, ∃ v, engine db h = Return v) (get_all_habits db user_id) →
     ∃ pre h post v,
       get_all_habits db user_id = pre ++ h :: post
       ∧ get_longest_streak parse_iso db user_id = Return (Some h, v)
       ∧ engine db h = Return v
       ∧ Forall (λ h', ∃ v', engine db h' = Return v' ∧ v' < v) pre
       ∧ Forall (λ h', ∃ v', engine db h' = Return v' ∧ v' ≤ v) post).
Proof.
  split.
  - unfold get_longest_streak. by intros ->.
  - intros Hne Hall. destruct (engine_streaks db _ Hall) as [streaks HF].
    rewrite (get_longest_streak_eq db user_id streaks Hne HF).
    destruct streaks as [|e0 streaks].
    { apply Forall2_nil_inv_r in HF. done. }
    destruct (py_max_by_first snd e0 streaks (None, 0)) as (spre & spost & Hs & Hpre & Hpost).
    set (best := py_max_by snd (e0 :: streaks) (None, 0)) in *.
    rewrite Hs in HF.
    apply Forall2_app_inv_r in HF as (pre & tl & HFpre & HFtl & Eh).
    apply Forall2_cons_inv_r in HFtl as (h & post & (v & Hbest & Hv) & HFpost & ->).
    exists pre, h, post, v. rewrite Hbest in *. simpl in *.
    repeat split; [done..| |].
    + clear -HFpre Hpre. induction HFpre as [|h' e' ? ? (v' & -> & Hv') _ IH]; [constructor|].
      apply Forall_cons in Hpre as [Hlt Hpre]. constructor; eauto.
    + clear -HFpost Hpost. induction HFpost as [|h' e' ? ? (v' & -> & Hv') _ IH]; [constructor|].
      apply Forall_cons in Hpost as [Hle Hpost]. constructor; eauto.
Qed.

(** C9.  When the user owns habits and none of them has a completion,
    [get_longest_streak] returns the first habit of the list with streak 0, a
    habit record and not [None]; and whenever [get_longest_streak] returns
    [None] as its first component the user owns no habit. *)
Theorem get_longest_streak_no_completions (db : database) (user_id : Z) :
  (∀ h0 rest,
     get_all_habits db user_id = h0 :: rest →
     Forall (λ h, get_completions db (hr_id h) = []) (h0 :: rest) →
     get_longest_streak parse_iso db user_id = Return (Some h0, 0))
  ∧ (∀ v, get_longest_streak parse_iso db user_id = Return (None, v) →
       get_all_habits db user_id = []).
Proof.
  split.
  - intros h0 rest E Hnone.
    assert (Hall : Forall (λ h, engine db h = Return 0) (h0 :: rest)).
    { eapply Forall_impl; [exact Hnone|]. intros h Hh. simpl.
      unfold get_longest_streak_for_habit. by rewrite Hh. }
    assert (HF : Forall2 (λ h e, ∃ v, e = (Some h, v) ∧ engine db h = Return v)
                   (h0 :: rest) (map (λ h, (Some h, 0)) (h0 :: rest))).
    { clear -Hall. induction Hall; constructor; eauto. }
    rewrite (get_longest_streak_eq db user_id (map (λ h, (Some h, 0)) (h0 :: rest)));
      [|by rewrite E..].
    f_equal. cbn [map py_max_by].
    assert (G : ∀ b : option habit_row * Z, b.2 = 0 →
              fold_left (λ best y, if best.2 <? y.2 then y else best)
                (map (λ h, (Some h, 0)) rest) b = b); [|by apply G].
    clear. induction rest as [|h rest IH]; intros b Hb; [done|].
    simpl. rewrite Hb. simpl. by apply IH.
  - intros v. unfold get_longest_streak.
    destruct (get_all_habits db user_id) as [|h hs] eqn:E; [done|].
    destruct (mapM _ (h :: hs)) as [streaks|] eqn:Em; [|done].
    cbn [mbind outcome_bind]. intros [= Hmax]. exfalso.
    apply mapM_Return in Em. destruct streaks as [|e0 streaks]; [by inversion Em|].
    destruct (py_max_by_first snd e0 streaks (None, 0)) as (spre & spost & Hs & _).
    rewrite Hmax in Hs. rewrite Hs in Em.
    apply Forall2_app_inv_r in Em as (pre & tl & _ & HFtl & _).
    apply Forall2_cons_inv_r in HFtl as (h' & post & Hh' & _).
    destruct (get_longest_streak_for_habit _ _ _ _); done.
Qed.
End aggregator.

(** ** The most recent completion and the due-today predicate *)

Lemma string_compare_refl s : String.compare s s = Eq.
Proof.
  induction s as [|a s IH]; [done|]. simpl.
  unfold Ascii.compare. by rewrite N.compare_refl.
Qed.

Lemma string_compare_Lt_trans s1 s2 s3 :
  String.compare s1 s2 = Lt → String.compare s2 s3 = Lt → String.compare s1 s3 = Lt.
Proof.
  revert s2 s3. induction s1 as [|a s1 IH]; intros [|b s2] [|c s3]; simpl; try done.
  unfold Ascii.compare.
  destruct (N.compare_spec (N_of_ascii a) (N_of_ascii b)) as [Hab|Hab|Hab];
    destruct (N.compare_spec (N_of_ascii b) (N_of_ascii c)) as [Hbc|Hbc|Hbc];
    destruct (N.compare_spec (N_of_ascii a) (N_of_ascii c)) as [Hac|Hac|Hac];
    try done; try lia.
  apply IH.
Qed.

Lemma string_leb_iff s t : String.leb s t = true ↔ String.compare s t = Lt ∨ s = t.
Proof.
  unfold String.leb. destruct (String.compare s t) eqn:E.
  - apply String.compare_eq_iff in E. split; [by right | done].
  - split; [by left | done].
  - split; [done|]. intros [?| ->]; [done|]. by rewrite string_compare_refl in E.
Qed.

Lemma string_leb_trans s1 s2 s3 :
  String.leb s1 s2 = true → String.leb s2 s3 = true → String.leb s1 s3 = true.
Proof.
  rewrite !string_leb_iff. intros [H12| ->] [H23| ->]; eauto using string_compare_Lt_trans.
Qed.

Lemma sql_le_refl a : sql_le a a = true.
Proof. destruct a; [done|]. apply string_leb_iff. by right. Qed.

Lemma sql_le_trans a b c : sql_le a b = true → sql_le b c = true → sql_le a c = true.
Proof. destruct a, b, c; simpl; try done. apply string_leb_trans. Qed.

Lemma sql_le_total a b : sql_le a b = false → sql_le b a = true.
Proof.
  destruct a as [|s], b as [|t]; simpl; try done.
  destruct (String.leb_total s t) as [->| ->]; done.
Qed.

Lemma fold_latest_spec (cs : list completion_row) (c : completion_row) :
  let r := fold_left (λ best c', if sql_le (cr_completed_date c') (cr_completed_date best)
                                 then best else c') cs c in
  r ∈ c :: cs
  ∧ Forall (λ c', sql_le (cr_completed_date c') (cr_completed_date r) = true) (c :: cs).
Proof.
  revert c. induction cs as [|x cs IH]; intros c; cbn [fold_left].
  - split; [by left|]. constructor; [apply sql_le_refl | constructor].
  - destruct (sql_le (cr_completed_date x) (cr_completed_date c)) eqn:E.
    + destruct (IH c) as [Hin HF]. apply Forall_cons in HF as [Hc HF]. split.
      * apply elem_of_cons in Hin as [->|Hin]; [by left|]. by do 2 right.
      * repeat (apply Forall_cons; split); eauto using sql_le_trans.
    + destruct (IH x) as [Hin HF]. apply Forall_cons in HF as [Hx HF]. split.
      * by right.
      * repeat (apply Forall_cons; split); eauto using sql_le_trans, sql_le_total.
Qed.

Lemma get_last_completion_None db habit_id :
  get_last_completion db habit_id = None ↔ get_completions db habit_id = [].
Proof. unfold get_last_completion. by destruct (get_completions db habit_id). Qed.

Lemma get_last_completion_latest db habit_id c :
  get_last_completion db habit_id = Some c →
  c ∈ get_completions db habit_id
  ∧ Forall (λ c', sql_le (cr_completed_date c') (cr_completed_date c) = true)
           (get_completions db habit_id).
Proof.
  unfold get_last_completion. destruct (get_completions db habit_id) as [|c0 cs]; [done|].
  intros [= <-]. apply fold_latest_spec.
Qed.

Lemma filterM_Return {A} (p : A → outcome bool) (q : A → bool) l :
  Forall (λ x, p x = Return (q x)) l →
  filterM p l = Return (filter (λ x, q x = true) l).
Proof.
  induction 1 as [|x l Hx _ IH]; [done|].
  cbn [filterM]. rewrite Hx, IH. cbn [mbind outcome_bind].
  rewrite filter_cons. by destruct (q x).
Qed.

Section due.
Variable parse_iso : string → option Z.

(** When the stored texts of the habit are ordered as the dates they denote
    (as are the texts written by [isoformat]), the row returned by
    [get_last_completion] carries the latest date of the habit. *)
Lemma get_last_completion_most_recent db habit_id c last :
(∀ c1 c2 d1 d2,
   c1 ∈ get_completions db habit_id → c2 ∈ get_completions db habit_id →
   fromisoformat parse_iso (cr_completed_date c1) = Return d1 →
   fromisoformat parse_iso (cr_completed_date c2) = Return d2 →
   sql_le (cr_completed_date c1) (cr_completed_date c2) = true → d1 ≤ d2) →
get_last_completion db habit_id = Some c →
fromisoformat parse_iso (cr_completed_date c) = Return last →
∀ c' d', c' ∈ get_completions db habit_id →
  fromisoformat parse_iso (cr_completed_date c') = Return d' → d' ≤ last.
Proof.
  intros Hmono Hc Hlast c' d' Hin Hd'.
  apply get_last_completion_latest in Hc as [Hcin HF].
  rewrite Forall_forall in HF. by apply (Hmono c' c d' last Hin Hcin Hd' Hlast), HF.
Qed.

(** C7.  [is_due_today] returns [True] exactly when the habit has no
    completion, or the timestamp of its most recent completion parses and
    lies at least [periodicity] whole days before [today]; it returns [False]
    exactly when that timestamp parses and lies fewer days before.  The most
    recent completion is a completion of the habit whose stored timestamp is
    greatest.  With the last completion 3 days ago, a habit of periodicity 1
    is due and a habit of periodicity 7 is not. *)
Theorem is_due_today_spec (db : database) (today : Z) (habit : habit_row) :
  (is_due_today parse_iso db today habit = Return true ↔
     get_completions db (hr_id habit) = []
     ∨ ∃ c last, get_last_completion db (hr_id habit) = Some c
                 ∧ fromisoformat parse_iso (cr_completed_date c) = Return last
                 ∧ hr_periodicity habit ≤ today - date last)
  ∧ (is_due_today parse_iso db today habit = Return false ↔
     ∃ c last, get_last_completion db (hr_id habit) = Some c
               ∧ fromisoformat parse_iso (cr_completed_date c) = Return last
               ∧ today - date last < hr_periodicity habit)
  ∧ (∀ c, get_last_completion db (hr_id habit) = Some c →
       c ∈ get_completions db (hr_id habit)
       ∧ Forall (λ c', sql_le (cr_completed_date c') (cr_completed_date c) = true)
                (get_completions db (hr_id habit)))
  ∧ (∀ c last, get_last_completion db (hr_id habit) = Some c →
       fromisoformat parse_iso (cr_completed_date c) = Return last →
       today - date last = 3 →
       (hr_periodicity habit = 1 → is_due_today parse_iso db today habit = Return true)
       ∧ (hr_periodicity habit = 7 → is_due_today parse_iso db today habit = Return false)).
Proof.
  pose proof (get_last_completion_None db (hr_id habit)) as HN.
  pose proof (get_last_completion_latest db (hr_id habit)) as HL.
  unfold is_due_today.
  destruct (get_last_completion db (hr_id habit)) as [c|].
  - assert (Hne : get_completions db (hr_id habit) ≠ []).
    { intros H. by apply HN in H. }
    destruct (fromisoformat parse_iso (cr_completed_date c)) as [last|e] eqn:El;
      cbn [mbind outcome_bind].
    + split; [|split; [|split]].
      * split.
        -- intros [= H%Z.leb_le]. right. by exists c, last.
        -- intros [?|(c' & last' & [= <-] & Hl & Hge)]; [done|].
           rewrite El in Hl. injection Hl as <-. f_equal. by apply Z.leb_le.
      * split.
        -- intros [= H%Z.leb_gt]. by exists c, last.
        -- intros (c' & last' & [= <-] & Hl & Hlt).
           rewrite El in Hl. injection Hl as <-. f_equal. by apply Z.leb_gt.
      * intros c' [= <-]. by apply HL.
      * intros c' last' [= <-] Hl H3. rewrite El in Hl. injection Hl as <-.
        split; intros HP; f_equal.
        -- apply Z.leb_le. lia.
        -- apply Z.leb_gt. lia.
    + split; [|split; [|split]].
      * split; [done|]. intros [?|(c' & last' & [= <-] & Hl & _)]; [done|]. congruence.
      * split; [done|]. intros (c' & last' & [= <-] & Hl & _). congruence.
      * intros c' [= <-]. by apply HL.
      * intros c' last' [= <-] Hl. congruence.
  - split; [|split; [|split]].
    + split; [|done]. intros _. left. by apply HN.
    + split; [done|]. by intros (c & last & ? & _).
    + done.
    + done.
Qed.
(** The habits returned by [get_habits_to_complete_today] are the owned
    habits on which [is_due_today] is [True], in the order of retrieval. *)
Lemma get_habits_to_complete_today_Return db today user_id (due : habit_row → bool) :
Forall (λ h, is_due_today parse_iso db today h = Return (due h))
       (get_all_habits db user_id) →
get_habits_to_complete_today parse_iso db today user_id
= Return (filter (λ h, due h = true) (get_all_habits db user_id)).
Proof. apply filterM_Return. Qed.
End due.

(** ** Missing and malformed timestamps *)

Section timestamps.
Variable parse_iso : string → option Z.
Local Abbreviation fromisoformat := (fromisoformat parse_iso).
Local Abbreviation longest_streak_of := (longest_streak_of parse_iso).
Local Abbreviation parse_dates_not_None := (parse_dates_not_None parse_iso).
Local Abbreviation valid := (has_valid_timestamp parse_iso).

Lemma valid_Return c : valid c = true ↔ ∃ d, fromisoformat (cr_completed_date c) = Return d.
Proof.
  unfold has_valid_timestamp.
  destruct (fromisoformat (cr_completed_date c)) as [d|e]; split; try done.
  - by exists d.
  - by intros [? ?].
Qed.

Lemma valid_not_None c : valid c = true → is_not_None (cr_completed_date c) = true.
Proof. intros (d & (s & -> & _)%fromisoformat_Return)%valid_Return. done. Qed.

Lemma filter_valid_not_None cs :
  Forall (λ c, cr_completed_date c = PyNone ∨ valid c = true) cs →
  filter (λ c, is_not_None (cr_completed_date c) = true) cs
  = filter (λ c, valid c = true) cs.
Proof.
  induction 1 as [|c cs Hc _ IH]; [done|]. rewrite !filter_cons, IH.
  destruct Hc as [Hc|Hc].
  - rewrite !decide_False; [done| |].
    + unfold has_valid_timestamp. by rewrite Hc.
    + by rewrite Hc.
  - rewrite !decide_True; [done..|]. by apply valid_not_None.
Qed.

Lemma mapM_valid cs :
  Forall (λ c, valid c = true) cs →
  ∃ parsed, mapM (λ c, fromisoformat (cr_completed_date c)) cs = Return parsed.
Proof.
  induction 1 as [|c cs [d Hd]%valid_Return _ [parsed IH]]; [by exists []|].
  exists (d :: parsed). by rewrite mapM_cons, Hd, IH.
Qed.

Lemma reduce_streak_Return P dates : dates ≠ [] → ∃ v, reduce_streak P dates = Return v.
Proof. intros H. rewrite reduce_streak_max_run by done. eauto. Qed.



Lemma all_streaks_loop_Return P dates : ∃ v, all_streaks_loop P dates = Return v.
Proof.
  destruct dates as [|d rest]; [by exists 1|].
  rewrite all_streaks_loop_reduce by done. by apply reduce_streak_Return.
Qed.

Lemma all_streaks_calculate_streak_Raise db h :
  (∃ e, all_streaks_calculate_streak parse_iso db h = Raise e) ↔
  Exists (λ c, valid c = false) (get_completions db (hr_id h)).
Proof.
  unfold all_streaks_calculate_streak.
  destruct (get_completions db (hr_id h)) as [|c cs] eqn:E.
  { split; [by intros [? ?] | by inversion 1]. }
  assert (Hiff : Exists (λ c, valid c = false) (c :: cs) ↔
                 ∃ e, mapM (λ c, fromisoformat (cr_completed_date c)) (c :: cs) = Raise e).
  { rewrite mapM_Raise. apply Exists_proper; [|done]. intros c'.
    unfold has_valid_timestamp. destruct (fromisoformat (cr_completed_date c')); split;
      try done; [by intros [? ?] | by eauto]. }
  rewrite Hiff. destruct (mapM _ (c :: cs)) as [parsed|e]; cbn [mbind outcome_bind].
  - destruct (all_streaks_loop_Return (hr_periodicity h) (sorted parsed)) as [v ->].
    split; by intros [? ?].
  - split; eauto.
Qed.

(** C4, amended.  A completion whose timestamp is missing ([None]) is left
    out by [get_longest_streak_for_habit]: when every timestamp present
    parses and at least one is present, the call returns, without error, the
    streak computed over the completions with a valid timestamp alone.  When
    some timestamp present does not parse, the call raises no error and
    returns 0 for the whole habit.  [get_all_streaks] raises as soon as an
    owned habit has a completion whose timestamp is missing or does not
    parse. *)
Theorem timestamps_missing_or_malformed (db : database) (habit_id P : Z) :
  let cs := get_completions db habit_id in
  (Forall (λ c, cr_completed_date c = PyNone ∨ valid c = true) cs →
   Exists (λ c, valid c = true) cs →
     get_longest_streak_for_habit parse_iso db habit_id P
       = longest_streak_of (filter (λ c, valid c = true) cs) P
     ∧ ∃ v, get_longest_streak_for_habit parse_iso db habit_id P = Return v)
  ∧ (Exists (λ c, ∃ s, cr_completed_date c = PyStr s ∧ parse_iso s = None) cs →
     get_longest_streak_for_habit parse_iso db habit_id P = Return 0)
  ∧ (∀ user_id h, h ∈ get_all_habits db user_id →
     Exists (λ c, valid c = false) (get_completions db (hr_id h)) →
     ∃ e, get_all_streaks parse_iso db user_id = Raise e).
Proof.
  intros cs. split; [|split].
  - intros Hall Hex. unfold get_longest_streak_for_habit. fold cs.
    assert (Hne : cs ≠ []) by (intros ->; by inversion Hex).
    assert (Hvne : filter (λ c, valid c = true) cs ≠ []).
    { apply Exists_exists in Hex as (c & Hc & Hv). intros Hnil.
      assert (c ∈ filter (λ c, valid c = true) cs) as Hin by by apply list_elem_of_filter.
      rewrite Hnil in Hin. by apply elem_of_nil in Hin. }
    destruct (mapM_valid (filter (λ c, valid c = true) cs)) as [parsed Hp].
    { apply Forall_forall. by intros c [? _]%list_elem_of_filter. }
    assert (E : longest_streak_of cs P = reduce_streak P (sorted parsed)).
    { rewrite longest_streak_of_eq by done. unfold parse_dates_not_None.
      by rewrite (filter_valid_not_None cs Hall), Hp. }
    rewrite E, (longest_streak_of_parsed parse_iso _ P parsed Hvne Hp). split; [done|].
    apply reduce_streak_Return. rewrite sorted_nil_iff. intros ->.
    apply mapM_length in Hp. by destruct (filter _ cs).
  - intros Hex. unfold get_longest_streak_for_habit. fold cs.
    assert (Hne : cs ≠ []) by (intros ->; by inversion Hex).
    rewrite longest_streak_of_eq by done. unfold parse_dates_not_None.
    assert (∃ e, mapM (λ c, fromisoformat (cr_completed_date c))
                   (filter (λ c, is_not_None (cr_completed_date c) = true) cs)
                 = Raise e) as [e ->]; [|done].
    apply mapM_Raise, Exists_exists.
    apply Exists_exists in Hex as (c & Hc & s & Hs & Hnone).
    exists c. split.
    + apply list_elem_of_filter. by rewrite Hs.
    + exists (ValueError s). rewrite Hs. simpl. by rewrite Hnone.
  - intros user_id h Hh Hex. unfold get_all_streaks.
    assert (∃ e, mapM (λ h, s ← all_streaks_calculate_streak parse_iso db h;
                            Return (hr_name h, s)) (get_all_habits db user_id)
                 = Raise e) as [e He].
    { apply mapM_Raise, Exists_exists. exists h. split; [done|].
      apply all_streaks_calculate_streak_Raise in Hex as [e He].
      exists e. by rewrite He. }
    exists e. destruct (get_all_habits db user_id); [by apply elem_of_nil in Hh | done].
Qed.
End timestamps.

(** ** Order of the rows and the objects of a call *)

Section order.
Variable parse_iso : string → option Z.
Local Abbreviation longest_streak_of := (longest_streak_of parse_iso).

Lemma longest_streak_of_perm cs cs' P :
  cs ≡ₚ cs' → longest_streak_of cs P = longest_streak_of cs' P.
Proof.
  intros Hp. destruct (decide (cs = [])) as [->|Hne].
  { apply Permutation_nil in Hp. by subst. }
  assert (Hne' : cs' ≠ []).
  { intros ->. by apply Permutation_nil_r in Hp. }
  rewrite !longest_streak_of_eq by done. unfold parse_dates_not_None.
  pose proof (mapM_perm (λ c, fromisoformat parse_iso (cr_completed_date c))
    (filter (λ c, is_not_None (cr_completed_date c) = true) cs)
    (filter (λ c, is_not_None (cr_completed_date c) = true) cs')
    ltac:(by rewrite Hp)) as H.
  destruct (mapM _ _) as [parsed|], (mapM _ _) as [parsed'|]; try done.
  by rewrite (sorted_perm_eq parsed parsed').
Qed.

End order.

(** Primitive steps of the world monad. *)
Lemma bind_run {A B} (m : M A) (k : A → M B) w :
  (m ≫= k) w = match m w with
               | (Return a, w') => k a w'
               | (Raise e, w') => (Raise e, w')
               end.
Proof. reflexivity. Qed.

Lemma read_rows_at r l w :
  w_heap w !! r = Some (RowList l) → read_rows r w = (Return l, w).
Proof. unfold read_rows. by intros ->. Qed.

Lemma read_dates_at r l w :
  w_heap w !! r = Some (DateList l) → read_dates r w = (Return l, w).
Proof. unfold read_dates. by intros ->. Qed.

Lemma new_list_run o w :
  new_list o w = (Return (length (w_heap w)),
                  {| w_db := w_db w; w_heap := w_heap w ++ [o] |}).
Proof. reflexivity. Qed.

Lemma lookup_snoc_length {A} (l : list A) x : (l ++ [x]) !! length l = Some x.
Proof. by rewrite list_lookup_middle. Qed.

Lemma read_rows_snoc db h l :
  read_rows (length h) {| w_db := db; w_heap := h ++ [RowList l] |}
  = (Return l, {| w_db := db; w_heap := h ++ [RowList l] |}).
Proof. apply read_rows_at, lookup_snoc_length. Qed.

Lemma read_dates_snoc db h l :
  read_dates (length h) {| w_db := db; w_heap := h ++ [DateList l] |}
  = (Return l, {| w_db := db; w_heap := h ++ [DateList l] |}).
Proof. apply read_dates_at, lookup_snoc_length. Qed.

Lemma read_dates_snoc_snoc db h l o :
  read_dates (length h) {| w_db := db; w_heap := (h ++ [DateList l]) ++ [o] |}
  = (Return l, {| w_db := db; w_heap := (h ++ [DateList l]) ++ [o] |}).
Proof.
  apply read_dates_at. cbn [w_heap].
  rewrite lookup_app_l by (rewrite length_app; simpl; lia). apply lookup_snoc_length.
Qed.

Section objects.
Variable parse_iso : string → option Z.

(** The run over the world returns the value of the functional reading,
    leaves the database as it was and only appends to the heap; the first
    object appended is the list of rows obtained from the database. *)
Lemma get_longest_streak_for_habit_obj_run habit_id P w :
  ∃ extra,
    get_longest_streak_for_habit_obj parse_iso habit_id P w
    = (get_longest_streak_for_habit parse_iso (w_db w) habit_id P,
       {| w_db := w_db w;
          w_heap := w_heap w ++ RowList (get_completions (w_db w) habit_id) :: extra |}).
Proof.
  destruct w as [db heap]. cbn [w_db w_heap].
  unfold get_longest_streak_for_habit_obj, get_longest_streak_for_habit, longest_streak_of.
  rewrite bind_run. unfold db_get_completions. rewrite new_list_run. cbn [w_db w_heap].
  rewrite bind_run, read_rows_snoc.
  destruct (get_completions db habit_id) as [|c cs0]; [by exists []|].
  set (cs := c :: cs0) in *.
  rewrite bind_run. unfold try_except at 1. rewrite bind_run, read_rows_snoc, bind_run.
  unfold lift at 1.
  destruct (parse_dates_not_None parse_iso cs) as [parsed|e]; [|by exists []].
  rewrite bind_run, new_list_run. cbn [w_db w_heap].
  rewrite bind_run, read_dates_snoc, bind_run, new_list_run. cbn [w_db w_heap mret M_ret].
  rewrite bind_run, read_dates_snoc.
  destruct (length (sorted parsed) =? 1)%nat.
  { exists [DateList parsed; DateList (sorted parsed)]. by rewrite <- !app_assoc. }
  rewrite bind_run, read_dates_snoc, bind_run, new_list_run. cbn [w_db w_heap].
  rewrite bind_run, read_dates_snoc_snoc, bind_run. unfold lift at 1.
  exists [DateList parsed; DateList (sorted parsed); DateList (drop 1 (sorted parsed))].
  destruct (sorted parsed) as [|d0 rest] eqn:Es.
  { unfold py_index. cbn [lookup list_lookup reduce_streak]. by rewrite <- !app_assoc. }
  unfold py_index. cbn [lookup list_lookup]. rewrite bind_run, read_dates_snoc.
  unfold reduce_streak. rewrite (drop_0 rest : drop 1 (d0 :: rest) = rest).
  destruct (fold_left _ _ _) as [[? ?] ?]. cbn [mret M_ret]. by rewrite <- !app_assoc.
Qed.

(** C8.  If the completions selected for the habit in two worlds are
    permutations of each other, [get_longest_streak_for_habit] returns the
    same result in both.  The value is that of the functional reading; after
    the call the database is the one before the call, every list object that
    existed before the call is unchanged, and the list of rows obtained from
    the database still holds the same rows in the same order. *)
Theorem engine_order_invariant_input_untouched (habit_id P : Z) (w w' : world) :
  get_completions (w_db w) habit_id ≡ₚ get_completions (w_db w') habit_id →
  (get_longest_streak_for_habit_obj parse_iso habit_id P w).1
    = (get_longest_streak_for_habit_obj parse_iso habit_id P w').1
  ∧ (get_longest_streak_for_habit_obj parse_iso habit_id P w).1
    = get_longest_streak_for_habit parse_iso (w_db w) habit_id P
  ∧ (let w1 := (get_longest_streak_for_habit_obj parse_iso habit_id P w).2 in
     w_db w1 = w_db w
     ∧ (∀ r o, w_heap w !! r = Some o → w_heap w1 !! r = Some o)
     ∧ w_heap w1 !! length (w_heap w)
       = Some (RowList (get_completions (w_db w) habit_id))).
Proof.
  intros Hp.
  destruct (get_longest_streak_for_habit_obj_run habit_id P w) as [extra ->].
  destruct (get_longest_streak_for_habit_obj_run habit_id P w') as [extra' ->].
  cbn [fst snd w_db w_heap]. split; [|split; [done|split; [done|split]]].
  - by apply longest_streak_of_perm.
  - intros r o Hr. by apply lookup_app_l_Some.
  - by rewrite list_lookup_middle.
Qed.
End objects.

(** ** Habit.calculate_streak *)

Lemma calculate_streak_step_run self w pre prev c rest streak :
  w_heap w !! completions self = Some (DateList (pre ++ prev :: c :: rest)) →
  calculate_streak_step self streak (S (length pre)) w
  = (Return (if within_ext (periodicity self) prev c then streak + 1 else 1), w).
Proof.
  intros Hw. unfold calculate_streak_step.
  assert (Hi : py_index (pre ++ prev :: c :: rest) (S (length pre)) = Return c).
  { unfold py_index. rewrite (cons_middle prev pre), app_assoc.
    replace (S (length pre)) with (length (pre ++ [prev])) by (rewrite length_app; simpl; lia).
    by rewrite list_lookup_middle. }
  assert (Hp : py_index (pre ++ prev :: c :: rest) (S (length pre) - 1) = Return prev).
  { unfold py_index. replace (S (length pre) - 1)%nat with (length pre) by lia.
    by rewrite list_lookup_middle. }
  rewrite bind_run, (read_dates_at _ _ _ Hw), bind_run. unfold lift at 1. rewrite Hi.
  rewrite bind_run, (read_dates_at _ _ _ Hw), bind_run. unfold lift at 1. rewrite Hp.
  unfold within_ext. destruct (Z.leb_spec (days (c - prev)) (periodicity self)).
  - by rewrite bool_decide_eq_true_2.
  - rewrite bool_decide_eq_false_2; [done | lia].
Qed.

Lemma calculate_streak_fold self w pre prev rest streak r rs :
  w_heap w !! completions self = Some (DateList (pre ++ prev :: rest)) →
  split_runs (within_ext (periodicity self)) (prev :: rest) = r :: rs →
  foldM (calculate_streak_step self) (seq (S (length pre)) (length rest)) streak w
  = (Return (default 0 (last (streak - 1 + Z.of_nat (length r)
                              :: map (λ r, Z.of_nat (length r)) rs))), w).
Proof.
  revert pre prev streak r rs.
  induction rest as [|c rest IH]; intros pre prev streak r rs Hw.
  - intros [= <- <-]. cbn [length seq foldM map last default].
    by replace (streak - 1 + Z.of_nat 1) with streak by lia.
  - rewrite split_runs_step.
    destruct (split_runs_cons (within_ext (periodicity self)) c rest) as (r' & rs' & E).
    rewrite E. cbn [length seq foldM].
    rewrite bind_run, (calculate_streak_step_run self w pre prev c rest streak Hw).
    specialize (IH (pre ++ [prev]) c).
    rewrite length_app in IH. simpl in IH. rewrite Nat.add_1_r in IH.
    rewrite <- app_assoc in IH. simpl in IH.
    destruct (within_ext (periodicity self) prev c); intros [= <- <-].
    + rewrite (IH (streak + 1) _ _ Hw E). cbn [length map].
      by replace (streak + 1 - 1 + Z.of_nat (S (length r')))
        with (streak - 1 + Z.of_nat (S (S (length r')))) by lia.
    + rewrite (IH 1 _ _ Hw E). cbn [map]. by rewrite last_cons_cons.
Qed.

Lemma calculate_streak_run (self : Habit) (w : world) (l : list Z) :
  w_heap w !! completions self = Some (DateList l) →
  l ≠ [] →
  calculate_streak self w
  = (Return (last_run_length (within_ext (periodicity self)) (sorted l)),
     {| w_db := w_db w;
        w_heap := <[completions self := DateList (sorted l)]> (w_heap w) |}).
Proof.
  intros Hw Hne. unfold calculate_streak.
  rewrite bind_run, (read_dates_at _ _ _ Hw).
  destruct l as [|x l']; [done|]. set (l := x :: l') in *.
  rewrite bind_run. unfold list_sort at 1. rewrite Hw.
  set (w1 := {| w_db := w_db w;
                w_heap := <[completions self := DateList (sorted l)]> (w_heap w) |}).
  assert (Hw1 : w_heap w1 !! completions self = Some (DateList (sorted l))).
  { apply list_lookup_insert_eq. by eapply lookup_lt_Some. }
  rewrite bind_run, (read_dates_at _ _ _ Hw1).
  destruct (sorted l) as [|d0 rest] eqn:Es.
  { apply (proj1 (sorted_nil_iff _)) in Es. unfold l in Es. discriminate. }
  destruct (split_runs_cons (within_ext (periodicity self)) d0 rest) as (r & rs & E).
  cbn [length]. rewrite Nat.sub_1_r. cbn [pred].
  pose proof (calculate_streak_fold self w1 [] d0 rest 1 _ _ Hw1 E) as Hfold.
  cbn [length] in Hfold. rewrite Hfold.
  unfold last_run_length, run_lengths. rewrite E. cbn [map].
  by replace (1 - 1 + Z.of_nat (length (d0 :: r))) with (Z.of_nat (length (d0 :: r))) by lia.
Qed.

(** C10.  On a non-empty list of completions [Habit.calculate_streak] sorts
    the list in place and returns the length of the last run of the sorted
    dates, where a pair continues a run whenever its whole-day difference is
    at most the periodicity.  It is not the longest run: for the daily habit
    completed on days 0, 1, 2 and 4 it returns 1 where the Streak Engine
    returns 3; and a gap of 0 days continues the run: for two completions on
    the same day it returns 2 where the Streak Engine returns 1. *)
Theorem calculate_streak_trailing_run (self : Habit) (w : world) (l : list Z) :
  w_heap w !! completions self = Some (DateList l) →
  l ≠ [] →
  calculate_streak self w
  = (Return (last_run_length (within_ext (periodicity self)) (sorted l)),
     {| w_db := w_db w;
        w_heap := <[completions self := DateList (sorted l)]> (w_heap w) |})
  ∧ (mapM (λ c, fromisoformat iso_parse (cr_completed_date c)) (get_completions broken_db 1)
       = Return (dates_of (get_completions broken_db 1))
     ∧ (calculate_streak (habit_object 1)
          (world_of_dates broken_db (dates_of (get_completions broken_db 1)))).1
       = Return 1
     ∧ get_longest_streak_for_habit iso_parse broken_db 1 1 = Return 3)
  ∧ (mapM (λ c, fromisoformat iso_parse (cr_completed_date c)) (get_completions same_day_db 1)
       = Return (dates_of (get_completions same_day_db 1))
     ∧ (calculate_streak (habit_object 1)
          (world_of_dates same_day_db (dates_of (get_completions same_day_db 1)))).1
       = Return 2
     ∧ get_longest_streak_for_habit iso_parse same_day_db 1 1 = Return 1).
Proof.
  intros Hw Hne. split; [by apply calculate_streak_run|].
  split; (split; [|split]); by vm_compute.
Qed.

(** ** Instances on sample data *)

Lemma streak_reducer_rule_witness :
  extends_streak 1 (days (63829209600000000 - 63829123200000000))
  ∧ streak_reducer 1 (63829123200000000, 2, 2) 63829209600000000
    = (63829209600000000, 3, 3).
Proof.
  pose proof (streak_reducer_rule 1 63829036800000000 [63829123200000000]
                63829209600000000) as H.
  cbv beta iota zeta delta [fold_left] in H.
  change (streak_reducer 1 (63829036800000000, 1, 1) 63829123200000000)
    with (63829123200000000, 2, 2) in H.
  cbv beta iota zeta in H.
  destruct H as (_ & Hext & _).
  assert (He : extends_streak 1 (days (63829209600000000 - 63829123200000000))).
  { left. split; reflexivity. }
  split; [exact He|]. exact (Hext He).
Defined.

Lemma longest_streak_is_max_run_witness :
  get_completions fixture_db 1 ≠ []
  ∧ get_longest_streak_for_habit iso_parse fixture_db 1 1 = Return 3.
Proof.
  assert (Hne : get_completions fixture_db 1 ≠ []) by (vm_compute; discriminate).
  split; [exact Hne|].
  destruct (longest_streak_is_max_run iso_parse fixture_db 1 1
              [63829090800000000; 63829177200000000; 63829263600000000]
              Hne ltac:(vm_compute; reflexivity)) as [H _].
  rewrite H. vm_compute. reflexivity.
Defined.

Lemma get_all_streaks_agrees_witness :
  get_all_streaks iso_parse fixture_db 1
    = Return [("Exercise", 3); ("Reading", 2); ("Meditation", 2)]
  ∧ Forall2 (λ h e, e.1 = hr_name h
                    ∧ get_longest_streak_for_habit iso_parse fixture_db (hr_id h)
                        (hr_periodicity h) = Return e.2)
      (get_all_habits fixture_db 1)
      [("Exercise", 3); ("Reading", 2); ("Meditation", 2)].
Proof.
  assert (H : get_all_streaks iso_parse fixture_db 1
              = Return [("Exercise", 3); ("Reading", 2); ("Meditation", 2)])
    by (vm_compute; reflexivity).
  split; [exact H|]. exact (get_all_streaks_agrees iso_parse fixture_db 1 _ H).
Defined.

Lemma timestamps_missing_or_malformed_witness :
  (Forall (λ c, cr_completed_date c = PyNone ∨ has_valid_timestamp iso_parse c = true)
     (get_completions missing_db 1)
   ∧ Exists (λ c, has_valid_timestamp iso_parse c = true) (get_completions missing_db 1)
   ∧ get_longest_streak_for_habit iso_parse missing_db 1 1 = Return 1)
  ∧ (Exists (λ c, ∃ s, cr_completed_date c = PyStr s ∧ iso_parse s = None)
       (get_completions malformed_db 1)
     ∧ get_longest_streak_for_habit iso_parse malformed_db 1 1 = Return 0)
  ∧ (mk_habit 1 1 "Exercise" 1 ∈ get_all_habits missing_db 1
     ∧ Exists (λ c, has_valid_timestamp iso_parse c = false)
         (get_completions missing_db (hr_id (mk_habit 1 1 "Exercise" 1)))
     ∧ ∃ e, get_all_streaks iso_parse missing_db 1 = Raise e).
Proof.
  assert (Em : get_completions missing_db 1
               = [mk_completion 1 1 (PyStr "2023-08-30T15:00:00");
                  mk_completion 2 1 PyNone]) by reflexivity.
  assert (Eb : get_completions malformed_db 1
               = [mk_completion 1 1 (PyStr "2023-08-30T15:00:00");
                  mk_completion 2 1 (PyStr "30/08/2023")]) by reflexivity.
  assert (Hv : has_valid_timestamp iso_parse
                 (mk_completion 1 1 (PyStr "2023-08-30T15:00:00")) = true)
    by (vm_compute; reflexivity).
  assert (H1 : Forall (λ c, cr_completed_date c = PyNone
                            ∨ has_valid_timestamp iso_parse c = true)
                 (get_completions missing_db 1)).
  { rewrite Em. apply Forall_cons. split; [by right|].
    apply Forall_cons. split; [by left | apply Forall_nil_2]. }
  assert (H2 : Exists (λ c, has_valid_timestamp iso_parse c = true)
                 (get_completions missing_db 1)).
  { rewrite Em. apply Exists_cons_hd. exact Hv. }
  assert (H3 : Exists (λ c, ∃ s, cr_completed_date c = PyStr s ∧ iso_parse s = None)
                 (get_completions malformed_db 1)).
  { rewrite Eb. apply Exists_cons_tl, Exists_cons_hd.
    exists "30/08/2023". split; [reflexivity | vm_compute; reflexivity]. }
  assert (H4 : mk_habit 1 1 "Exercise" 1 ∈ get_all_habits missing_db 1).
  { change (get_all_habits missing_db 1) with [mk_habit 1 1 "Exercise" 1].
    apply list_elem_of_here. }
  assert (H5 : Exists (λ c, has_valid_timestamp iso_parse c = false)
                 (get_completions missing_db (hr_id (mk_habit 1 1 "Exercise" 1)))).
  { change (hr_id (mk_habit 1 1 "Exercise" 1)) with 1. rewrite Em.
    apply Exists_cons_tl, Exists_cons_hd. reflexivity. }
  destruct (timestamps_missing_or_malformed iso_parse missing_db 1 1) as (Ha & _ & Hc).
  destruct (timestamps_missing_or_malformed iso_parse malformed_db 1 1) as (_ & Hb & _).
  split; [|split].
  - split; [exact H1|]. split; [exact H2|].
    destruct (Ha H1 H2) as [-> _]. vm_compute. reflexivity.
  - split; [exact H3|]. exact (Hb H3).
  - split; [exact H4|]. split; [exact H5|]. exact (Hc 1 _ H4 H5).
Defined.

(** On a habit with one valid and one malformed timestamp the engine returns
    0, not the streak 1 of the valid completion alone; and the batch view
    raises on a missing timestamp. *)
Lemma malformed_timestamp_discards_valid :
  get_longest_streak_for_habit iso_parse malformed_db 1 1
  ≠ longest_streak_of iso_parse
      (filter (λ c, has_valid_timestamp iso_parse c = true)
         (get_completions malformed_db 1)) 1
  ∧ get_longest_streak_for_habit iso_parse malformed_db 1 1 = Return 0
  ∧ longest_streak_of iso_parse
      (filter (λ c, has_valid_timestamp iso_parse c = true)
         (get_completions malformed_db 1)) 1 = Return 1
  ∧ get_all_streaks iso_parse missing_db 1 = Raise TypeError.
Proof.
  split; [vm_compute; discriminate|].
  split; [|split]; vm_compute; reflexivity.
Qed.

Lemma longest_streak_empty_and_single_witness :
  (get_completions idle_db 1 = []
   ∧ get_longest_streak_for_habit iso_parse idle_db 1 1 = Return 0)
  ∧ (get_completions single_db 3 = [mk_completion 1 3 (PyStr "2023-09-04T15:00:00")]
     ∧ fromisoformat iso_parse (PyStr "2023-09-04T15:00:00") = Return 63829522800000000
     ∧ get_longest_streak_for_habit iso_parse single_db 3 5 = Return 1).
Proof.
  destruct (longest_streak_empty_and_single iso_parse idle_db 1 1) as [H0 _].
  destruct (longest_streak_empty_and_single iso_parse single_db 3 5) as [_ H1].
  assert (E0 : get_completions idle_db 1 = []) by reflexivity.
  assert (E1 : get_completions single_db 3
               = [mk_completion 1 3 (PyStr "2023-09-04T15:00:00")]) by reflexivity.
  assert (Ep : fromisoformat iso_parse (PyStr "2023-09-04T15:00:00")
               = Return 63829522800000000) by (vm_compute; reflexivity).
  split.
  - split; [exact E0 | exact (H0 E0)].
  - split; [exact E1|]. split; [exact Ep|]. exact (H1 _ _ E1 Ep).
Defined.

Lemma get_longest_streak_selects_witness :
  (get_all_habits fixture_db 2 = []
   ∧ get_longest_streak iso_parse fixture_db 2 = Return (None, 0))
  ∧ (get_all_habits fixture_db 1 ≠ []
     ∧ Forall (λ h, ∃ v, get_longest_streak_for_habit iso_parse fixture_db
                           (hr_id h) (hr_periodicity h) = Return v)
         (get_all_habits fixture_db 1)
     ∧ ∃ pre h post v,
         get_all_habits fixture_db 1 = pre ++ h :: post
         ∧ get_longest_streak iso_parse fixture_db 1 = Return (Some h, v)
         ∧ get_longest_streak_for_habit iso_parse fixture_db (hr_id h) (hr_periodicity h)
           = Return v
         ∧ Forall (λ h', ∃ v', get_longest_streak_for_habit iso_parse fixture_db
                                 (hr_id h') (hr_periodicity h') = Return v' ∧ v' < v) pre
         ∧ Forall (λ h', ∃ v', get_longest_streak_for_habit iso_parse fixture_db
                                 (hr_id h') (hr_periodicity h') = Return v' ∧ v' ≤ v) post).
Proof.
  destruct (get_longest_streak_selects iso_parse fixture_db 2) as [H0 _].
  destruct (get_longest_streak_selects iso_parse fixture_db 1) as [_ H1].
  assert (Hne : get_all_habits fixture_db 1 ≠ []) by (vm_compute; discriminate).
  assert (Hall : Forall (λ h, ∃ v, get_longest_streak_for_habit iso_parse fixture_db
                                     (hr_id h) (hr_periodicity h) = Return v)
                   (get_all_habits fixture_db 1)).
  { change (get_all_habits fixture_db 1) with (habits_table fixture_db).
    apply Forall_cons. split; [exists 3; vm_compute; reflexivity|].
    apply Forall_cons. split; [exists 2; vm_compute; reflexivity|].
    apply Forall_cons. split; [exists 2; vm_compute; reflexivity|].
    apply Forall_nil_2. }
  split.
  - split; [reflexivity|]. apply H0. reflexivity.
  - split; [exact Hne|]. split; [exact Hall|]. exact (H1 Hne Hall).
Defined.

Example fixture_longest_streak :
  get_longest_streak iso_parse fixture_db 1 = Return (Some (mk_habit 1 1 "Exercise" 1), 3).
Proof. vm_compute. reflexivity. Qed.

Lemma get_longest_streak_no_completions_witness :
  get_all_habits idle_db 1 = [mk_habit 1 1 "Exercise" 1; mk_habit 2 1 "Reading" 7]
  ∧ Forall (λ h, get_completions idle_db (hr_id h) = [])
      [mk_habit 1 1 "Exercise" 1; mk_habit 2 1 "Reading" 7]
  ∧ get_longest_streak iso_parse idle_db 1 = Return (Some (mk_habit 1 1 "Exercise" 1), 0)
  ∧ get_longest_streak iso_parse idle_db 2 = Return (None, 0)
  ∧ get_all_habits idle_db 2 = [].
Proof.
  destruct (get_longest_streak_no_completions iso_parse idle_db 1) as [H1 _].
  destruct (get_longest_streak_no_completions iso_parse idle_db 2) as [_ H2].
  assert (E : get_all_habits idle_db 1
              = [mk_habit 1 1 "Exercise" 1; mk_habit 2 1 "Reading" 7]) by reflexivity.
  assert (HF : Forall (λ h, get_completions idle_db (hr_id h) = [])
                 [mk_habit 1 1 "Exercise" 1; mk_habit 2 1 "Reading" 7]).
  { repeat constructor. }
  assert (E2 : get_longest_streak iso_parse idle_db 2 = Return (None, 0)) by reflexivity.
  split; [exact E|]. split; [exact HF|]. split; [exact (H1 _ _ E HF)|].
  split; [exact E2|]. exact (H2 0 E2).
Defined.

Lemma is_due_today_spec_witness :
  (get_completions idle_db (hr_id (mk_habit 1 1 "Exercise" 1)) = []
   ∧ is_due_today iso_parse idle_db 738765 (mk_habit 1 1 "Exercise" 1) = Return true)
  ∧ (get_last_completion fixture_db 1
       = Some (mk_completion 5 1 (PyStr "2023-09-01T15:00:00"))
     ∧ fromisoformat iso_parse (PyStr "2023-09-01T15:00:00") = Return 63829263600000000
     ∧ 738767 - date 63829263600000000 = 3
     ∧ is_due_today iso_parse fixture_db 738767 (mk_habit 1 1 "Exercise" 1) = Return true
     ∧ is_due_today iso_parse fixture_db 738767 (mk_habit 1 1 "Exercise" 7) = Return false).
Proof.
  destruct (is_due_today_spec iso_parse idle_db 738765 (mk_habit 1 1 "Exercise" 1))
    as ([_ Hdue] & _).
  destruct (is_due_today_spec iso_parse fixture_db 738767 (mk_habit 1 1 "Exercise" 1))
    as (_ & _ & _ & H1).
  destruct (is_due_today_spec iso_parse fixture_db 738767 (mk_habit 1 1 "Exercise" 7))
    as (_ & _ & _ & H7).
  assert (El : get_last_completion fixture_db 1
               = Some (mk_completion 5 1 (PyStr "2023-09-01T15:00:00")))
    by (vm_compute; reflexivity).
  assert (Ep : fromisoformat iso_parse (PyStr "2023-09-01T15:00:00")
               = Return 63829263600000000) by (vm_compute; reflexivity).
  assert (E3 : 738767 - date 63829263600000000 = 3) by (vm_compute; reflexivity).
  split.
  - split; [reflexivity|]. apply Hdue. left. reflexivity.
  - split; [exact El|]. split; [exact Ep|]. split; [exact E3|]. split.
    + exact (proj1 (H1 _ _ El Ep E3) eq_refl).
    + exact (proj2 (H7 _ _ El Ep E3) eq_refl).
Defined.

Lemma engine_order_invariant_input_untouched_witness :
  get_completions fixture_db 1 ≡ₚ get_completions shuffled_db 1
  ∧ (get_longest_streak_for_habit_obj iso_parse 1 1 {| w_db := fixture_db; w_heap := [] |}).1
    = (get_longest_streak_for_habit_obj iso_parse 1 1 {| w_db := shuffled_db; w_heap := [] |}).1.
Proof.
  assert (Hp : get_completions fixture_db 1 ≡ₚ get_completions shuffled_db 1).
  { change (get_completions fixture_db 1) with
      [mk_completion 1 1 (PyStr "2023-08-30T15:00:00");
       mk_completion 2 1 (PyStr "2023-08-31T15:00:00");
       mk_completion 5 1 (PyStr "2023-09-01T15:00:00")].
    change (get_completions shuffled_db 1) with
      (reverse [mk_completion 1 1 (PyStr "2023-08-30T15:00:00");
                mk_completion 2 1 (PyStr "2023-08-31T15:00:00");
                mk_completion 5 1 (PyStr "2023-09-01T15:00:00")]).
    symmetry. apply reverse_Permutation. }
  split; [exact Hp|].
  exact (proj1 (engine_order_invariant_input_untouched iso_parse 1 1
                  {| w_db := fixture_db; w_heap := [] |}
                  {| w_db := shuffled_db; w_heap := [] |} Hp)).
Defined.

Lemma calculate_streak_trailing_run_witness :
  w_heap (world_of_dates broken_db (dates_of (get_completions broken_db 1)))
    !! completions (habit_object 1)
  = Some (DateList (dates_of (get_completions broken_db 1)))
  ∧ dates_of (get_completions broken_db 1) ≠ []
  ∧ calculate_streak (habit_object 1)
      (world_of_dates broken_db (dates_of (get_completions broken_db 1)))
    = (Return (last_run_length (within_ext 1) (sorted (dates_of (get_completions broken_db 1)))),
       {| w_db := broken_db;
          w_heap := <[0%nat := DateList (sorted (dates_of (get_completions broken_db 1)))]>
                      [DateList (dates_of (get_completions broken_db 1))] |}).
Proof.
  assert (H1 : w_heap (world_of_dates broken_db (dates_of (get_completions broken_db 1)))
                 !! completions (habit_object 1)
               = Some (DateList (dates_of (get_completions broken_db 1)))) by reflexivity.
  assert (H2 : dates_of (get_completions broken_db 1) ≠ []) by (vm_compute; discriminate).
  split; [exact H1|]. split; [exact H2|].
  exact (proj1 (calculate_streak_trailing_run (habit_object 1) _ _ H1 H2)).
Defined.

(** * Further properties *)

(** ** Filters of analytics.py *)


(** ** Bounds and monotonicity of the streak *)

Lemma fold_streak_reducer_le P rest prev s m :
  1 ≤ s ≤ m →
  (fold_left (streak_reducer P) rest (prev, s, m)).2
  ≤ Z.max m (s + Z.of_nat (length rest)).
Proof.
  revert prev s m. induction rest as [|c rest IH]; intros prev s m Hsm.
  - simpl. lia.
  - cbn [fold_left length]. unfold streak_reducer at 2.
    destruct (continues P (days (c - prev))).
    + etrans; [apply IH; lia|]. lia.
    + etrans; [apply IH; lia|]. lia.
Qed.

Lemma reduce_streak_bounds P dates v :
  reduce_streak P dates = Return v → 1 ≤ v ≤ Z.of_nat (length dates).
Proof.
  destruct dates as [|d0 rest]; [done|]. unfold reduce_streak.
  pose proof (fold_streak_reducer_le P rest d0 1 1 ltac:(lia)) as Hle.
  pose proof (fold_streak_reducer_inv P rest d0 1 1 ltac:(lia)) as Hinv.
  destruct (fold_left _ _ _) as [[p s] m]. simpl in Hle. intros [= <-].
  cbn [length]. lia.
Qed.

Section bounds.
Variable parse_iso : string → option Z.

Lemma longest_streak_of_bounds cs P v :
  longest_streak_of parse_iso cs P = Return v → 0 ≤ v ≤ Z.of_nat (length cs).
Proof.
  intros Hv. destruct (decide (cs = [])) as [->|Hne].
  { injection Hv as <-. simpl. lia. }
  rewrite longest_streak_of_eq in Hv by done. unfold parse_dates_not_None in Hv.
  destruct (mapM _ _) as [parsed|e] eqn:Em.
  - apply reduce_streak_bounds in Hv. rewrite length_sorted in Hv.
    rewrite (mapM_length _ _ _ Em) in Hv.
    pose proof (length_filter (λ c, is_not_None (cr_completed_date c) = true) cs). lia.
  - injection Hv as <-. lia.
Qed.

End bounds.

Lemma continues_mono P P' diff :
  P ≤ P' → continues P diff = true → continues P' diff = true.
Proof.
  rewrite !continues_spec. unfold extends_streak. lia.
Qed.

Lemma fold_streak_reducer_mono P P' rest prev s m s' m' :
  P ≤ P' → 1 ≤ s ≤ s' → m ≤ m' →
  (fold_left (streak_reducer P) rest (prev, s, m)).2
  ≤ (fold_left (streak_reducer P') rest (prev, s', m')).2.
Proof.
  intros HP. revert prev s m s' m'.
  induction rest as [|c rest IH]; intros prev s m s' m' Hs Hm; [done|].
  cbn [fold_left]. unfold streak_reducer at 2 4.
  destruct (continues P (days (c - prev))) eqn:E.
  - rewrite (continues_mono P P' _ HP E). apply IH; lia.
  - destruct (continues P' (days (c - prev))); apply IH; lia.
Qed.

Section mono.
Variable parse_iso : string → option Z.

(** X3.  The longest streak of a habit grows with the periodicity: over the
    same completions, a larger periodicity gives a streak at least as long,
    and an error under one periodicity is the same error under the other. *)
Theorem longest_streak_monotone_in_periodicity (db : database) (habit_id P P' : Z) :
  P ≤ P' →
  match get_longest_streak_for_habit parse_iso db habit_id P,
        get_longest_streak_for_habit parse_iso db habit_id P' with
  | Return v, Return v' => v ≤ v'
  | Raise e, Raise e' => e = e'
  | _, _ => False
  end.
Proof.
  intros HP. unfold get_longest_streak_for_habit, longest_streak_of.
  destruct (get_completions db habit_id) as [|c cs]; [done|].
  destruct (parse_dates_not_None parse_iso (c :: cs)) as [parsed|]; [|done].
  destruct (length (sorted parsed) =? 1)%nat; [done|].
  destruct (sorted parsed) as [|d0 rest]; [done|]. unfold reduce_streak.
  pose proof (fold_streak_reducer_mono P P' rest d0 1 1 1 1 HP ltac:(lia) ltac:(lia)) as H.
  by destruct (fold_left _ _ _) as [[? ?] ?], (fold_left _ _ _) as [[? ?] ?].
Qed.
End mono.

(** ** The continuation rule in elapsed time *)

Lemma days_bounds td n : n ≤ days td ↔ n * us_per_day ≤ td.
Proof.
  unfold days, us_per_day.
  pose proof (Z.div_mod td 86400000000 ltac:(lia)).
  pose proof (Z.mod_pos_bound td 86400000000 ltac:(lia)). lia.
Qed.

(** X4.  The reducer in elapsed time.  Since [timedelta.days] rounds down,
    [streak_reducer] extends the streak exactly when at least one full day
    and less than [P + 1] full days lie between the two timestamps (and
    [P >= 1]); the calendar dates play no part. *)
Theorem streak_reducer_elapsed (P : Z) (prev curr streak max_streak : Z) :
  streak_reducer P (prev, streak, max_streak) curr
  = if decide (1 ≤ P ∧ us_per_day ≤ curr - prev < (P + 1) * us_per_day)
    then (curr, streak + 1, Z.max max_streak (streak + 1))
    else (curr, 1, Z.max max_streak streak).
Proof.
  unfold streak_reducer.
  assert (H : continues P (days (curr - prev)) = true
              ↔ 1 ≤ P ∧ us_per_day ≤ curr - prev < (P + 1) * us_per_day).
  { rewrite continues_spec. unfold extends_streak.
    pose proof (days_bounds (curr - prev) 1) as H1.
    pose proof (days_bounds (curr - prev) (P + 1)) as H2.
    pose proof (days_bounds (curr - prev) 2) as H3.
    lia. }
  destruct (continues P (days (curr - prev))); case_decide; try done.
  - exfalso. tauto.
  - exfalso. assert (false = true) by tauto. done.
Qed.

(** ** The batch view against the longest streak *)

Section views.
Variable parse_iso : string → option Z.

Lemma get_all_streaks_Forall2 db user_id l :
  get_all_streaks parse_iso db user_id = Return l →
  Forall2 (λ h e, e.1 = hr_name h
                  ∧ get_longest_streak_for_habit parse_iso db (hr_id h) (hr_periodicity h)
                    = Return e.2)
          (get_all_habits db user_id) l.
Proof.
  unfold get_all_streaks. intros H.
  assert (Hm : mapM (λ h, s ← all_streaks_calculate_streak parse_iso db h;
                          Return (hr_name h, s)) (get_all_habits db user_id) = Return l).
  { by destruct (get_all_habits db user_id). }
  clear H. apply mapM_Return in Hm.
  eapply Forall2_impl; [exact Hm|]. intros h [n s] Hh. simpl in *.
  destruct (all_streaks_calculate_streak parse_iso db h) as [v|] eqn:Ev; [|done].
  cbn [mbind outcome_bind] in Hh. injection Hh as <- <-.
  split; [done|]. by apply all_streaks_calculate_streak_engine.
Qed.

(** X5.  When [get_all_streaks] returns, [get_longest_streak] returns as
    well, its streak is the greatest streak of the batch (0 for a user without
    habits, with no habit selected), and the selected habit is one of the
    user's habits whose entry of the batch carries that streak. *)
Theorem longest_streak_is_max_of_all_streaks (db : database) (user_id : Z)
    (l : list (string * Z)) :
  get_all_streaks parse_iso db user_id = Return l →
  ∃ o v, get_longest_streak parse_iso db user_id = Return (o, v)
         ∧ v = foldr Z.max 0 (l.*2)
         ∧ (l = [] → o = None)
         ∧ (l ≠ [] → ∃ h, o = Some h ∧ h ∈ get_all_habits db user_id
                          ∧ (hr_name h, v) ∈ l).
Proof.
  intros Hl. pose proof (get_all_streaks_Forall2 db user_id l Hl) as HF.
  destruct (get_all_habits db user_id) as [|h0 hs] eqn:Eh.
  { apply Forall2_nil_inv_l in HF as ->. exists None, 0.
    unfold get_longest_streak. rewrite Eh. repeat split; done. }
  assert (HF' : Forall2 (λ h e, ∃ v, e = (Some h, v)
                   ∧ get_longest_streak_for_habit parse_iso db (hr_id h) (hr_periodicity h)
                     = Return v)
                  (get_all_habits db user_id) (zip_with (λ h e, (Some h, e.2)) (h0 :: hs) l)).
  { rewrite Eh. clear -HF. induction HF as [|h e hs' l' [_ He] _ IH]; [constructor|].
    simpl. constructor; eauto. }
  rewrite (get_longest_streak_eq parse_iso db user_id _ ltac:(by rewrite Eh) HF').
  rewrite Eh in HF'. clear Hl.
  destruct l as [|e0 l]; [by inversion HF|].
  cbn [zip_with] in *.
  destruct (py_max_by_first snd (Some h0, e0.2) (zip_with (λ h e, (Some h, e.2)) hs l)
              (None, 0)) as (pre & post & Hs & Hpre & Hpost).
  set (best := py_max_by snd _ (None, 0)) in *.
  exists best.1, best.2. split; [by destruct best|].
  assert (Hin : best ∈ zip_with (λ h e, (Some h, e.2)) (h0 :: hs) (e0 :: l)).
  { cbn [zip_with]. rewrite Hs. apply elem_of_app. right. by left. }
  assert (Hall : ∀ x, x ∈ zip_with (λ h e, (Some h, e.2)) (h0 :: hs) (e0 :: l)
                      → x.2 ≤ best.2).
  { intros x. cbn [zip_with]. rewrite Hs.
    rewrite elem_of_app, elem_of_cons, !Forall_forall in *.
    intros [?|[->|?]]; [|lia|by apply Hpost]. by apply Z.lt_le_incl, Hpre. }
  assert (Hsnd : (zip_with (λ h e, (Some h, e.2)) (h0 :: hs) (e0 :: l)).*2
                 = (e0 :: l).*2).
  { clear -HF. generalize dependent (e0 :: l). generalize (h0 :: hs).
    induction 1; [done|]. simpl. by f_equal. }
  split; [|split; [done|]].
  - apply Z.le_antisymm.
    + assert (best.2 ∈ (e0 :: l).*2) as Hb.
      { rewrite <- Hsnd. apply list_elem_of_fmap. by exists best. }
      clear -Hb. induction (e0 :: l).*2 as [|a k IH]; [by apply elem_of_nil in Hb|].
      simpl. apply elem_of_cons in Hb as [->|Hb]; [lia|]. specialize (IH Hb). lia.
    + assert (Hle : ∀ y, y ∈ (e0 :: l).*2 → y ≤ best.2).
      { intros y. rewrite <- Hsnd. intros ([o y'] & -> & Hx)%list_elem_of_fmap.
        by apply (Hall (o, y')). }
      assert (0 ≤ best.2) as H0.
      { specialize (Hall _ Hin). 
        destruct (Forall2_lookup_r _ _ _ 0%nat e0 HF eq_refl) as (h' & Hh' & _ & He0).
        apply (longest_streak_of_bounds parse_iso) in He0 as [? _].
        etrans; [exact H|]. apply Hle. by left. }
      clear -Hle H0. induction (e0 :: l).*2 as [|a k IH]; [simpl; lia|].
      simpl. apply Z.max_lub; [apply Hle; by left|].
      apply IH. intros y Hy. apply Hle. by right.
  - intros _.
    apply list_elem_of_lookup in Hin as [i Hi].
    apply lookup_zip_with_Some in Hi as (h & e & Hb & Hh & He).
    exists h. split; [by rewrite Hb|]. split.
    + by eapply list_elem_of_lookup_2.
    + destruct (Forall2_lookup_lr _ _ _ _ _ _ HF Hh He) as [Hname _].
      rewrite Hb. simpl. rewrite <- Hname.
      replace (e.1, e.2) with e by by destruct e. by eapply list_elem_of_lookup_2.
Qed.
End views.

(** ** Habits due today *)

Lemma filterM_Return_inv {A} (p : A → outcome bool) l k :
  filterM p l = Return k →
  k `sublist_of` l
  ∧ Forall (λ x, ∃ b, p x = Return b) l
  ∧ ∀ x, x ∈ k ↔ x ∈ l ∧ p x = Return true.
Proof.
  revert k. induction l as [|x l IH]; intros k.
  - intros [= <-]. split; [done|]. split; [constructor|].
    intros x. rewrite elem_of_nil. tauto.
  - cbn [filterM]. destruct (p x) as [b|] eqn:Ex; [|done].
    destruct (filterM p l) as [ys|] eqn:El; [|done].
    cbn [mbind outcome_bind]. intros [= <-].
    destruct (IH ys eq_refl) as (Hsub & Hall & Hin). split; [|split].
    + destruct b; [by apply sublist_skip | by apply sublist_cons].
    + constructor; eauto.
    + intros y. rewrite elem_of_cons. destruct b.
      * rewrite elem_of_cons, Hin. split; [intros [->|[? ?]]; auto|].
        intros [[->|?] ?]; auto.
      * rewrite Hin. split; [intros [? ?]; auto|].
        intros [[->|?] ?]; [congruence|auto].
Qed.

Lemma filterM_Raise {A} (p : A → outcome bool) l :
  (∃ e, filterM p l = Raise e) ↔ Exists (λ x, ∃ e, p x = Raise e) l.
Proof.
  induction l as [|x l IH].
  - split; [by intros [? ?] | by inversion 1].
  - cbn [filterM]. rewrite Exists_cons, <- IH.
    destruct (p x) as [b|e]; cbn [mbind outcome_bind].
    + destruct (filterM p l) as [ys|e]; cbn [mbind outcome_bind]; split.
      * by intros [? ?].
      * intros [[? ?]|[? ?]]; done.
      * eauto.
      * eauto.
    + split; eauto.
Qed.

Section today.
Variable parse_iso : string → option Z.

(** X6.  [get_habits_to_complete_today] returns, in the order of
    [get_all_habits], exactly the user's habits for which [is_due_today] holds;
    a habit without completions is always among them.  It raises exactly when
    the most recent completion of some habit of the user has a missing or
    unparseable timestamp. *)
Theorem habits_to_complete_today_spec (db : database) (today user_id : Z) :
  (∀ l, get_habits_to_complete_today parse_iso db today user_id = Return l →
        l `sublist_of` get_all_habits db user_id
        ∧ (∀ h, h ∈ l ↔ h ∈ get_all_habits db user_id
                        ∧ is_due_today parse_iso db today h = Return true)
        ∧ (∀ h, h ∈ get_all_habits db user_id →
                get_completions db (hr_id h) = [] → h ∈ l))
  ∧ ((∃ e, get_habits_to_complete_today parse_iso db today user_id = Raise e) ↔
     ∃ h c, h ∈ get_all_habits db user_id
            ∧ get_last_completion db (hr_id h) = Some c
            ∧ has_valid_timestamp parse_iso c = false).
Proof.
  unfold get_habits_to_complete_today. split.
  - intros l (Hsub & _ & Hin)%filterM_Return_inv. split; [done|]. split; [done|].
    intros h Hh Hnone. apply Hin. split; [done|]. unfold is_due_today.
    apply get_last_completion_None in Hnone. by rewrite Hnone.
  - rewrite filterM_Raise, Exists_exists. split.
    + intros (h & Hh & e & He). exists h. unfold is_due_today in He.
      destruct (get_last_completion db (hr_id h)) as [c|]; [|done].
      exists c. split; [done|]. split; [done|]. unfold has_valid_timestamp.
      by destruct (fromisoformat parse_iso (cr_completed_date c)).
    + intros (h & c & Hh & Hc & Hv). exists h. split; [done|].
      unfold is_due_today. rewrite Hc. unfold has_valid_timestamp in Hv.
      destruct (fromisoformat parse_iso (cr_completed_date c)) as [|e]; [done|].
      by exists e.
Qed.

(** X7.  A habit that is due stays due on every later day, as long as the
    completions are unchanged. *)
Theorem is_due_today_later (db : database) (today today' : Z) (habit : habit_row) :
  today ≤ today' →
  is_due_today parse_iso db today habit = Return true →
  is_due_today parse_iso db today' habit = Return true.
Proof.
  intros Ht. unfold is_due_today.
  destruct (get_last_completion db (hr_id habit)) as [c|]; [|done].
  destruct (fromisoformat parse_iso (cr_completed_date c)) as [last|]; [|done].
  cbn [mbind outcome_bind]. intros [= H%Z.leb_le]. f_equal. apply Z.leb_le. lia.
Qed.
End today.

(** ** Habit objects *)

Lemma split_runs_snoc ext l x :
  l ≠ [] →
  ∃ rs r y, split_runs ext l = rs ++ [r] ∧ last l = Some y ∧ last r = Some y
            ∧ split_runs ext (l ++ [x])
              = if ext y x then rs ++ [r ++ [x]] else rs ++ [r; [x]].
Proof.
  induction l as [|a [|b l] IH]; [done| |]; intros _.
  - exists [], [a], a. split; [done|]. split; [done|]. split; [done|].
    cbn. by destruct (ext a x).
  - destruct (IH ltac:(done)) as (rs1 & r1 & y & E1 & Hl & Hr & E2).
    change ((a :: b :: l) ++ [x]) with (a :: b :: (l ++ [x])).
    change ((b :: l) ++ [x]) with (b :: (l ++ [x])) in E2.
    rewrite !split_runs_step, E1, E2. rewrite last_cons_cons, Hl.
    destruct rs1 as [|r0 rs1]; cbn [app].
    + destruct (ext a b).
      * exists [], (a :: r1), y. split; [done|]. split; [done|]. split.
        { destruct r1; [done|]. by rewrite last_cons_cons. }
        by destruct (ext y x).
      * exists [[a]], r1, y. split; [done|]. split; [done|]. split; [done|].
        by destruct (ext y x).
    + destruct (ext a b).
      * exists ((a :: r0) :: rs1), r1, y. repeat split; try done.
        by destruct (ext y x).
      * exists ([a] :: r0 :: rs1), r1, y. repeat split; try done.
        by destruct (ext y x).
Qed.

Lemma last_run_length_snoc ext l y x :
  last l = Some y →
  last_run_length ext (l ++ [x])
  = if ext y x then last_run_length ext l + 1 else 1.
Proof.
  intros Hy. destruct (split_runs_snoc ext l x) as (rs & r & y' & E1 & Hl & Hr & E2).
  { by intros ->. }
  rewrite Hy in Hl. injection Hl as <-.
  unfold last_run_length, run_lengths. rewrite E1, E2.
  destruct (ext y x).
  - rewrite !map_app. cbn [map]. rewrite !last_snoc. cbn [default].
    rewrite length_app. simpl. lia.
  - rewrite (cons_middle r rs), app_assoc, !map_app. cbn [map].
    by rewrite last_snoc.
Qed.

Lemma sorted_snoc_latest l now :
  Forall (λ d, d ≤ now) l → sorted (l ++ [now]) = sorted l ++ [now].
Proof.
  intros Hle. apply (StronglySorted_unique Z.le).
  - apply sorted_StronglySorted.
  - apply StronglySorted_app. split; [|split].
    + intros x1 x2 Hx1 ->%list_elem_of_singleton.
      rewrite sorted_Permutation in Hx1. rewrite Forall_forall in Hle. by apply Hle.
    + apply sorted_StronglySorted.
    + repeat constructor.
  - by rewrite !sorted_Permutation.
Qed.

Lemma last_sorted_latest l y :
  y ∈ l → Forall (λ d, d ≤ y) l → last (sorted l) = Some y.
Proof.
  intros Hy Hle. destruct (last (sorted l)) as [z|] eqn:Ez.
  - f_equal. apply Z.le_antisymm.
    + rewrite Forall_forall in Hle. apply Hle. rewrite <- (sorted_Permutation l).
      by eapply last_Some_elem_of.
    + apply last_Some in Ez as [l' El'].
      pose proof (sorted_StronglySorted l) as HS. rewrite El' in HS.
      apply StronglySorted_app in HS as (Hall & _ & _).
      rewrite <- (sorted_Permutation l), El' in Hy.
      apply elem_of_app in Hy as [Hy| ->%list_elem_of_singleton]; [|done].
      apply Hall; [done|]. by apply list_elem_of_singleton.
  - apply last_None in Ez. apply (proj1 (sorted_nil_iff _)) in Ez. rewrite Ez in Hy.
    by apply elem_of_nil in Hy.
Qed.

Lemma Habit_add_completion_run self now w l :
  w_heap w !! completions self = Some (DateList l) →
  Habit_add_completion self now w
  = (Return (), {| w_db := w_db w;
                   w_heap := <[completions self := DateList (l ++ [now])]> (w_heap w) |}).
Proof. intros Hw. unfold Habit_add_completion, list_append. by rewrite Hw. Qed.

(** X8.  [Habit.add_completion] followed by [Habit.calculate_streak], for a
    completion not older than those already recorded: the first completion
    gives a streak of 1; otherwise the streak grows by 1 when the new
    completion is within [periodicity] days of the latest one, and falls back
    to 1 when it is not. *)
Theorem add_completion_then_calculate_streak (self : Habit) (w : world)
    (l : list Z) (now : Z) :
  w_heap w !! completions self = Some (DateList l) →
  Forall (λ d, d ≤ now) l →
  let w1 := (Habit_add_completion self now w).2 in
  (l = [] → (calculate_streak self w1).1 = Return 1)
  ∧ (∀ latest v,
       latest ∈ l → Forall (λ d, d ≤ latest) l →
       (calculate_streak self w).1 = Return v →
       (calculate_streak self w1).1
       = Return (if decide (days (now - latest) ≤ periodicity self)
                 then v + 1 else 1)).
Proof.
  intros Hw Hnow. rewrite (Habit_add_completion_run self now w l Hw). cbn [snd].
  set (w1 := {| w_db := w_db w;
                w_heap := <[completions self := DateList (l ++ [now])]> (w_heap w) |}).
  assert (Hw1 : w_heap w1 !! completions self = Some (DateList (l ++ [now]))).
  { apply list_lookup_insert_eq. by eapply lookup_lt_Some. }
  assert (Hne : l ++ [now] ≠ []) by (by destruct l).
  rewrite (calculate_streak_run self w1 _ Hw1 Hne). cbn [fst].
  rewrite (sorted_snoc_latest l now Hnow). split.
  - by intros ->.
  - intros latest v Hin Hlatest Hv.
    assert (Hl : l ≠ []) by (intros ->; by apply elem_of_nil in Hin).
    rewrite (calculate_streak_run self w l Hw Hl) in Hv. injection Hv as <-.
    rewrite (last_run_length_snoc _ _ latest) by by apply last_sorted_latest.
    unfold within_ext. by case_bool_decide; case_decide.
Qed.

(** X9.  Two habits never share their list of completions: [Habit.__init__]
    gives each object a new empty list and leaves the objects that exist
    alone, so a completion added to one habit does not show in the other. *)
Theorem Habit_init_own_completions (w : world)
    (n1 d1 n2 d2 : string) (p1 c1 p2 c2 now : Z) :
  ∃ h1 h2 w2,
    (h1 ← Habit_init n1 d1 p1 c1; h2 ← Habit_init n2 d2 p2 c2; mret (h1, h2)) w
      = (Return (h1, h2), w2)
    ∧ completions h1 ≠ completions h2
    ∧ w_heap w2 !! completions h1 = Some (DateList [])
    ∧ w_heap w2 !! completions h2 = Some (DateList [])
    ∧ (∀ r o, w_heap w !! r = Some o → w_heap w2 !! r = Some o)
    ∧ (let w3 := (Habit_add_completion h1 now w2).2 in
       w_heap w3 !! completions h1 = Some (DateList [now])
       ∧ w_heap w3 !! completions h2 = Some (DateList [])
       ∧ (calculate_streak h1 w3).1 = Return 1
       ∧ (calculate_streak h2 w3).1 = Return 0).
Proof.
  destruct w as [db heap].
  set (h1 := {| name := n1; description := d1; periodicity := p1;
                creation_date := c1; completions := length heap |}).
  set (h2 := {| name := n2; description := d2; periodicity := p2;
                creation_date := c2; completions := length (heap ++ [DateList []]) |}).
  set (w2 := {| w_db := db; w_heap := (heap ++ [DateList []]) ++ [DateList []] |}).
  exists h1, h2, w2.
  assert (L1 : w_heap w2 !! completions h1 = Some (DateList [])).
  { cbn. rewrite lookup_app_l by (rewrite length_app; simpl; lia).
    apply lookup_snoc_length. }
  assert (L2 : w_heap w2 !! completions h2 = Some (DateList [])).
  { cbn. apply lookup_snoc_length. }
  assert (Hne : completions h1 ≠ completions h2).
  { cbn. rewrite length_app. simpl. lia. }
  split; [done|]. split; [done|]. split; [done|]. split; [done|]. split.
  { intros r o Hr. cbn. rewrite <- app_assoc. by apply lookup_app_l_Some. }
  rewrite (Habit_add_completion_run h1 now w2 [] L1). cbn [snd app].
  set (w3 := {| w_db := w_db w2;
                w_heap := <[completions h1 := DateList [now]]> (w_heap w2) |}).
  assert (L3 : w_heap w3 !! completions h1 = Some (DateList [now])).
  { apply list_lookup_insert_eq. by eapply lookup_lt_Some. }
  assert (L4 : w_heap w3 !! completions h2 = Some (DateList [])).
  { cbn [w3 w_heap]. by rewrite list_lookup_insert_ne. }
  split; [done|]. split; [done|]. split.
  - by rewrite (calculate_streak_run h1 w3 [now] L3).
  - unfold calculate_streak. by rewrite bind_run, (read_dates_at _ _ _ L4).
Qed.

(** ** Invariants of a connection *)

Lemma foldr_max_le (seq : Z) ids :
  Forall (λ i, 1 ≤ i ≤ seq) ids → foldr Z.max 0 ids ≤ Z.max seq 0.
Proof. induction 1; simpl; lia. Qed.

Lemma foldr_max_nonneg ids : 0 ≤ foldr Z.max 0 ids.
Proof. induction ids; simpl; lia. Qed.

Lemma next_rowid_fresh seq ids :
  keys_ok seq ids →
  let id := DatabaseHandler.next_rowid seq ids in
  (seq < id) ∧ (id ∉ ids) ∧ (1 ≤ id).
Proof.
  intros [_ Hb]. pose proof (foldr_max_le seq ids Hb).
  pose proof (foldr_max_nonneg ids).
  cbv zeta. unfold DatabaseHandler.next_rowid. split; [lia|]. split; [|lia].
  intros Hin. rewrite Forall_forall in Hb. apply Hb in Hin. lia.
Qed.

Lemma keys_ok_add seq ids :
  keys_ok seq ids →
  keys_ok (DatabaseHandler.next_rowid seq ids) (ids ++ [DatabaseHandler.next_rowid seq ids]).
Proof.
  intros Hok. destruct (next_rowid_fresh seq ids Hok) as (Hlt & Hnin & H1).
  destruct Hok as [Hnd Hb]. split.
  - apply NoDup_app. split; [done|]. split; [|apply NoDup_singleton].
    intros x Hx ->%list_elem_of_singleton. done.
  - apply Forall_app. split.
    + eapply Forall_impl; [exact Hb|]. simpl. lia.
    + repeat constructor; lia.
Qed.

Lemma keys_ok_sublist seq ids ids' :
  ids' `sublist_of` ids → keys_ok seq ids → keys_ok seq ids'.
Proof.
  intros Hs [Hnd Hb]. split; [by eapply sublist_NoDup|].
  rewrite Forall_forall in *. intros i Hi. apply Hb. by eapply elem_of_sublist.
Qed.

Lemma fmap_same_key {A} (key : A → Z) (f : A → A) (l : list A) :
  (∀ x, key (f x) = key x) → key <$> (f <$> l) = key <$> l.
Proof.
  intros Hk. rewrite <- list_fmap_compose. apply list_fmap_ext. intros i x _. apply Hk.
Qed.

Lemma sublist_fmap_2 {A B} (f : A → B) (l k : list A) :
  l `sublist_of` k → (f <$> l) `sublist_of` (f <$> k).
Proof. induction 1; simpl; by constructor. Qed.

Lemma Forall_filter_2 {A} (Q P : A → Prop) `{!∀ x, Decision (P x)} (l : list A) :
  Forall Q l → Forall Q (filter P l).
Proof.
  rewrite !Forall_forall. intros HQ x [_ Hx]%list_elem_of_filter. by apply HQ.
Qed.

Lemma keys_ok_filter {A} (key : A → Z) (P : A → Prop) `{!∀ x, Decision (P x)}
    seq (l : list A) :
  keys_ok seq (key <$> l) → keys_ok seq (key <$> filter P l).
Proof. apply keys_ok_sublist, sublist_fmap_2, sublist_filter. Qed.

Lemma keys_ok_mono seq seq' ids : seq ≤ seq' → keys_ok seq ids → keys_ok seq' ids.
Proof.
  intros Hle [Hnd Hb]. split; [done|]. eapply Forall_impl; [exact Hb|]. simpl. lia.
Qed.

Section invariant.
Variable sql_date : string → option string.

Lemma create_tables_ok fk : handler_ok (DatabaseHandler.create_tables fk).
Proof.
  unfold handler_ok, keys_ok. simpl. repeat split; try constructor.
Qed.

Lemma add_user_ok h username email creation_date now :
  handler_ok h →
  handler_ok (DatabaseHandler.add_user h username email creation_date now).2.
Proof.
  intros (Hu & Hh & Hc & Hnn & Hfk). unfold handler_ok. cbn.
  split; [|split; [done|split; [done|split; [done|]]]].
  - rewrite fmap_app. by apply keys_ok_add.
  - intros Hon. destruct (Hfk Hon) as [Hhu Hch]. split; [|done].
    eapply Forall_impl; [exact Hhu|]. intros r Hr. simpl.
    rewrite fmap_app. apply elem_of_app. by left.
Qed.

Lemma update_user_ok h user_id new_username new_email :
  handler_ok h →
  handler_ok (DatabaseHandler.update_user h user_id new_username new_email).
Proof.
  intros (Hu & Hh & Hc & Hnn & Hfk). unfold handler_ok. cbn.
  rewrite fmap_same_key by (intros u; by case_decide). done.
Qed.

Lemma add_habit_ok h user_id name description periodicity creation_date now :
  handler_ok h →
  handler_ok (state_after (DatabaseHandler.add_habit h user_id name description
                             periodicity creation_date now) h).
Proof.
  intros Hok. unfold DatabaseHandler.add_habit.
  destruct (foreign_keys h && _) eqn:Echeck; [done|]. cbn [state_after].
  destruct Hok as (Hu & Hh & Hc & Hnn & Hfk). unfold handler_ok. cbn.
  split; [done|]. split; [|split; [done|split; [done|]]].
  - rewrite fmap_app. by apply keys_ok_add.
  - intros Hon. destruct (Hfk Hon) as [Hhu Hch]. rewrite Hon in Echeck.
    simpl in Echeck. apply negb_false_iff, bool_decide_eq_true in Echeck. split.
    + apply Forall_app. split; [done|]. by repeat constructor.
    + eapply Forall_impl; [exact Hch|]. intros c Hc'. simpl.
      rewrite fmap_app. apply elem_of_app. by left.
Qed.

Lemma add_completion_ok h habit_id completed_date now :
  handler_ok h →
  handler_ok (state_after (DatabaseHandler.add_completion h habit_id completed_date now) h).
Proof.
  intros Hok. unfold DatabaseHandler.add_completion.
  destruct (foreign_keys h && _) eqn:Echeck; [done|]. cbn [state_after].
  destruct Hok as (Hu & Hh & Hc & Hnn & Hfk). unfold handler_ok. cbn.
  split; [done|]. split; [done|]. split; [|split].
  - rewrite fmap_app. by apply keys_ok_add.
  - apply Forall_app. split; [done|]. by repeat constructor.
  - intros Hon. destruct (Hfk Hon) as [Hhu Hch]. rewrite Hon in Echeck.
    simpl in Echeck. apply negb_false_iff, bool_decide_eq_true in Echeck.
    split; [done|]. apply Forall_app. split; [done|]. by repeat constructor.
Qed.

Lemma update_completion_date_ok h completion_id new_date :
  handler_ok h →
  handler_ok (state_after
                (DatabaseHandler.update_completion_date h completion_id new_date) h).
Proof.
  intros Hok. unfold DatabaseHandler.update_completion_date.
  destruct new_date as [|s]; [by case_bool_decide|]. cbn [state_after].
  destruct Hok as (Hu & Hh & Hc & Hnn & Hfk). unfold handler_ok. cbn.
  split; [done|]. split; [done|]. split; [|split].
  - by rewrite fmap_same_key by (intros c; by case_decide).
  - apply Forall_fmap. eapply Forall_impl; [exact Hnn|]. intros c Hc'. simpl.
    by case_decide.
  - intros Hon. destruct (Hfk Hon) as [Hhu Hch]. split; [done|].
    apply Forall_fmap. eapply Forall_impl; [exact Hch|]. intros c Hc'. simpl.
    by case_decide.
Qed.

Lemma delete_completion_ok h habit_id completed_date :
  handler_ok h →
  handler_ok (DatabaseHandler.delete_completion sql_date h habit_id completed_date).
Proof.
  intros (Hu & Hh & Hc & Hnn & Hfk). unfold handler_ok. cbn.
  split; [done|]. split; [done|]. split; [|split].
  - by apply keys_ok_filter.
  - by apply Forall_filter_2.
  - intros Hon. destruct (Hfk Hon) as [Hhu Hch]. split; [done|]. by apply Forall_filter_2.
Qed.

Lemma update_habit_ok h user_id old_name new_name new_description new_periodicity :
  handler_ok h →
  handler_ok (DatabaseHandler.update_habit h user_id old_name new_name
                new_description new_periodicity).
Proof.
  intros (Hu & Hh & Hc & Hnn & Hfk). unfold handler_ok. cbn.
  rewrite fmap_same_key by (intros r; by case_decide).
  split; [done|]. split; [done|]. split; [done|]. split; [done|].
  intros Hon. destruct (Hfk Hon) as [Hhu Hch]. split; [|done].
  apply Forall_fmap. eapply Forall_impl; [exact Hhu|]. intros r Hr. simpl.
  by case_decide.
Qed.

Lemma cascade_completions_sublist fk gone cs :
  DatabaseHandler.cascade_completions fk gone cs `sublist_of` cs.
Proof.
  unfold DatabaseHandler.cascade_completions. destruct fk; [apply sublist_filter|done].
Qed.

Lemma delete_habit_ok h user_id habit_name :
  handler_ok h → handler_ok (DatabaseHandler.delete_habit h user_id habit_name).
Proof.
  intros (Hu & Hh & Hc & Hnn & Hfk). unfold handler_ok. cbn.
  split; [done|]. split; [by apply keys_ok_filter|]. split; [|split].
  - eapply keys_ok_sublist; [|exact Hc]. apply sublist_fmap_2, cascade_completions_sublist.
  - rewrite Forall_forall in *. intros c Hin. apply Hnn.
    eapply elem_of_sublist; [exact Hin|apply cascade_completions_sublist].
  - intros Hon. destruct (Hfk Hon) as [Hhu Hch]. split; [by apply Forall_filter_2|].
    rewrite Hon. unfold DatabaseHandler.cascade_completions.
    rewrite Forall_forall in *. intros c [Hng Hin]%list_elem_of_filter.
    specialize (Hch c Hin). apply list_elem_of_fmap in Hch as (r & Hid & Hr).
    apply list_elem_of_fmap. exists r. split; [done|].
    apply list_elem_of_filter. split; [|done]. intros Hhit. apply Hng.
    apply list_elem_of_fmap. exists r. split; [done|]. by apply list_elem_of_filter.
Qed.

Lemma delete_user_ok h user_id :
  handler_ok h → handler_ok (DatabaseHandler.delete_user h user_id).
Proof.
  intros (Hu & Hh & Hc & Hnn & Hfk). unfold handler_ok. cbn.
  split; [by apply keys_ok_filter|]. split; [|split; [|split]].
  - destruct (foreign_keys h); [by apply keys_ok_filter|done].
  - eapply keys_ok_sublist; [|exact Hc]. apply sublist_fmap_2, cascade_completions_sublist.
  - rewrite Forall_forall in *. intros c Hin. apply Hnn.
    eapply elem_of_sublist; [exact Hin|apply cascade_completions_sublist].
  - intros Hon. destruct (Hfk Hon) as [Hhu Hch]. rewrite Hon.
    unfold DatabaseHandler.cascade_completions.
    rewrite !Forall_forall in *. split.
    + intros r [Hng Hin]%list_elem_of_filter.
      specialize (Hhu r Hin). apply list_elem_of_fmap in Hhu as (u & Hid & Hu').
      apply list_elem_of_fmap. exists u. split; [done|].
      apply list_elem_of_filter. split; [|done]. intros Heq. apply Hng.
      apply list_elem_of_fmap. exists u. split; [done|]. by apply list_elem_of_filter.
    + intros c [Hng Hin]%list_elem_of_filter.
      specialize (Hch c Hin). apply list_elem_of_fmap in Hch as (r & Hid & Hr).
      apply list_elem_of_fmap. exists r. split; [done|].
      apply list_elem_of_filter. split; [|done]. intros Hgone. apply Hng.
      apply list_elem_of_fmap. exists r. split; [done|]. by apply list_elem_of_filter.
Qed.

Lemma perform_ok h c : handler_ok h → handler_ok (perform sql_date h c).
Proof.
  intros Hok. destruct c; cbn [perform].
  - by apply add_user_ok.
  - by apply update_user_ok.
  - by apply add_habit_ok.
  - by apply add_completion_ok.
  - by apply update_completion_date_ok.
  - by apply delete_completion_ok.
  - by apply update_habit_ok.
  - by apply delete_habit_ok.
  - by apply delete_user_ok.
Qed.

Lemma fold_perform_ok h cs :
  handler_ok h → handler_ok (fold_left (perform sql_date) cs h).
Proof.
  revert h. induction cs as [|c cs IH]; intros h Hok; [done|].
  cbn [fold_left]. by apply IH, perform_ok.
Qed.

(** X10.  Whatever calls are made on a new connection, in either foreign-key
    mode, the primary keys of each table stay unique, positive and bounded by
    the table's AUTOINCREMENT counter, and [completed_date] is never NULL. *)
Theorem history_ok (fk : bool) (cs : list call) : handler_ok (history sql_date fk cs).
Proof.
  unfold history. apply fold_perform_ok. apply create_tables_ok.
Qed.

End invariant.

(** ** Writing and reading back *)

Lemma head_filter_snoc {A} (P : A → Prop) `{!∀ x, Decision (P x)} (l : list A) x :
  P x → head (filter P (l ++ [x])) = Some (default x (head (filter P l))).
Proof.
  intros Hx. rewrite filter_app, filter_cons_True, filter_nil by done.
  by destruct (filter P l).
Qed.

Lemma filter_snoc_False {A} (P : A → Prop) `{!∀ x, Decision (P x)} (l : list A) x :
  ¬ P x → filter P (l ++ [x]) = filter P l.
Proof.
  intros Hx. rewrite filter_app, filter_cons_False, filter_nil by done.
  by rewrite app_nil_r.
Qed.

(** X12.  After [add_user], [get_user_id] finds the username: it returns the
    id of the first user of that name, which is the new id when the name was
    not in use.  Other usernames resolve as before, there is one user more,
    habits and completions are untouched, and the new id was never used. *)
Theorem add_user_get_user_id (h : handler) (username email : string)
    (creation_date : pyval) (now : string) :
  let id := (DatabaseHandler.add_user h username email creation_date now).1 in
  let h' := (DatabaseHandler.add_user h username email creation_date now).2 in
  DatabaseHandler.get_user_id h' username
    = Some (default id (DatabaseHandler.get_user_id h username))
  ∧ (∀ other, other ≠ username →
       DatabaseHandler.get_user_id h' other = DatabaseHandler.get_user_id h other)
  ∧ length (DatabaseHandler.get_all_users h')
    = S (length (DatabaseHandler.get_all_users h))
  ∧ tables h' = tables h
  ∧ (handler_ok h → (id ∉ (ur_id <$> users_table h)) ∧ (seq_users h < id)).
Proof.
  cbv zeta. unfold DatabaseHandler.add_user, DatabaseHandler.get_user_id,
    DatabaseHandler.get_all_users. cbn [fst snd users_table tables].
  split; [|split; [|split; [|split]]].
  - rewrite head_filter_snoc by done. by destruct (head _).
  - intros other Hne. rewrite filter_snoc_False; [done|]. simpl. congruence.
  - rewrite length_app. simpl. lia.
  - done.
  - intros (Hu & _). destruct (next_rowid_fresh _ _ Hu) as (? & ? & _). done.
Qed.


(** X14.  [add_completion] either fails on the foreign key (only when
    foreign keys are enforced and the habit does not exist) or appends one
    completion, dated [completed_date] or now when that is missing or empty,
    to the completions of the habit; the completions of other habits and the
    habits are unchanged and the id is new. *)
Theorem add_completion_get_completions (h : handler) (habit_id : Z)
    (completed_date : pyval) (now : string) :
  match DatabaseHandler.add_completion h habit_id completed_date now with
  | IntegrityError =>
      foreign_keys h = true ∧ (habit_id ∉ (hr_id <$> habits_table (tables h)))
  | Done _ h' =>
      ∃ row,
        cr_habit_id row = habit_id
        ∧ cr_completed_date row
          = PyStr (match completed_date with
                   | PyStr (String a s) => String a s
                   | _ => now
                   end)
        ∧ get_completions (tables h') habit_id
          = get_completions (tables h) habit_id ++ [row]
        ∧ (∀ other, other ≠ habit_id →
             get_completions (tables h') other = get_completions (tables h) other)
        ∧ habits_table (tables h') = habits_table (tables h)
        ∧ (handler_ok h →
             (cr_id row ∉ (cr_id <$> completions_table (tables h)))
             ∧ (seq_completions h < cr_id row))
  end.
Proof.
  unfold DatabaseHandler.add_completion.
  destruct (foreign_keys h && _) eqn:Echeck.
  { apply andb_true_iff in Echeck as [Hfk Hno]. split; [done|].
    by apply negb_true_iff, bool_decide_eq_false in Hno. }
  exists {| cr_id := DatabaseHandler.next_rowid (seq_completions h)
                        (cr_id <$> completions_table (tables h));
            cr_habit_id := habit_id;
            cr_completed_date := PyStr (DatabaseHandler.py_or completed_date now) |}.
  split; [reflexivity|].
  unfold get_completions. cbn [tables habits_table completions_table].
  split; [|split; [|split; [|split]]].
  - cbn. f_equal. by destruct completed_date as [|[|]].
  - by rewrite filter_app, filter_cons_True, filter_nil by done.
  - intros other Hne. rewrite filter_snoc_False; [done|]. simpl. congruence.
  - done.
  - intros (_ & _ & Hc & _). destruct (next_rowid_fresh _ _ Hc) as (? & ? & _). done.
Qed.

(** ** Updating and deleting *)

Lemma filter_fmap_keep {A} (P : A → Prop) `{!∀ x, Decision (P x)} (f : A → A)
    (l : list A) :
  (∀ x, P (f x) ↔ P x) → filter P (f <$> l) = f <$> filter P l.
Proof.
  intros HP. induction l as [|x l IH]; [done|].
  rewrite fmap_cons, !filter_cons. destruct (decide (P x)) as [Hx|Hx].
  - rewrite decide_True by by apply HP. by rewrite fmap_cons, IH.
  - rewrite decide_False by (by rewrite HP). done.
Qed.

Lemma fmap_fixed {A} (f : A → A) (l : list A) :
  Forall (λ x, f x = x) l → f <$> l = l.
Proof. induction 1 as [|x l Hx _ IH]; [done|]. by rewrite fmap_cons, Hx, IH. Qed.

(** X15.  [update_completion_date] changes the date of the completion with
    the given id and nothing else: ids, habits and the other rows stay, an
    unknown id changes nothing, and a NULL date for an existing id is refused
    by the NOT NULL constraint. *)
Theorem update_completion_date_spec (h : handler) (completion_id : Z) (new_date : pyval) :
  match DatabaseHandler.update_completion_date h completion_id new_date with
  | IntegrityError =>
      new_date = PyNone ∧ completion_id ∈ (cr_id <$> completions_table (tables h))
  | Done _ h' =>
      let set_date := λ c, {| cr_id := cr_id c; cr_habit_id := cr_habit_id c;
                              cr_completed_date := new_date |} in
      filter (λ c, cr_id c ≠ completion_id) (completions_table (tables h'))
        = filter (λ c, cr_id c ≠ completion_id) (completions_table (tables h))
      ∧ filter (λ c, cr_id c = completion_id) (completions_table (tables h'))
        = set_date <$> filter (λ c, cr_id c = completion_id) (completions_table (tables h))
      ∧ cr_id <$> completions_table (tables h') = cr_id <$> completions_table (tables h)
      ∧ cr_habit_id <$> completions_table (tables h')
        = cr_habit_id <$> completions_table (tables h)
      ∧ habits_table (tables h') = habits_table (tables h)
      ∧ ((completion_id ∉ (cr_id <$> completions_table (tables h))) →
         completions_table (tables h') = completions_table (tables h))
  end.
Proof.
  unfold DatabaseHandler.update_completion_date. destruct new_date as [|s].
  - case_bool_decide as Hin; [done|]. cbv zeta. split; [done|]. split.
    + assert (filter (λ c, cr_id c = completion_id) (completions_table (tables h)) = [])
        as ->; [|done].
      induction (completions_table (tables h)) as [|c l IH]; [done|].
      rewrite fmap_cons, not_elem_of_cons in Hin. destruct Hin as [Hne Hin].
      rewrite filter_cons, decide_False by done. by apply IH.
    + done.
  - cbv zeta. cbn [tables completions_table habits_table].
    set (upd := λ c, if decide (cr_id c = completion_id)
                     then {| cr_id := cr_id c; cr_habit_id := cr_habit_id c;
                             cr_completed_date := PyStr s |} else c).
    assert (Hid : ∀ c, cr_id (upd c) = cr_id c) by (intros c; unfold upd; by case_decide).
    split; [|split; [|split; [|split; [|split]]]].
    + rewrite filter_fmap_keep by (intros c; by rewrite Hid).
      apply fmap_fixed, Forall_forall. intros c [Hne _]%list_elem_of_filter.
      unfold upd. by rewrite decide_False.
    + rewrite filter_fmap_keep by (intros c; by rewrite Hid).
      apply list_fmap_ext. intros i c Hc%list_elem_of_lookup_2.
      apply list_elem_of_filter in Hc as [Heq _]. unfold upd. by rewrite decide_True.
    + by apply fmap_same_key.
    + apply fmap_same_key. intros c. unfold upd. by case_decide.
    + done.
    + intros Hnin. apply fmap_fixed, Forall_forall. intros c Hc. unfold upd.
      rewrite decide_False; [done|]. intros Heq. apply Hnin.
      apply list_elem_of_fmap. by exists c.
Qed.

Section deleting.
Variable sql_date : string → option string.

(** X16.  [delete_completion] removes exactly the completions of the habit
    whose stored timestamp falls on the calendar day of [completed_date], as
    SQLite's DATE() reads them.  The other rows keep their order, other
    habits are unaffected, a date DATE() cannot read deletes nothing, and
    deleting a second time changes nothing. *)
Theorem delete_completion_spec (h : handler) (habit_id : Z) (completed_date : string) :
  let h' := DatabaseHandler.delete_completion sql_date h habit_id completed_date in
  let same_day := λ c, ∃ d, DatabaseHandler.sql_date_of sql_date (cr_completed_date c)
                              = Some d
                            ∧ sql_date completed_date = Some d in
  (∀ c, c ∈ completions_table (tables h')
        ↔ c ∈ completions_table (tables h)
          ∧ ¬ (cr_habit_id c = habit_id ∧ same_day c))
  ∧ completions_table (tables h') `sublist_of` completions_table (tables h)
  ∧ (∀ other, other ≠ habit_id →
       get_completions (tables h') other = get_completions (tables h) other)
  ∧ (sql_date completed_date = None →
       completions_table (tables h') = completions_table (tables h))
  ∧ habits_table (tables h') = habits_table (tables h)
  ∧ DatabaseHandler.delete_completion sql_date h' habit_id completed_date = h'.
Proof.
  cbv zeta.
  assert (Hhit : ∀ c, DatabaseHandler.delete_completion_hit sql_date habit_id
                        completed_date c = true
                      ↔ cr_habit_id c = habit_id
                        ∧ ∃ d, DatabaseHandler.sql_date_of sql_date (cr_completed_date c)
                                 = Some d ∧ sql_date completed_date = Some d).
  { intros c. unfold DatabaseHandler.delete_completion_hit.
    rewrite andb_true_iff, bool_decide_eq_true.
    destruct (DatabaseHandler.sql_date_of sql_date (cr_completed_date c)) as [d|],
      (sql_date completed_date) as [d'|].
    - rewrite bool_decide_eq_true. split.
      + intros [? ->]. eauto.
      + intros [? (d0 & [= ->] & [= ->])]. done.
    - split; [by intros [_ ?] | by intros [_ (? & _ & ?)]].
    - split; [by intros [_ ?] | by intros [_ (? & ? & _)]].
    - split; [by intros [_ ?] | by intros [_ (? & ? & _)]]. }
  unfold DatabaseHandler.delete_completion. cbn [tables completions_table habits_table].
  split; [|split; [|split; [|split; [|split]]]].
  - intros c. rewrite list_elem_of_filter, <- Hhit.
    destruct (DatabaseHandler.delete_completion_hit _ _ _ c); split.
    + by intros [? _].
    + by intros [_ []].
    + intros [_ ?]. split; [done|]. by intros ?.
    + by intros [? _].
  - apply sublist_filter.
  - intros other Hne. unfold get_completions. cbn [completions_table].
    rewrite list_filter_filter. apply list_filter_iff. intros c. cbv beta.
    split; [by intros [? _]|].
    intros Hc. split; [done|]. apply not_true_iff_false. rewrite Hhit.
    intros [? _]. congruence.
  - intros Hnone.
    induction (completions_table (tables h)) as [|c l IH]; [done|].
    rewrite filter_cons_True; [by rewrite IH|].
    apply not_true_iff_false. rewrite Hhit. intros [_ (d & _ & Hd)]. congruence.
  - done.
  - f_equal. f_equal. rewrite list_filter_filter. apply list_filter_iff.
    intros c. cbv beta. tauto.
Qed.
End deleting.

Lemma filter_none {A} (P : A → Prop) `{!∀ x, Decision (P x)} (l : list A) :
  Forall (λ x, ¬ P x) l → filter P l = [].
Proof.
  induction 1 as [|x l Hx _ IH]; [done|]. by rewrite filter_cons_False.
Qed.

(** X17.  [delete_habit] removes the user's habits of the given name and no
    other habit.  Their completions are removed only when foreign keys are
    enforced; without enforcement (SQLite's default) the table of completions
    is left as it was. *)
Theorem delete_habit_spec (h : handler) (user_id : Z) (habit_name : string) :
  let h' := DatabaseHandler.delete_habit h user_id habit_name in
  let gone := filter (λ r, hr_user_id r = user_id ∧ hr_name r = habit_name)
                (habits_table (tables h)) in
  DatabaseHandler.get_habit_by_name h' user_id habit_name = None
  ∧ get_all_habits (tables h') user_id
    = filter (λ r, hr_name r ≠ habit_name) (get_all_habits (tables h) user_id)
  ∧ (∀ other, other ≠ user_id →
       get_all_habits (tables h') other = get_all_habits (tables h) other)
  ∧ (∀ other, other ≠ habit_name →
       DatabaseHandler.get_habit_by_name h' user_id other
       = DatabaseHandler.get_habit_by_name h user_id other)
  ∧ (foreign_keys h = false →
       completions_table (tables h') = completions_table (tables h))
  ∧ (foreign_keys h = true →
       completions_table (tables h')
       = filter (λ c, cr_habit_id c ∉ (hr_id <$> gone)) (completions_table (tables h)))
  ∧ users_table h' = users_table h.
Proof.
  cbv zeta. unfold DatabaseHandler.delete_habit, DatabaseHandler.get_habit_by_name,
    get_all_habits. cbn [tables habits_table completions_table users_table].
  split; [|split; [|split; [|split; [|split; [|split]]]]].
  - rewrite list_filter_filter, filter_none; [done|].
    apply Forall_forall. intros r _. tauto.
  - rewrite !list_filter_filter. apply list_filter_iff. intros r. cbv beta.
    split; [intros [Hu Hn]; split; [|done]; intros ?; apply Hn; done|].
    intros [Hn Hu]. split; [done|]. intros [_ ?]. done.
  - intros other Hne. rewrite list_filter_filter. apply list_filter_iff.
    intros r. cbv beta. split; [by intros [? _]|]. intros Hu. split; [done|].
    intros [? _]. congruence.
  - intros other Hne. f_equal. rewrite list_filter_filter. apply list_filter_iff.
    intros r. cbv beta. split; [by intros [? _]|]. intros [Hu Hn]. split; [done|].
    intros [_ ?]. congruence.
  - by intros ->.
  - by intros ->.
  - done.
Qed.


(** X19.  [delete_user] removes the user with the given id and no other.
    Without foreign-key enforcement habits and completions stay as they were;
    with it, the user's habits and their completions are removed and the
    habits of other users stay. *)
Theorem delete_user_spec (h : handler) (user_id : Z) :
  let h' := DatabaseHandler.delete_user h user_id in
  Forall (λ u, ur_id u ≠ user_id) (DatabaseHandler.get_all_users h')
  ∧ DatabaseHandler.get_all_users h'
    = filter (λ u, ur_id u ≠ user_id) (DatabaseHandler.get_all_users h)
  ∧ (foreign_keys h = false → tables h' = tables h)
  ∧ (foreign_keys h = true →
       (user_id ∈ (ur_id <$> users_table h)) →
       get_all_habits (tables h') user_id = []
       ∧ (∀ other, other ≠ user_id →
            get_all_habits (tables h') other = get_all_habits (tables h) other)
       ∧ ∀ c r, c ∈ completions_table (tables h') →
                r ∈ habits_table (tables h) → hr_id r = cr_habit_id c →
                hr_user_id r ≠ user_id).
Proof.
  cbv zeta. unfold DatabaseHandler.delete_user, DatabaseHandler.get_all_users.
  cbn [tables habits_table completions_table users_table].
  split; [|split; [|split]].
  - apply Forall_forall. by intros u [? _]%list_elem_of_filter.
  - done.
  - intros ->. cbn. by destruct (tables h).
  - intros -> Hin. cbn [DatabaseHandler.cascade_completions].
    assert (Hgone : ∀ x, x ∈ (ur_id <$> filter (λ u, ur_id u = user_id) (users_table h))
                         ↔ x = user_id).
    { intros x. rewrite list_elem_of_fmap. split.
      - intros (u & -> & [? _]%list_elem_of_filter). done.
      - intros ->. apply list_elem_of_fmap in Hin as (u & Hid & Hu).
        exists u. split; [done|]. by apply list_elem_of_filter. }
    unfold get_all_habits. cbn [habits_table]. split; [|split].
    + rewrite list_filter_filter. apply filter_none, Forall_forall.
      intros r _ [Hu Hng]. apply Hng, Hgone. done.
    + intros other Hne. rewrite list_filter_filter. apply list_filter_iff.
      intros r. cbv beta. split; [by intros [? _]|]. intros Hu. split; [done|].
      rewrite Hgone. congruence.
    + intros c r [Hng _]%list_elem_of_filter Hr Hid Hu. apply Hng.
      apply list_elem_of_fmap. exists r. split; [done|].
      apply list_elem_of_filter. split; [|done]. by apply Hgone.
Qed.

(** ** Completing a habit and the analytics *)

Lemma sql_le_antisym a b : sql_le a b = true → sql_le b a = true → a = b.
Proof.
  destruct a as [|s], b as [|t]; simpl; try done.
  intros H1 H2. f_equal. by apply String.leb_antisym.
Qed.

Section completing.
Variable parse_iso : string → option Z.

(** X20.  Completing a habit and asking whether it is due.  After a
    successful [add_completion] whose timestamp parses and is not below any
    stored timestamp of the habit, [is_due_today] is decided by that
    completion alone: due iff at least [periodicity] days separate its date
    from today.  A habit with periodicity at least 1 that was completed today
    is not due. *)
Theorem add_completion_then_due (h h' : handler) (habit : habit_row)
    (completed_date : pyval) (now : string) (d today : Z) :
  DatabaseHandler.add_completion h (hr_id habit) completed_date now = Done () h' →
  parse_iso (DatabaseHandler.py_or completed_date now) = Some d →
  Forall (λ c, sql_le (cr_completed_date c)
                 (PyStr (DatabaseHandler.py_or completed_date now)) = true)
         (get_completions (tables h) (hr_id habit)) →
  is_due_today parse_iso (tables h') today habit
    = Return (bool_decide (hr_periodicity habit ≤ today - date d))
  ∧ (date d = today → 1 ≤ hr_periodicity habit →
     is_due_today parse_iso (tables h') today habit = Return false).
Proof.
  intros Hadd Hparse Hlatest.
  set (t := DatabaseHandler.py_or completed_date now) in *.
  assert (Hcs : ∃ row, cr_completed_date row = PyStr t
                       ∧ get_completions (tables h') (hr_id habit)
                         = get_completions (tables h) (hr_id habit) ++ [row]).
  { unfold DatabaseHandler.add_completion in Hadd.
    destruct (foreign_keys h && _); [done|]. injection Hadd as <-.
    eexists. split; [|unfold get_completions; cbn [tables completions_table];
                       by rewrite filter_app, filter_cons_True, filter_nil by done].
    done. }
  destruct Hcs as (row & Hrow & Hcs).
  assert (Hdue : is_due_today parse_iso (tables h') today habit
                 = Return (bool_decide (hr_periodicity habit ≤ today - date d))).
  { unfold is_due_today.
    destruct (get_last_completion (tables h') (hr_id habit)) as [c|] eqn:Ec.
    - apply get_last_completion_latest in Ec as [Hin Hall]. rewrite Hcs in Hin, Hall.
      assert (Hc : cr_completed_date c = PyStr t).
      { apply sql_le_antisym.
        - apply elem_of_app in Hin as [Hin| ->%list_elem_of_singleton].
          + rewrite Forall_forall in Hlatest. by apply Hlatest.
          + rewrite Hrow. apply sql_le_refl.
        - rewrite Forall_forall in Hall. rewrite <- Hrow. apply Hall.
          apply elem_of_app. right. by apply list_elem_of_singleton. }
      rewrite Hc. simpl. rewrite Hparse. cbn [mbind outcome_bind]. f_equal.
      by destruct (Z.leb_spec (hr_periodicity habit) (today - date d));
        [rewrite bool_decide_eq_true_2|rewrite bool_decide_eq_false_2 by lia].
    - apply get_last_completion_None in Ec. rewrite Hcs in Ec. by destruct (get_completions _ _). }
  split; [exact Hdue|]. intros Htoday HP. rewrite Hdue. f_equal.
  apply bool_decide_eq_false_2. lia.
Qed.
End completing.

(** ** Further instances on sample data *)

(** ** Instances of the further properties on sample data *)


Lemma longest_streak_monotone_in_periodicity_witness :
  5 ≤ 7
  ∧ match get_longest_streak_for_habit iso_parse fixture_db 2 5,
          get_longest_streak_for_habit iso_parse fixture_db 2 7 with
    | Return v, Return v' => v ≤ v'
    | Raise e, Raise e' => e = e'
    | _, _ => False
    end.
Proof.
  assert (H : 5 ≤ 7) by lia.
  split; [exact H|].
  exact (longest_streak_monotone_in_periodicity iso_parse fixture_db 2 5 7 H).
Defined.

Lemma longest_streak_is_max_of_all_streaks_witness :
  get_all_streaks iso_parse fixture_db 1
    = Return [("Exercise", 3); ("Reading", 2); ("Meditation", 2)]
  ∧ ∃ o v, get_longest_streak iso_parse fixture_db 1 = Return (o, v)
           ∧ v = foldr Z.max 0 ([("Exercise", 3); ("Reading", 2); ("Meditation", 2)].*2)
           ∧ ([("Exercise", 3); ("Reading", 2); ("Meditation", 2)] = [] → o = None)
           ∧ ([("Exercise", 3); ("Reading", 2); ("Meditation", 2)] ≠ [] →
              ∃ h, o = Some h ∧ h ∈ get_all_habits fixture_db 1
                   ∧ (hr_name h, v) ∈ [("Exercise", 3); ("Reading", 2); ("Meditation", 2)]).
Proof.
  assert (H : get_all_streaks iso_parse fixture_db 1
              = Return [("Exercise", 3); ("Reading", 2); ("Meditation", 2)])
    by (vm_compute; reflexivity).
  split; [exact H|].
  exact (longest_streak_is_max_of_all_streaks iso_parse fixture_db 1 _ H).
Defined.

Lemma habits_to_complete_today_spec_witness :
  get_habits_to_complete_today iso_parse fixture_db 738767 1
    = Return [mk_habit 1 1 "Exercise" 1]
  ∧ [mk_habit 1 1 "Exercise" 1] `sublist_of` get_all_habits fixture_db 1
  ∧ (mk_habit 1 1 "Exercise" 1 ∈ get_all_habits idle_db 1
     ∧ get_completions idle_db (hr_id (mk_habit 1 1 "Exercise" 1)) = []
     ∧ get_habits_to_complete_today iso_parse idle_db 738767 1
       = Return [mk_habit 1 1 "Exercise" 1; mk_habit 2 1 "Reading" 7]
     ∧ mk_habit 1 1 "Exercise" 1
         ∈ [mk_habit 1 1 "Exercise" 1; mk_habit 2 1 "Reading" 7]).
Proof.
  assert (H : get_habits_to_complete_today iso_parse fixture_db 738767 1
              = Return [mk_habit 1 1 "Exercise" 1])
    by (vm_compute; reflexivity).
  assert (H' : get_habits_to_complete_today iso_parse idle_db 738767 1
               = Return [mk_habit 1 1 "Exercise" 1; mk_habit 2 1 "Reading" 7])
    by (vm_compute; reflexivity).
  assert (Hin : mk_habit 1 1 "Exercise" 1 ∈ get_all_habits idle_db 1).
  { change (get_all_habits idle_db 1) with (habits_table idle_db). apply list_elem_of_here. }
  assert (Hno : get_completions idle_db (hr_id (mk_habit 1 1 "Exercise" 1)) = [])
    by reflexivity.
  destruct (habits_to_complete_today_spec iso_parse fixture_db 738767 1) as [Hf _].
  destruct (habits_to_complete_today_spec iso_parse idle_db 738767 1) as [Hi _].
  split; [exact H|]. split; [exact (proj1 (Hf _ H))|].
  split; [exact Hin|]. split; [exact Hno|]. split; [exact H'|].
  exact (proj2 (proj2 (Hi _ H')) _ Hin Hno).
Defined.

Lemma is_due_today_later_witness :
  738767 ≤ 738800
  ∧ is_due_today iso_parse fixture_db 738767 (mk_habit 1 1 "Exercise" 1) = Return true
  ∧ is_due_today iso_parse fixture_db 738800 (mk_habit 1 1 "Exercise" 1) = Return true.
Proof.
  assert (H1 : 738767 ≤ 738800) by lia.
  assert (H2 : is_due_today iso_parse fixture_db 738767 (mk_habit 1 1 "Exercise" 1)
               = Return true) by (vm_compute; reflexivity).
  split; [exact H1|]. split; [exact H2|].
  exact (is_due_today_later iso_parse fixture_db 738767 738800 _ H1 H2).
Defined.

Lemma add_completion_then_calculate_streak_witness :
  w_heap (world_of_dates idle_db [63829036800000000]) !! completions (habit_object 1)
    = Some (DateList [63829036800000000])
  ∧ Forall (λ d, d ≤ 63829123200000000) [63829036800000000]
  ∧ 63829036800000000 ∈ [63829036800000000]
  ∧ Forall (λ d, d ≤ 63829036800000000) [63829036800000000]
  ∧ (calculate_streak (habit_object 1)
       (world_of_dates idle_db [63829036800000000])).1 = Return 1
  ∧ (calculate_streak (habit_object 1)
       (Habit_add_completion (habit_object 1) 63829123200000000
          (world_of_dates idle_db [63829036800000000])).2).1
    = Return (if decide (days (63829123200000000 - 63829036800000000)
                         ≤ periodicity (habit_object 1))
              then 1 + 1 else 1).
Proof.
  assert (H1 : w_heap (world_of_dates idle_db [63829036800000000])
                 !! completions (habit_object 1)
               = Some (DateList [63829036800000000])) by reflexivity.
  assert (H2 : Forall (λ d, d ≤ 63829123200000000) [63829036800000000]).
  { apply Forall_cons. split; [lia | apply Forall_nil_2]. }
  assert (H3 : 63829036800000000 ∈ [63829036800000000]) by apply list_elem_of_here.
  assert (H4 : Forall (λ d, d ≤ 63829036800000000) [63829036800000000]).
  { apply Forall_cons. split; [lia | apply Forall_nil_2]. }
  assert (H5 : (calculate_streak (habit_object 1)
                  (world_of_dates idle_db [63829036800000000])).1 = Return 1)
    by (vm_compute; reflexivity).
  split; [exact H1|]. split; [exact H2|]. split; [exact H3|]. split; [exact H4|].
  split; [exact H5|].
  exact (proj2 (add_completion_then_calculate_streak (habit_object 1) _ _ _ H1 H2)
           _ _ H3 H4 H5).
Defined.

Lemma Habit_init_own_completions_witness :
  w_heap (world_of_dates idle_db [0]) !! 0%nat = Some (DateList [0])
  ∧ ∃ h1 h2 w2,
      (h1 ← Habit_init "Exercise" "Daily workout" 1 0;
       h2 ← Habit_init "Reading" "Read a book" 7 0; mret (h1, h2))
        (world_of_dates idle_db [0]) = (Return (h1, h2), w2)
      ∧ completions h1 ≠ completions h2
      ∧ w_heap w2 !! 0%nat = Some (DateList [0]).
Proof.
  assert (H0 : w_heap (world_of_dates idle_db [0]) !! 0%nat = Some (DateList [0]))
    by reflexivity.
  split; [exact H0|].
  destruct (Habit_init_own_completions (world_of_dates idle_db [0])
              "Exercise" "Daily workout" "Reading" "Read a book" 1 0 7 0 5)
    as (h1 & h2 & w2 & E & Hne & _ & _ & Hold & _).
  exists h1, h2, w2. split; [exact E|]. split; [exact Hne|]. exact (Hold _ _ H0).
Defined.

Lemma sample_handler_ok fk : handler_ok (sample_handler fk).
Proof. apply fold_perform_ok, create_tables_ok. Qed.

Lemma add_user_get_user_id_witness :
  handler_ok (sample_handler true)
  ∧ "kate" ≠ "bob"
  ∧ DatabaseHandler.get_user_id
      (DatabaseHandler.add_user (sample_handler true) "bob" "bob@example.com" PyNone
         "2023-09-01T10:00:00").2 "kate"
    = DatabaseHandler.get_user_id (sample_handler true) "kate"
  ∧ ((DatabaseHandler.add_user (sample_handler true) "bob" "bob@example.com" PyNone
        "2023-09-01T10:00:00").1 ∉ (ur_id <$> users_table (sample_handler true)))
  ∧ (seq_users (sample_handler true)
     < (DatabaseHandler.add_user (sample_handler true) "bob" "bob@example.com" PyNone
          "2023-09-01T10:00:00").1).
Proof.
  assert (Hok : handler_ok (sample_handler true)) by apply sample_handler_ok.
  assert (Hne : "kate" ≠ "bob") by discriminate.
  destruct (add_user_get_user_id (sample_handler true) "bob" "bob@example.com" PyNone
              "2023-09-01T10:00:00") as (_ & Hother & _ & _ & Hfresh).
  split; [exact Hok|]. split; [exact Hne|]. split; [exact (Hother "kate" Hne)|].
  exact (Hfresh Hok).
Defined.


Lemma add_completion_get_completions_witness :
  handler_ok (sample_handler true)
  ∧ 2 ≠ 1
  ∧ ∃ h' row,
      DatabaseHandler.add_completion (sample_handler true) 1 PyNone
        "2023-09-01T10:00:00" = Done () h'
      ∧ cr_completed_date row = PyStr "2023-09-01T10:00:00"
      ∧ get_completions (tables h') 1
        = get_completions (tables (sample_handler true)) 1 ++ [row]
      ∧ get_completions (tables h') 2 = get_completions (tables (sample_handler true)) 2
      ∧ (cr_id row ∉ (cr_id <$> completions_table (tables (sample_handler true)))).
Proof.
  assert (Hok : handler_ok (sample_handler true)) by apply sample_handler_ok.
  assert (Hne : 2 ≠ 1) by lia.
  pose proof (add_completion_get_completions (sample_handler true) 1 PyNone
                "2023-09-01T10:00:00") as H.
  destruct (DatabaseHandler.add_completion (sample_handler true) 1 PyNone
              "2023-09-01T10:00:00") as [[] h'|] eqn:E.
  - destruct H as (row & _ & Hdate & Hget & Hother & _ & Hfresh).
    split; [exact Hok|]. split; [exact Hne|]. exists h', row. split; [reflexivity|].
    split; [exact Hdate|]. split; [exact Hget|]. split; [exact (Hother 2 Hne)|].
    exact (proj1 (Hfresh Hok)).
  - exfalso. vm_compute in E. discriminate E.
Defined.

Lemma update_completion_date_spec_witness :
  (9 ∉ (cr_id <$> completions_table (tables (sample_handler true))))
  ∧ ∃ h', DatabaseHandler.update_completion_date (sample_handler true) 9
            (PyStr "2023-09-01T00:00:00") = Done () h'
          ∧ completions_table (tables h') = completions_table (tables (sample_handler true)).
Proof.
  assert (Hnin : 9 ∉ (cr_id <$> completions_table (tables (sample_handler true)))).
  { change (cr_id <$> completions_table (tables (sample_handler true))) with [1; 2; 3].
    rewrite !not_elem_of_cons. repeat split; [lia..|apply not_elem_of_nil]. }
  pose proof (update_completion_date_spec (sample_handler true) 9
                (PyStr "2023-09-01T00:00:00")) as H.
  destruct (DatabaseHandler.update_completion_date (sample_handler true) 9
              (PyStr "2023-09-01T00:00:00")) as [[] h'|] eqn:E.
  - destruct H as (_ & _ & _ & _ & _ & Habsent).
    split; [exact Hnin|]. exists h'. split; [reflexivity|]. exact (Habsent Hnin).
  - exfalso. discriminate E.
Defined.

Lemma delete_completion_spec_witness :
  2 ≠ 1
  ∧ sqlite_date "yesterday" = None
  ∧ get_completions
      (tables (DatabaseHandler.delete_completion sqlite_date (sample_handler true) 1
                 "2023-08-30T00:00:00")) 2
    = get_completions (tables (sample_handler true)) 2
  ∧ completions_table
      (tables (DatabaseHandler.delete_completion sqlite_date (sample_handler true) 1
                 "yesterday"))
    = completions_table (tables (sample_handler true)).
Proof.
  assert (Hne : 2 ≠ 1) by lia.
  assert (Hnone : sqlite_date "yesterday" = None) by (vm_compute; reflexivity).
  destruct (delete_completion_spec sqlite_date (sample_handler true) 1
              "2023-08-30T00:00:00") as (_ & _ & Hother & _).
  destruct (delete_completion_spec sqlite_date (sample_handler true) 1
              "yesterday") as (_ & _ & _ & Hnull & _).
  split; [exact Hne|]. split; [exact Hnone|]. split; [exact (Hother 2 Hne)|].
  exact (Hnull Hnone).
Defined.

Lemma delete_habit_spec_witness :
  2 ≠ 1 ∧ "Reading" ≠ "Exercise"
  ∧ foreign_keys (sample_handler false) = false
  ∧ foreign_keys (sample_handler true) = true
  ∧ get_all_habits (tables (DatabaseHandler.delete_habit (sample_handler true) 1 "Exercise")) 2
    = get_all_habits (tables (sample_handler true)) 2
  ∧ DatabaseHandler.get_habit_by_name
      (DatabaseHandler.delete_habit (sample_handler true) 1 "Exercise") 1 "Reading"
    = DatabaseHandler.get_habit_by_name (sample_handler true) 1 "Reading"
  ∧ completions_table
      (tables (DatabaseHandler.delete_habit (sample_handler false) 1 "Exercise"))
    = completions_table (tables (sample_handler false))
  ∧ completions_table
      (tables (DatabaseHandler.delete_habit (sample_handler true) 1 "Exercise"))
    = filter (λ c, cr_habit_id c
                   ∉ (hr_id <$> filter (λ r, hr_user_id r = 1 ∧ hr_name r = "Exercise")
                                  (habits_table (tables (sample_handler true)))))
        (completions_table (tables (sample_handler true))).
Proof.
  assert (H1 : 2 ≠ 1) by lia.
  assert (H2 : "Reading" ≠ "Exercise") by discriminate.
  assert (H3 : foreign_keys (sample_handler false) = false) by reflexivity.
  assert (H4 : foreign_keys (sample_handler true) = true) by reflexivity.
  destruct (delete_habit_spec (sample_handler true) 1 "Exercise")
    as (_ & _ & Hother & Hname & _ & Hon & _).
  destruct (delete_habit_spec (sample_handler false) 1 "Exercise")
    as (_ & _ & _ & _ & Hoff & _).
  split; [exact H1|]. split; [exact H2|]. split; [exact H3|]. split; [exact H4|].
  split; [exact (Hother 2 H1)|]. split; [exact (Hname "Reading" H2)|].
  split; [exact (Hoff H3)|]. exact (Hon H4).
Defined.


Lemma delete_user_spec_witness :
  foreign_keys (sample_handler false) = false
  ∧ foreign_keys (sample_handler true) = true
  ∧ (1 ∈ (ur_id <$> users_table (sample_handler true)))
  ∧ tables (DatabaseHandler.delete_user (sample_handler false) 1)
    = tables (sample_handler false)
  ∧ get_all_habits (tables (DatabaseHandler.delete_user (sample_handler true) 1)) 1 = [].
Proof.
  assert (H1 : foreign_keys (sample_handler false) = false) by reflexivity.
  assert (H2 : foreign_keys (sample_handler true) = true) by reflexivity.
  assert (H3 : 1 ∈ (ur_id <$> users_table (sample_handler true))).
  { change (ur_id <$> users_table (sample_handler true)) with [1]. apply list_elem_of_here. }
  destruct (delete_user_spec (sample_handler false) 1) as (_ & _ & Hoff & _).
  destruct (delete_user_spec (sample_handler true) 1) as (_ & _ & _ & Hon).
  split; [exact H1|]. split; [exact H2|]. split; [exact H3|]. split; [exact (Hoff H1)|].
  exact (proj1 (Hon H2 H3)).
Defined.

Lemma add_completion_then_due_witness :
  DatabaseHandler.add_completion (sample_handler true) 1
    (PyStr "2023-09-04T18:00:00") "2023-09-04T18:00:01"
  = Done () (state_after
               (DatabaseHandler.add_completion (sample_handler true) 1
                  (PyStr "2023-09-04T18:00:00") "2023-09-04T18:00:01")
               (sample_handler true))
  ∧ iso_parse (DatabaseHandler.py_or (PyStr "2023-09-04T18:00:00") "2023-09-04T18:00:01")
    = Some 63829533600000000
  ∧ Forall (λ c, sql_le (cr_completed_date c)
                   (PyStr (DatabaseHandler.py_or (PyStr "2023-09-04T18:00:00")
                             "2023-09-04T18:00:01")) = true)
      (get_completions (tables (sample_handler true)) (hr_id (mk_habit 1 1 "Exercise" 1)))
  ∧ date 63829533600000000 = 738767
  ∧ 1 ≤ hr_periodicity (mk_habit 1 1 "Exercise" 1)
  ∧ is_due_today iso_parse
      (tables (state_after
                 (DatabaseHandler.add_completion (sample_handler true) 1
                    (PyStr "2023-09-04T18:00:00") "2023-09-04T18:00:01")
                 (sample_handler true)))
      738767 (mk_habit 1 1 "Exercise" 1)
    = Return false.
Proof.
  assert (H1 : DatabaseHandler.add_completion (sample_handler true) 1
                 (PyStr "2023-09-04T18:00:00") "2023-09-04T18:00:01"
               = Done () (state_after
                            (DatabaseHandler.add_completion (sample_handler true) 1
                               (PyStr "2023-09-04T18:00:00") "2023-09-04T18:00:01")
                            (sample_handler true))) by reflexivity.
  assert (H2 : iso_parse (DatabaseHandler.py_or (PyStr "2023-09-04T18:00:00")
                            "2023-09-04T18:00:01") = Some 63829533600000000)
    by (vm_compute; reflexivity).
  assert (H3 : Forall (λ c, sql_le (cr_completed_date c)
                   (PyStr (DatabaseHandler.py_or (PyStr "2023-09-04T18:00:00")
                             "2023-09-04T18:00:01")) = true)
      (get_completions (tables (sample_handler true)) (hr_id (mk_habit 1 1 "Exercise" 1)))).
  { change (get_completions (tables (sample_handler true))
              (hr_id (mk_habit 1 1 "Exercise" 1)))
      with [mk_completion 1 1 (PyStr "2023-08-30T07:00:00");
            mk_completion 2 1 (PyStr "2023-08-30T09:00:00");
            mk_completion 3 1 (PyStr "2023-08-31T08:00:00")].
    repeat (apply Forall_cons; split; [vm_compute; reflexivity|]). apply Forall_nil_2. }
  assert (H4 : date 63829533600000000 = 738767) by (vm_compute; reflexivity).
  assert (H5 : 1 ≤ hr_periodicity (mk_habit 1 1 "Exercise" 1)) by (simpl; lia).
  split; [exact H1|]. split; [exact H2|]. split; [exact H3|]. split; [exact H4|].
  split; [exact H5|].
  exact (proj2 (add_completion_then_due iso_parse (sample_handler true) _
                  (mk_habit 1 1 "Exercise" 1) _ _ _ 738767 H1 H2 H3) H4 H5).
Defined.

(** ** The example data of a new user *)

Lemma py_or_nonempty s now : s ≠ "" → DatabaseHandler.py_or (PyStr s) now = s.
Proof. by destruct s. Qed.

Lemma add_completion_Done h habit_id s now :
  s ≠ "" →
  (foreign_keys h = true → habit_id ∈ (hr_id <$> habits_table (tables h))) →
  ∃ h' id,
    DatabaseHandler.add_completion h habit_id (PyStr s) now = Done () h'
    ∧ foreign_keys h' = foreign_keys h ∧ users_table h' = users_table h
    ∧ habits_table (tables h') = habits_table (tables h)
    ∧ seq_habits h' = seq_habits h
    ∧ completions_table (tables h')
      = completions_table (tables h)
        ++ [{| cr_id := id; cr_habit_id := habit_id; cr_completed_date := PyStr s |}].
Proof.
  intros Hs Hfk. unfold DatabaseHandler.add_completion.
  rewrite (py_or_nonempty _ _ Hs).
  destruct (foreign_keys h) eqn:Efk; cbn [andb].
  - rewrite bool_decide_eq_true_2 by auto. cbn [negb].
    eexists _, _. split; [reflexivity|]. by cbn.
  - eexists _, _. split; [reflexivity|]. by cbn.
Qed.

Lemma add_habit_Done h user_id name description periodicity s now :
  (foreign_keys h = true → user_id ∈ (ur_id <$> users_table h)) →
  ∃ h' row,
    DatabaseHandler.add_habit h user_id name description periodicity s now = Done () h'
    ∧ foreign_keys h' = foreign_keys h ∧ users_table h' = users_table h
    ∧ completions_table (tables h') = completions_table (tables h)
    ∧ habits_table (tables h') = habits_table (tables h) ++ [row]
    ∧ hr_user_id row = user_id ∧ hr_name row = name ∧ hr_periodicity row = periodicity
    ∧ hr_id row
      = DatabaseHandler.next_rowid (seq_habits h) (hr_id <$> habits_table (tables h))
    ∧ seq_habits h' = hr_id row.
Proof.
  intros Hfk. unfold DatabaseHandler.add_habit.
  destruct (foreign_keys h) eqn:Efk; cbn [andb].
  - rewrite bool_decide_eq_true_2 by auto. cbn [negb].
    eexists _, _. split; [reflexivity|]. by cbn.
  - eexists _, _. split; [reflexivity|]. by cbn.
Qed.

Lemma get_completions_app db cs habit_id :
  get_completions {| habits_table := habits_table db;
                     completions_table := completions_table db ++ cs |} habit_id
  = get_completions db habit_id ++ filter (λ c, cr_habit_id c = habit_id) cs.
Proof. unfold get_completions. cbn. by rewrite filter_app. Qed.

Lemma filter_all {A} (P : A → Prop) `{!∀ x, Decision (P x)} (l : list A) :
  Forall P l → filter P l = l.
Proof.
  induction 1 as [|x l Hx _ IH]; [done|]. by rewrite filter_cons_True, IH.
Qed.

Section predefined.
Variable isoformat : Z → string.
Variable clock : handler → string.

Lemma create_predefined_habits_while_run habit_id P end_date (n : nat) :
  ∀ fuel h cd,
    (n ≤ fuel)%nat →
    (∀ k : nat, (k < n)%nat → end_date ≤ cd - Z.of_nat k * (P * us_per_day)) →
    cd - Z.of_nat n * (P * us_per_day) < end_date →
    (∀ k : nat, (k < n)%nat → isoformat (cd - Z.of_nat k * (P * us_per_day)) ≠ "") →
    (foreign_keys h = true → habit_id ∈ (hr_id <$> habits_table (tables h))) →
    ∃ h' rows,
      create_predefined_habits_while isoformat clock fuel h habit_id P cd end_date
        = Some (Done () h')
      ∧ foreign_keys h' = foreign_keys h ∧ users_table h' = users_table h
      ∧ habits_table (tables h') = habits_table (tables h)
      ∧ seq_habits h' = seq_habits h
      ∧ completions_table (tables h') = completions_table (tables h) ++ rows
      ∧ Forall (λ r, cr_habit_id r = habit_id) rows
      ∧ cr_completed_date <$> rows
        = (λ k : nat, PyStr (isoformat (cd - Z.of_nat k * (P * us_per_day)))) <$> seq 0 n
      ∧ (handler_ok h → handler_ok h').
Proof.
  induction n as [|n IH]; intros fuel h cd Hfuel Hin Hout Hiso Hfk.
  - exists h, []. destruct fuel; cbn [create_predefined_habits_while];
      (rewrite bool_decide_eq_false_2 by (simpl in Hout; lia));
      by rewrite app_nil_r.
  - destruct fuel as [|fuel]; [lia|]. cbn [create_predefined_habits_while].
    pose proof (Hin 0%nat ltac:(lia)) as H0. simpl in H0.
    rewrite bool_decide_eq_true_2 by lia.
    pose proof (Hiso 0%nat ltac:(lia)) as Hs. simpl in Hs. rewrite Z.sub_0_r in Hs.
    destruct (add_completion_Done h habit_id _ (clock h) Hs Hfk)
      as (h1 & id & Hadd & Hfk1 & Hu1 & Hh1 & Hseq1 & Hc1).
    pose proof (add_completion_ok h habit_id (PyStr (isoformat cd)) (clock h)) as Hok1.
    rewrite Hadd in *. cbn [state_after] in Hok1.
    assert (Hshift : ∀ k : nat, cd - P * us_per_day - Z.of_nat k * (P * us_per_day)
                                = cd - Z.of_nat (S k) * (P * us_per_day)) by (intros; lia).
    destruct (IH fuel h1 (cd - P * us_per_day)) as (h' & rows & Hrun & ? & ? & ? & ? & Hc & Hall & Hd & Hok).
    + lia.
    + intros k Hk. rewrite Hshift. apply Hin. lia.
    + rewrite Hshift. exact Hout.
    + intros k Hk. rewrite Hshift. apply Hiso. lia.
    + rewrite Hfk1, Hh1. exact Hfk.
    + eexists h', (_ :: rows). split; [exact Hrun|].
      split; [congruence|]. split; [congruence|]. split; [congruence|].
      split; [congruence|]. split; [by rewrite Hc, Hc1, <- app_assoc|].
      split; [constructor; [done|exact Hall]|].
      split; [|intros Hk; apply Hok; revert Hk; exact Hok1].
      cbn [seq fmap list_fmap]. rewrite <- fmap_S_seq, <- list_fmap_compose.
      f_equal; [by rewrite Z.sub_0_r|].
      rewrite Hd. apply list_fmap_ext. intros i k _. cbn. by rewrite Hshift.
Qed.

Lemma example_dates_within cd P (k : nat) :
  1 ≤ P → (k < Z.to_nat (28 / P) + 1)%nat →
  ∃ j, 0 ≤ j ≤ 28 ∧ cd - Z.of_nat k * (P * us_per_day) = cd - j * us_per_day.
Proof.
  intros HP Hk. exists (Z.of_nat k * P).
  assert (0 ≤ 28 / P) by (apply Z.div_pos; lia).
  assert (Z.of_nat k ≤ 28 / P) by lia.
  assert (P * (28 / P) ≤ 28) by (apply Z.mul_div_le; lia).
  split; [nia|lia].
Qed.

Lemma create_predefined_habits_body_run fuel user_id cd h name description P :
  (29 ≤ fuel)%nat → 1 ≤ P →
  handler_ok h →
  (foreign_keys h = true → user_id ∈ (ur_id <$> users_table h)) →
  Forall (λ r, hr_name r ≠ name) (get_all_habits (tables h) user_id) →
  (∀ j, 0 ≤ j ≤ 28 → isoformat (cd - j * us_per_day) ≠ "") →
  ∃ h' row rows,
    create_predefined_habits_body isoformat clock fuel user_id cd h
      (name, description, P) = Some (Done () h')
    ∧ foreign_keys h' = foreign_keys h ∧ users_table h' = users_table h
    ∧ habits_table (tables h') = habits_table (tables h) ++ [row]
    ∧ hr_user_id row = user_id ∧ hr_name row = name ∧ hr_periodicity row = P
    ∧ seq_habits h < hr_id row ∧ seq_habits h' = hr_id row
    ∧ completions_table (tables h') = completions_table (tables h) ++ rows
    ∧ Forall (λ r, cr_habit_id r = hr_id row) rows
    ∧ cr_completed_date <$> rows = (λ d, PyStr (isoformat d)) <$> example_dates cd P
    ∧ handler_ok h'.
Proof.
  intros Hfuel HP Hok Hfk Hnames Hiso.
  unfold create_predefined_habits_body.
  destruct (add_habit_Done h user_id name description P (PyStr (isoformat cd)) (clock h) Hfk)
    as (h1 & row & Hadd & Hfk1 & Hu1 & Hc1 & Hh1 & Hru & Hrn & Hrp & Hid & Hseq1).
  pose proof (add_habit_ok h user_id name description P (PyStr (isoformat cd)) (clock h) Hok)
    as Hok1.
  rewrite Hadd in *. cbn [state_after] in Hok1.
  assert (Hfresh : seq_habits h < hr_id row).
  { rewrite Hid. destruct Hok as (_ & Hk & _). by destruct (next_rowid_fresh _ _ Hk). }
  assert (Hhead : head (hr_id <$> filter (λ r, hr_name r = name)
                                    (get_all_habits (tables h1) user_id))
                  = Some (hr_id row)).
  { assert (Hall1 : get_all_habits (tables h1) user_id
                    = get_all_habits (tables h) user_id ++ [row]).
    { unfold get_all_habits. rewrite Hh1, filter_app.
      by rewrite (filter_cons_True _ row), filter_nil. }
    rewrite Hall1, filter_app, (filter_none _ _ Hnames).
    by rewrite (filter_cons_True _ row), filter_nil. }
  rewrite Hhead.
  assert (H28 : 0 ≤ 28 / P) by (apply Z.div_pos; lia).
  assert (H28' : 28 / P ≤ 28) by (apply Z.div_le_upper_bound; lia).
  destruct (create_predefined_habits_while_run (hr_id row) P (cd - 4 * 7 * us_per_day)
              (Z.to_nat (28 / P) + 1) fuel h1 cd)
    as (h' & rows & Hrun & Hfk' & Hu' & Hh' & Hseq' & Hc' & Hall & Hd & Hok').
  - lia.
  - intros k Hk. destruct (example_dates_within cd P k HP Hk) as (j & Hj & ->).
    unfold us_per_day. lia.
  - assert (28 < (28 / P + 1) * P).
    { pose proof (Z.mod_pos_bound 28 P ltac:(lia)).
      pose proof (Z.div_mod 28 P ltac:(lia)). lia. }
    replace (Z.of_nat (Z.to_nat (28 / P) + 1)) with (28 / P + 1) by lia.
    unfold us_per_day. nia.
  - intros k Hk. destruct (example_dates_within cd P k HP Hk) as (j & Hj & ->).
    by apply Hiso.
  - intros _. rewrite Hh1, fmap_app. apply elem_of_app. right. cbn.
    apply list_elem_of_here.
  - exists h', row, rows. split; [exact Hrun|].
    split; [congruence|]. split; [congruence|]. split; [congruence|].
    split; [done|]. split; [done|]. split; [done|]. split; [done|].
    split; [congruence|]. split; [congruence|]. split; [done|].
    split; [|by apply Hok'].
    rewrite Hd. unfold example_dates. by rewrite <- list_fmap_compose.
Qed.

Lemma create_predefined_habits_for_run fuel user_id cd
    (habits : list (string * string * Z)) :
  (29 ≤ fuel)%nat →
  (∀ j, 0 ≤ j ≤ 28 → isoformat (cd - j * us_per_day) ≠ "") →
  Forall (λ x, 1 ≤ x.2) habits →
  NoDup (habits.*1.*1) →
  ∀ h,
    handler_ok h → no_completion_ahead h →
    (foreign_keys h = true → user_id ∈ (ur_id <$> users_table h)) →
    Forall (λ r, hr_name r ∉ habits.*1.*1) (get_all_habits (tables h) user_id) →
    ∃ h' new_rows,
      create_predefined_habits_for isoformat clock fuel user_id cd h habits
        = Some (Done () h')
      ∧ habits_table (tables h') = habits_table (tables h) ++ new_rows
      ∧ Forall2 (λ x r,
           hr_user_id r = user_id ∧ hr_name r = x.1.1 ∧ hr_periodicity r = x.2
           ∧ seq_habits h < hr_id r
           ∧ cr_completed_date <$> get_completions (tables h') (hr_id r)
             = (λ d, PyStr (isoformat d)) <$> example_dates cd x.2)
          habits new_rows
      ∧ (∀ id, id ≤ seq_habits h →
           get_completions (tables h') id = get_completions (tables h) id)
      ∧ seq_habits h ≤ seq_habits h'
      ∧ handler_ok h' ∧ no_completion_ahead h'
      ∧ foreign_keys h' = foreign_keys h ∧ users_table h' = users_table h.
Proof.
  intros Hfuel Hiso HP Hnd.
  induction habits as [|[[name description] P] habits IH]; intros h Hok Hahead Hfk Hnames.
  - exists h, []. cbn [create_predefined_habits_for].
    split; [done|]. split; [by rewrite app_nil_r|]. split; [constructor|].
    split; [done|]. split; [lia|]. done.
  - cbn [create_predefined_habits_for].
    apply Forall_cons in HP as [HP1 HP]. cbn in HP1.
    cbn in Hnd. apply NoDup_cons in Hnd as [Hname Hnd].
    destruct (create_predefined_habits_body_run fuel user_id cd h name description P)
      as (h1 & row & rows & Hbody & Hfk1 & Hu1 & Hh1 & Hru & Hrn & Hrp & Hlt & Hseq1
          & Hc1 & Hall & Hd & Hok1); try done.
    { eapply Forall_impl; [exact Hnames|]. intros r Hr E. apply Hr. rewrite E. cbn.
      apply list_elem_of_here. }
    rewrite Hbody.
    assert (Hget1 : ∀ id, get_completions (tables h1) id
                          = get_completions (tables h) id
                            ++ filter (λ c, cr_habit_id c = id) rows).
    { intros id. unfold get_completions. by rewrite Hc1, filter_app. }
    assert (Hahead1 : no_completion_ahead h1).
    { unfold no_completion_ahead in *. rewrite Hc1, Hseq1. apply Forall_app. split.
      - eapply Forall_impl; [exact Hahead|]. cbn. intros; lia.
      - eapply Forall_impl; [exact Hall|]. cbn. intros; lia. }
    destruct (IH HP Hnd h1 Hok1 Hahead1) as (h' & new_rows & Hfor & Hh' & Hrows & Hold & Hle
                                              & Hok' & Hahead' & Hfk' & Hu').
    { rewrite Hfk1, Hu1. exact Hfk. }
    { unfold get_all_habits. rewrite Hh1, filter_app. apply Forall_app. split.
      - eapply Forall_impl; [exact Hnames|]. intros r Hr Hin. apply Hr. cbn.
        by apply list_elem_of_further.
      - rewrite (filter_cons_True _ row), filter_nil by done.
        apply Forall_singleton. by rewrite Hrn. }
    exists h', (row :: new_rows). split; [exact Hfor|].
    split; [by rewrite Hh', Hh1, <- app_assoc|].
    split; [|split; [|split; [lia|split; [done|split; [done|split; congruence]]]]].
    + constructor.
      * split; [done|]. split; [done|]. split; [done|]. split; [done|].
        rewrite Hold by lia. rewrite Hget1.
        assert (Hnone : get_completions (tables h) (hr_id row) = []).
        { apply filter_none. eapply Forall_impl; [exact Hahead|]. cbn. intros; lia. }
        rewrite Hnone. cbn [app]. by rewrite (filter_all _ _ Hall).
      * eapply Forall2_impl; [exact Hrows|]. cbn.
        intros x r (? & ? & ? & ? & ?). repeat (split; [done|]). split; [lia|done].
    + intros id Hid. rewrite Hold by lia. rewrite Hget1.
      rewrite (filter_none _ rows); [by rewrite app_nil_r|].
      eapply Forall_impl; [exact Hall|]. cbn. intros; lia.
Qed.

End predefined.

(** Dates at equal distance: the streak is their number. *)

Lemma days_periodicity P : days (P * us_per_day) = P.
Proof. unfold days. apply Z.div_mul. unfold us_per_day. lia. Qed.

Lemma continues_periodicity P : 1 ≤ P → continues P P = true.
Proof. intros HP. apply continues_spec. unfold extends_streak. lia. Qed.

Lemma fold_streak_reducer_progression P (m : nat) :
  1 ≤ P →
  ∀ d0 s mx,
    s ≤ mx →
    fold_left (streak_reducer P)
      ((λ k : nat, d0 + Z.of_nat (S k) * (P * us_per_day)) <$> seq 0 m) (d0, s, mx)
    = (d0 + Z.of_nat m * (P * us_per_day), s + Z.of_nat m, Z.max mx (s + Z.of_nat m)).
Proof.
  intros HP. induction m as [|m IH]; intros d0 s mx Hs.
  - cbn. f_equal; [f_equal|]; lia.
  - cbn [seq fmap list_fmap fold_left]. rewrite <- fmap_S_seq, <- list_fmap_compose.
    unfold streak_reducer at 2.
    replace (d0 + Z.of_nat 1 * (P * us_per_day) - d0) with (P * us_per_day) by lia.
    rewrite days_periodicity, continues_periodicity by done.
    erewrite list_fmap_ext; [rewrite (IH (d0 + Z.of_nat 1 * (P * us_per_day)) (s + 1)
                                          (Z.max mx (s + 1))) by lia|].
    + f_equal; [f_equal|]; lia.
    + intros i k _. cbn. lia.
Qed.

Lemma progression_descending_ascending g (n : nat) :
  ∀ c, (λ k : nat, c - Z.of_nat k * g) <$> seq 0 n
       ≡ₚ (λ k : nat, c - Z.of_nat n * g + g + Z.of_nat k * g) <$> seq 0 n.
Proof.
  induction n as [|n IH]; intros c; [done|].
  rewrite seq_S at 2. rewrite fmap_app. cbn [seq fmap list_fmap app].
  rewrite <- fmap_S_seq, <- list_fmap_compose.
  replace (c - Z.of_nat (S n) * g + g + Z.of_nat (0 + n) * g) with c by lia.
  replace (c - Z.of_nat 0 * g) with c by lia.
  rewrite <- Permutation_cons_append. constructor.
  match goal with
  | |- ?a ≡ₚ ?b =>
      assert (Ea : a = (λ k : nat, c - g - Z.of_nat k * g) <$> seq 0 n)
        by (apply list_fmap_ext; intros i k _; cbn; lia);
      assert (Eb : b = (λ k : nat, c - g - Z.of_nat n * g + g + Z.of_nat k * g) <$> seq 0 n)
        by (apply list_fmap_ext; intros i k _; cbn; lia);
      rewrite Ea, Eb
  end.
  apply IH.
Qed.

Lemma progression_StronglySorted b g (n : nat) :
  0 ≤ g →
  ∀ s : nat, StronglySorted Z.le ((λ k : nat, b + Z.of_nat k * g) <$> seq s n).
Proof.
  intros Hg. induction n as [|n IH]; intros s; [constructor|].
  cbn [seq fmap list_fmap]. constructor; [apply IH|].
  apply Forall_fmap, Forall_forall. intros k Hk. apply elem_of_seq in Hk. cbn. nia.
Qed.

Lemma sorted_progression c P (n : nat) :
  1 ≤ P →
  sorted ((λ k : nat, c - Z.of_nat k * (P * us_per_day)) <$> seq 0 n)
  = (λ k : nat, c - Z.of_nat n * (P * us_per_day) + P * us_per_day
                + Z.of_nat k * (P * us_per_day)) <$> seq 0 n.
Proof.
  intros HP. apply (StronglySorted_unique Z.le).
  - apply sorted_StronglySorted.
  - apply progression_StronglySorted. unfold us_per_day. lia.
  - rewrite sorted_Permutation. apply progression_descending_ascending.
Qed.

Lemma reduce_streak_progression c P (n : nat) :
  1 ≤ P →
  reduce_streak P (sorted ((λ k : nat, c - Z.of_nat k * (P * us_per_day)) <$> seq 0 (S n)))
  = Return (Z.of_nat (S n)).
Proof.
  intros HP. rewrite sorted_progression by done.
  cbn [seq fmap list_fmap]. rewrite <- fmap_S_seq, <- list_fmap_compose.
  unfold reduce_streak.
  erewrite list_fmap_ext;
    [rewrite (fold_streak_reducer_progression P n HP
                (c - Z.of_nat (S n) * (P * us_per_day) + P * us_per_day
                 + Z.of_nat 0 * (P * us_per_day)) 1 1) by lia|].
  - f_equal. lia.
  - intros i k _. cbn. lia.
Qed.

Lemma example_dates_streak c P :
  1 ≤ P → reduce_streak P (sorted (example_dates c P)) = Return (28 / P + 1).
Proof.
  intros HP. unfold example_dates. rewrite Nat.add_1_r.
  rewrite reduce_streak_progression by done. f_equal.
  assert (0 ≤ 28 / P) by (apply Z.div_pos; lia). lia.
Qed.

Lemma example_dates_within_28 c P d :
  1 ≤ P → d ∈ example_dates c P → ∃ j, 0 ≤ j ≤ 28 ∧ d = c - j * us_per_day.
Proof.
  intros HP Hd. unfold example_dates in Hd.
  apply list_elem_of_fmap in Hd as (k & -> & Hk). apply elem_of_seq in Hk.
  apply example_dates_within; [done|lia].
Qed.

Section example_streaks.
Variable parse_iso : string → option Z.
Variable isoformat : Z → string.

Lemma mapM_fromisoformat_isoformat (cs : list completion_row) :
  ∀ ds,
    cr_completed_date <$> cs = (λ d, PyStr (isoformat d)) <$> ds →
    Forall (λ d, parse_iso (isoformat d) = Some d) ds →
    mapM (λ c, fromisoformat parse_iso (cr_completed_date c)) cs = Return ds.
Proof.
  intros ds Hcs Hds. apply mapM_Return. revert ds Hcs Hds.
  induction cs as [|c cs IH]; intros [|d ds] Hcs Hds; try done.
  cbn in Hcs. injection Hcs as Hc Hcs. apply Forall_cons in Hds as [Hd Hds].
  constructor; [|by apply IH]. rewrite Hc. cbn. by rewrite Hd.
Qed.

Lemma example_completions_streak db habit_id c P :
  1 ≤ P →
  (∀ j, 0 ≤ j ≤ 28 → parse_iso (isoformat (c - j * us_per_day)) = Some (c - j * us_per_day)) →
  cr_completed_date <$> get_completions db habit_id
    = (λ d, PyStr (isoformat d)) <$> example_dates c P →
  get_completions db habit_id ≠ []
  ∧ mapM (λ c, fromisoformat parse_iso (cr_completed_date c)) (get_completions db habit_id)
    = Return (example_dates c P)
  ∧ get_longest_streak_for_habit parse_iso db habit_id P = Return (28 / P + 1).
Proof.
  intros HP Hparse Hcs.
  assert (Hne : get_completions db habit_id ≠ []).
  { intros E. rewrite E in Hcs. unfold example_dates in Hcs.
    rewrite Nat.add_1_r in Hcs. done. }
  assert (Hm : mapM (λ c, fromisoformat parse_iso (cr_completed_date c))
                 (get_completions db habit_id) = Return (example_dates c P)).
  { apply mapM_fromisoformat_isoformat; [done|].
    apply Forall_forall. intros d Hd.
    destruct (example_dates_within_28 c P d HP Hd) as (j & Hj & ->). by apply Hparse. }
  split; [done|]. split; [done|].
  unfold get_longest_streak_for_habit.
  rewrite (longest_streak_of_parsed parse_iso _ P _ Hne Hm).
  by apply example_dates_streak.
Qed.

Lemma example_completions_all_streaks db r c :
  1 ≤ hr_periodicity r →
  (∀ j, 0 ≤ j ≤ 28 → parse_iso (isoformat (c - j * us_per_day)) = Some (c - j * us_per_day)) →
  cr_completed_date <$> get_completions db (hr_id r)
    = (λ d, PyStr (isoformat d)) <$> example_dates c (hr_periodicity r) →
  all_streaks_calculate_streak parse_iso db r = Return (28 / hr_periodicity r + 1).
Proof.
  intros HP Hparse Hcs.
  destruct (example_completions_streak db (hr_id r) c _ HP Hparse Hcs) as (Hne & Hm & _).
  unfold all_streaks_calculate_streak.
  destruct (get_completions db (hr_id r)) as [|c0 cs] eqn:E; [done|].
  rewrite Hm. cbn [mbind outcome_bind].
  rewrite all_streaks_loop_reduce.
  - by apply example_dates_streak.
  - intros Hnil. apply (proj1 (sorted_nil_iff _)) in Hnil.
    unfold example_dates in Hnil. by rewrite Nat.add_1_r in Hnil.
Qed.

End example_streaks.

Section example_data.
Variable parse_iso : string → option Z.
Variable isoformat : Z → string.
Variable clock : handler → string.

Lemma create_predefined_habits_run fuel h user_id current_date :
  (29 ≤ fuel)%nat →
  handler_ok h → no_completion_ahead h →
  (foreign_keys h = true → user_id ∈ (ur_id <$> users_table h)) →
  get_all_habits (tables h) user_id = [] →
  (∀ j, 0 ≤ j ≤ 28 → isoformat (current_date - j * us_per_day) ≠ "") →
  ∃ h',
    create_predefined_habits isoformat clock fuel h user_id current_date
      = Some (Done () h')
    ∧ Forall2 (λ x r,
         hr_name r = x.1.1 ∧ hr_periodicity r = x.2
         ∧ cr_completed_date <$> get_completions (tables h') (hr_id r)
           = (λ d, PyStr (isoformat d)) <$> example_dates current_date x.2)
        predefined_habits (get_all_habits (tables h') user_id)
    ∧ (∀ other, other ≠ user_id →
         get_all_habits (tables h') other = get_all_habits (tables h) other)
    ∧ handler_ok h'.
Proof.
  intros Hfuel Hok Hahead Hfk Hnone Hiso.
  destruct (create_predefined_habits_for_run isoformat clock fuel user_id current_date
              predefined_habits Hfuel Hiso) with (h := h)
    as (h' & new_rows & Hfor & Hh' & Hrows & _ & _ & Hok' & _); try done.
  - unfold predefined_habits. repeat (apply Forall_cons; split; [cbn; lia|]).
    apply Forall_nil_2.
  - unfold predefined_habits. cbn.
    repeat (apply NoDup_cons; split;
            [rewrite ?not_elem_of_cons; repeat split; try discriminate; apply not_elem_of_nil|]).
    apply NoDup_nil_2.
  - rewrite Hnone. constructor.
  - exists h'. split; [exact Hfor|].
    assert (Hmine : Forall (λ r, hr_user_id r = user_id) new_rows).
    { clear -Hrows. induction Hrows as [|x r xs rs (Hu & _) _ IH]; constructor; done. }
    assert (Hall : get_all_habits (tables h') user_id = new_rows).
    { unfold get_all_habits in *. rewrite Hh', filter_app, Hnone. cbn [app].
      by apply filter_all. }
    split; [|split; [|done]].
    + rewrite Hall. eapply Forall2_impl; [exact Hrows|]. cbn.
      intros x r (_ & ? & ? & _ & ?). done.
    + intros other Hother. unfold get_all_habits. rewrite Hh', filter_app.
      rewrite (filter_none _ new_rows); [by rewrite app_nil_r|].
      eapply Forall_impl; [exact Hmine|]. cbn. intros; congruence.
Qed.

Lemma example_rows_streaks db current_date (habits : list (string * string * Z))
    (rows : list habit_row) :
  (∀ j, 0 ≤ j ≤ 28 →
        parse_iso (isoformat (current_date - j * us_per_day))
        = Some (current_date - j * us_per_day)) →
  Forall (λ x, 1 ≤ x.2) habits →
  Forall2 (λ x r,
     hr_name r = x.1.1 ∧ hr_periodicity r = x.2
     ∧ cr_completed_date <$> get_completions db (hr_id r)
       = (λ d, PyStr (isoformat d)) <$> example_dates current_date x.2)
    habits rows →
  (λ r, (hr_name r, hr_periodicity r)) <$> rows = (λ x, (x.1.1, x.2)) <$> habits
  ∧ mapM (λ h, s ← all_streaks_calculate_streak parse_iso db h; Return (hr_name h, s)) rows
    = Return ((λ x, (x.1.1, 28 / x.2 + 1)) <$> habits)
  ∧ Forall2 (λ h e, ∃ v, e = (Some h, v)
                         ∧ get_longest_streak_for_habit parse_iso db (hr_id h)
                             (hr_periodicity h) = Return v)
      rows ((λ r, (Some r, 28 / hr_periodicity r + 1)) <$> rows).
Proof.
  intros Hparse HP Hrows.
  induction Hrows as [|x r habits rows (Hn & Hp & Hcs) _ IH].
  - split; [done|]. split; [done|]. constructor.
  - apply Forall_cons in HP as [HP1 HP]. destruct (IH HP) as (IH1 & IH2 & IH3).
    rewrite <- Hp in Hcs, HP1.
    split; [|split].
    + cbn. by rewrite Hn, Hp, IH1.
    + rewrite mapM_cons.
      rewrite (example_completions_all_streaks parse_iso isoformat db r current_date
                 HP1 Hparse Hcs).
      cbn [mbind outcome_bind]. rewrite IH2. cbn. by rewrite Hn, Hp.
    + cbn. constructor; [|exact IH3]. eexists. split; [reflexivity|].
      by destruct (example_completions_streak parse_iso isoformat db (hr_id r)
                     current_date _ HP1 Hparse Hcs) as (_ & _ & ?).
Qed.

(** X21.  The example data of a new user.  For a user without habits, on a
    well-formed database where no completion refers to a habit id not yet
    handed out, and with [isoformat] non-empty and read back by
    [fromisoformat] on the 29 dates from [current_date] back to 28 days
    before, [create_predefined_habits] succeeds and leaves the user with the
    five predefined habits, in order, whose longest streaks are
    [28 // periodicity + 1]: 29, 15, 10, 5 and 5.  [get_all_streaks] lists
    them, [get_longest_streak] selects Exercise with 29, and the habits of
    other users are unchanged. *)
Theorem create_predefined_habits_streaks (fuel : nat) (h : handler) (user_id : Z)
    (current_date : datetime) :
  (29 ≤ fuel)%nat →
  handler_ok h → no_completion_ahead h →
  (foreign_keys h = true → user_id ∈ (ur_id <$> users_table h)) →
  get_all_habits (tables h) user_id = [] →
  Forall (λ j, isoformat (current_date - j * us_per_day) ≠ ""
               ∧ parse_iso (isoformat (current_date - j * us_per_day))
                 = Some (current_date - j * us_per_day)) (seqZ 0 29) →
  ∃ h',
    create_predefined_habits isoformat clock fuel h user_id current_date
      = Some (Done () h')
    ∧ (λ r, (hr_name r, hr_periodicity r)) <$> get_all_habits (tables h') user_id
      = [("Exercise", 1); ("Reading", 2); ("Meditation", 3);
         ("Weekly Cleaning", 7); ("Grocery Shopping", 7)]
    ∧ get_all_streaks parse_iso (tables h') user_id
      = Return [("Exercise", 29); ("Reading", 15); ("Meditation", 10);
                ("Weekly Cleaning", 5); ("Grocery Shopping", 5)]
    ∧ (∃ r, get_longest_streak parse_iso (tables h') user_id = Return (Some r, 29)
            ∧ hr_name r = "Exercise")
    ∧ (∀ other, other ≠ user_id →
         get_all_habits (tables h') other = get_all_habits (tables h) other)
    ∧ handler_ok h'.
Proof.
  intros Hfuel Hok Hahead Hfk Hnone Hiso.
  assert (Hiso' : ∀ j, 0 ≤ j ≤ 28 →
            isoformat (current_date - j * us_per_day) ≠ ""
            ∧ parse_iso (isoformat (current_date - j * us_per_day))
              = Some (current_date - j * us_per_day)).
  { intros j Hj. rewrite Forall_forall in Hiso. apply Hiso, elem_of_seqZ. lia. }
  destruct (create_predefined_habits_run fuel h user_id current_date)
    as (h' & Hrun & Hrows & Hothers & Hok'); try done.
  { intros j Hj. by apply Hiso'. }
  exists h'. split; [exact Hrun|].
  assert (Hparse : ∀ j, 0 ≤ j ≤ 28 →
            parse_iso (isoformat (current_date - j * us_per_day))
            = Some (current_date - j * us_per_day)) by (intros j Hj; by apply Hiso').
  destruct (example_rows_streaks (tables h') current_date predefined_habits
              (get_all_habits (tables h') user_id) Hparse) as (Hnames & Hall & Hengine);
    [|exact Hrows|].
  { unfold predefined_habits. repeat (apply Forall_cons; split; [cbn; lia|]).
    apply Forall_nil_2. }
  assert (Hne : get_all_habits (tables h') user_id ≠ []).
  { intros E. rewrite E in Hrows. inversion Hrows. }
  split; [exact Hnames|]. split; [|split; [|done]].
  - unfold get_all_streaks.
    destruct (get_all_habits (tables h') user_id) as [|r0 rs] eqn:E; [done|].
    rewrite Hall. reflexivity.
  - rewrite (get_longest_streak_eq parse_iso _ _ _ Hne Hengine).
    clear Hrun Hiso Hiso' Hparse Hnames Hall Hengine Hne Hothers Hok' Hok Hahead Hfk Hnone.
    unfold predefined_habits in Hrows.
    repeat match goal with
           | H : Forall2 _ (_ :: _) _ |- _ =>
               let r := fresh "r" in
               let E := fresh "E" in
               apply Forall2_cons_inv_l in H as (r & ? & (? & ? & _) & H & E);
               try rewrite E in *; clear E
           end.
    apply Forall2_nil_inv_l in Hrows. subst. cbn in *.
    repeat match goal with H : hr_periodicity _ = _ |- _ => rewrite H; clear H end.
    eexists. split; [reflexivity|done].
Qed.

End example_data.

Lemma sublist_same_length {A} (l1 l2 : list A) :
  l1 `sublist_of` l2 → length l1 = length l2 → l1 = l2.
Proof.
  induction 1 as [|x l1 l2 _ IH|x l1 l2 Hsub _]; cbn; intros Hlen.
  - done.
  - f_equal. apply IH. lia.
  - apply sublist_length in Hsub. lia.
Qed.

Section example_due.
Variable parse_iso : string → option Z.
Variable isoformat : Z → string.
Variable clock : handler → string.

Lemma example_completions_due db r current_date today :
  1 ≤ hr_periodicity r →
  (∀ j, 0 ≤ j ≤ 28 →
        parse_iso (isoformat (current_date - j * us_per_day))
        = Some (current_date - j * us_per_day)) →
  (∀ j, 0 ≤ j ≤ 28 →
        String.leb (isoformat (current_date - j * us_per_day)) (isoformat current_date)
        = true) →
  cr_completed_date <$> get_completions db (hr_id r)
    = (λ d, PyStr (isoformat d)) <$> example_dates current_date (hr_periodicity r) →
  is_due_today parse_iso db today r
  = Return (hr_periodicity r <=? today - date current_date).
Proof.
  intros HP Hparse Hord Hcs. unfold is_due_today.
  destruct (get_last_completion db (hr_id r)) as [c|] eqn:Ec.
  - apply get_last_completion_latest in Ec as [Hin Hall].
    assert (Hc : ∃ j, 0 ≤ j ≤ 28
                      ∧ cr_completed_date c = PyStr (isoformat (current_date - j * us_per_day))).
    { assert (Hin' : cr_completed_date c ∈ cr_completed_date <$> get_completions db (hr_id r))
        by (apply list_elem_of_fmap; eauto).
      rewrite Hcs in Hin'. apply list_elem_of_fmap in Hin' as (d & Hd & Hin').
      destruct (example_dates_within_28 _ _ _ HP Hin') as (j & Hj & ->). eauto. }
    destruct Hc as (j & Hj & Hc).
    assert (H0 : ∃ c0, c0 ∈ get_completions db (hr_id r)
                       ∧ cr_completed_date c0 = PyStr (isoformat current_date)).
    { assert (Hin0 : PyStr (isoformat current_date)
                     ∈ cr_completed_date <$> get_completions db (hr_id r)).
      { rewrite Hcs. unfold example_dates. rewrite Nat.add_1_r.
        cbn [seq fmap list_fmap].
        replace (current_date - Z.of_nat 0 * (hr_periodicity r * us_per_day))
          with current_date by lia.
        apply list_elem_of_here. }
      apply list_elem_of_fmap in Hin0 as (c0 & E0 & Hin0). eauto. }
    destruct H0 as (c0 & Hin0 & E0).
    assert (E : cr_completed_date c = PyStr (isoformat current_date)).
    { apply sql_le_antisym.
      - rewrite Hc. cbn. by apply Hord.
      - rewrite <- E0. rewrite Forall_forall in Hall. by apply Hall. }
    rewrite E. cbn.
    pose proof (Hparse 0 ltac:(lia)) as Hp0.
    replace (current_date - 0 * us_per_day) with current_date in Hp0 by lia.
    by rewrite Hp0.
  - apply get_last_completion_None in Ec. rewrite Ec in Hcs.
    unfold example_dates in Hcs. by rewrite Nat.add_1_r in Hcs.
Qed.

Lemma example_rows_due db current_date today (habits : list (string * string * Z))
    (rows : list habit_row) :
  (∀ j, 0 ≤ j ≤ 28 →
        parse_iso (isoformat (current_date - j * us_per_day))
        = Some (current_date - j * us_per_day)) →
  (∀ j, 0 ≤ j ≤ 28 →
        String.leb (isoformat (current_date - j * us_per_day)) (isoformat current_date)
        = true) →
  Forall (λ x, 1 ≤ x.2) habits →
  Forall2 (λ x r,
     hr_name r = x.1.1 ∧ hr_periodicity r = x.2
     ∧ cr_completed_date <$> get_completions db (hr_id r)
       = (λ d, PyStr (isoformat d)) <$> example_dates current_date x.2)
    habits rows →
  ∃ due, filterM (is_due_today parse_iso db today) rows = Return due
         ∧ due `sublist_of` rows
         ∧ hr_name <$> due
           = (λ x, x.1.1) <$> filter (λ x, x.2 ≤ today - date current_date) habits.
Proof.
  intros Hparse Hord HP Hrows.
  induction Hrows as [|x r habits rows (Hn & Hp & Hcs) _ IH].
  - exists []. done.
  - apply Forall_cons in HP as [HP1 HP]. destruct (IH HP) as (due & Hdue & Hsub & Hnames).
    rewrite <- Hp in Hcs, HP1.
    cbn [filterM].
    rewrite (example_completions_due db r current_date today HP1 Hparse Hord Hcs), Hdue.
    cbn [mbind outcome_bind]. rewrite filter_cons. rewrite <- Hp.
    destruct (Z.leb_spec (hr_periodicity r) (today - date current_date)).
    + rewrite decide_True by done. eexists. split; [reflexivity|].
      split; [by apply sublist_skip|]. cbn. by rewrite Hn, Hnames.
    + rewrite decide_False by lia. eexists. split; [reflexivity|].
      split; [by apply sublist_cons|]. done.
Qed.

(** X22.  After [create_predefined_habits], when in addition the texts of
    [isoformat] on those dates are not above the text of [current_date],
    [get_habits_to_complete_today] returns the predefined habits whose
    periodicity has elapsed since [current_date]: none on the day of
    registration, Exercise alone on the next day, all five from the seventh
    day on. *)
Theorem create_predefined_habits_due (fuel : nat) (h h' : handler) (user_id : Z)
    (current_date : datetime) (today : Z) :
  create_predefined_habits isoformat clock fuel h user_id current_date
    = Some (Done () h') →
  (29 ≤ fuel)%nat →
  handler_ok h → no_completion_ahead h →
  (foreign_keys h = true → user_id ∈ (ur_id <$> users_table h)) →
  get_all_habits (tables h) user_id = [] →
  Forall (λ j, isoformat (current_date - j * us_per_day) ≠ ""
               ∧ parse_iso (isoformat (current_date - j * us_per_day))
                 = Some (current_date - j * us_per_day)
               ∧ String.leb (isoformat (current_date - j * us_per_day))
                   (isoformat current_date) = true) (seqZ 0 29) →
  ∃ due,
    get_habits_to_complete_today parse_iso (tables h') today user_id = Return due
    ∧ due `sublist_of` get_all_habits (tables h') user_id
    ∧ hr_name <$> due
      = (λ x, x.1.1) <$> filter (λ x, x.2 ≤ today - date current_date) predefined_habits
    ∧ (today ≤ date current_date → due = [])
    ∧ (today = date current_date + 1 → hr_name <$> due = ["Exercise"])
    ∧ (date current_date + 7 ≤ today → due = get_all_habits (tables h') user_id).
Proof.
  intros Hrun Hfuel Hok Hahead Hfk Hnone Hiso.
  assert (Hiso' : ∀ j, 0 ≤ j ≤ 28 →
            isoformat (current_date - j * us_per_day) ≠ ""
            ∧ parse_iso (isoformat (current_date - j * us_per_day))
              = Some (current_date - j * us_per_day)
            ∧ String.leb (isoformat (current_date - j * us_per_day))
                (isoformat current_date) = true).
  { intros j Hj. rewrite Forall_forall in Hiso. apply Hiso, elem_of_seqZ. lia. }
  destruct (create_predefined_habits_run isoformat clock fuel h user_id current_date)
    as (h1 & Hrun1 & Hrows & _); try done.
  { intros j Hj. by apply Hiso'. }
  rewrite Hrun in Hrun1. injection Hrun1 as <-.
  assert (HP : Forall (λ x : string * string * Z, 1 ≤ x.2) predefined_habits).
  { unfold predefined_habits. repeat (apply Forall_cons; split; [cbn; lia|]).
    apply Forall_nil_2. }
  destruct (example_rows_due (tables h') current_date today predefined_habits
              (get_all_habits (tables h') user_id)) as (due & Hdue & Hsub & Hnames);
    try done.
  { intros j Hj. by apply Hiso'. }
  { intros j Hj. by apply Hiso'. }
  exists due. split; [exact Hdue|]. split; [exact Hsub|]. split; [exact Hnames|].
  assert (Hlen : length (get_all_habits (tables h') user_id) = 5%nat).
  { by rewrite <- (Forall2_length _ _ _ Hrows). }
  split; [|split].
  - intros Htoday. apply fmap_nil_inv with (f := hr_name). rewrite Hnames.
    unfold predefined_habits.
    rewrite !filter_cons_False, filter_nil by (cbn; lia). done.
  - intros ->. rewrite Hnames. unfold predefined_habits.
    rewrite filter_cons_True by (cbn; lia).
    rewrite !filter_cons_False, filter_nil by (cbn; lia). done.
  - intros Htoday. apply sublist_same_length; [done|].
    rewrite Hlen, <- (length_fmap hr_name), Hnames.
    unfold predefined_habits. rewrite !filter_cons_True by (cbn; lia). done.
Qed.

End example_due.

Lemma add_completion_Done_any h habit_id v now :
  (foreign_keys h = true → habit_id ∈ (hr_id <$> habits_table (tables h))) →
  ∃ h',
    DatabaseHandler.add_completion h habit_id v now = Done () h'
    ∧ foreign_keys h' = foreign_keys h ∧ users_table h' = users_table h
    ∧ habits_table (tables h') = habits_table (tables h).
Proof.
  intros Hfk. unfold DatabaseHandler.add_completion.
  destruct (foreign_keys h) eqn:Efk; cbn [andb].
  - rewrite bool_decide_eq_true_2 by auto. cbn [negb].
    eexists. split; [reflexivity|]. by cbn.
  - eexists. split; [reflexivity|]. by cbn.
Qed.

Section returns.
Variable isoformat : Z → string.
Variable clock : handler → string.

Lemma create_predefined_habits_while_returns habit_id P end_date (n : nat) :
  1 ≤ P →
  ∀ fuel h cd,
    (n ≤ fuel)%nat →
    cd - Z.of_nat n * (P * us_per_day) < end_date →
    (foreign_keys h = true → habit_id ∈ (hr_id <$> habits_table (tables h))) →
    ∃ h',
      create_predefined_habits_while isoformat clock fuel h habit_id P cd end_date
        = Some (Done () h')
      ∧ foreign_keys h' = foreign_keys h ∧ users_table h' = users_table h
      ∧ habits_table (tables h') = habits_table (tables h).
Proof.
  intros HP. induction n as [|n IH]; intros fuel h cd Hfuel Hout Hfk.
  - exists h. destruct fuel; cbn [create_predefined_habits_while];
      by rewrite bool_decide_eq_false_2 by (simpl in Hout; lia).
  - destruct (decide (end_date ≤ cd)) as [Hin|Hin].
    + destruct fuel as [|fuel]; [lia|]. cbn [create_predefined_habits_while].
      rewrite bool_decide_eq_true_2 by done.
      destruct (add_completion_Done_any h habit_id (PyStr (isoformat cd)) (clock h) Hfk)
        as (h1 & -> & Hfk1 & Hu1 & Hh1).
      destruct (IH fuel h1 (cd - P * us_per_day)) as (h' & Hrun & ? & ? & ?).
      * lia.
      * lia.
      * rewrite Hfk1, Hh1. exact Hfk.
      * exists h'. split; [exact Hrun|]. split; [congruence|]. split; congruence.
    + exists h. destruct fuel; cbn [create_predefined_habits_while];
        by rewrite bool_decide_eq_false_2.
Qed.

Lemma create_predefined_habits_body_returns fuel user_id cd h name description P :
  (29 ≤ fuel)%nat → 1 ≤ P →
  (foreign_keys h = true → user_id ∈ (ur_id <$> users_table h)) →
  ∃ h' row,
    create_predefined_habits_body isoformat clock fuel user_id cd h
      (name, description, P) = Some (Done () h')
    ∧ foreign_keys h' = foreign_keys h ∧ users_table h' = users_table h
    ∧ habits_table (tables h') = habits_table (tables h) ++ [row]
    ∧ hr_user_id row = user_id.
Proof.
  intros Hfuel HP Hfk. unfold create_predefined_habits_body.
  destruct (add_habit_Done h user_id name description P (PyStr (isoformat cd)) (clock h) Hfk)
    as (h1 & row & -> & Hfk1 & Hu1 & Hc1 & Hh1 & Hru & Hrn & Hrp & Hid & Hseq1).
  assert (Hin : row ∈ filter (λ r, hr_name r = name) (get_all_habits (tables h1) user_id)).
  { apply list_elem_of_filter. split; [done|]. apply list_elem_of_filter. split; [done|].
    rewrite Hh1. apply elem_of_app. right. apply list_elem_of_here. }
  destruct (filter (λ r, hr_name r = name) (get_all_habits (tables h1) user_id))
    as [|r0 rs] eqn:E; [by apply elem_of_nil in Hin|].
  cbn [fmap list_fmap head].
  assert (Hr0 : r0 ∈ habits_table (tables h1)).
  { assert (Hr0 : r0 ∈ r0 :: rs) by apply list_elem_of_here.
    rewrite <- E in Hr0. apply list_elem_of_filter in Hr0 as [_ Hr0].
    by apply list_elem_of_filter in Hr0 as [_ Hr0]. }
  destruct (create_predefined_habits_while_returns (hr_id r0) P (cd - 4 * 7 * us_per_day)
              29 HP fuel h1 cd) as (h' & Hrun & ? & ? & ?).
  - done.
  - unfold us_per_day. lia.
  - intros _. apply list_elem_of_fmap. eauto.
  - exists h', row. split; [exact Hrun|]. split; [congruence|]. split; [congruence|].
    split; [congruence|done].
Qed.

Lemma create_predefined_habits_for_returns fuel user_id cd
    (habits : list (string * string * Z)) :
  (29 ≤ fuel)%nat →
  Forall (λ x, 1 ≤ x.2) habits →
  ∀ h,
    (foreign_keys h = true → user_id ∈ (ur_id <$> users_table h)) →
    ∃ h' new_rows,
      create_predefined_habits_for isoformat clock fuel user_id cd h habits
        = Some (Done () h')
      ∧ foreign_keys h' = foreign_keys h ∧ users_table h' = users_table h
      ∧ habits_table (tables h') = habits_table (tables h) ++ new_rows
      ∧ length new_rows = length habits
      ∧ Forall (λ r, hr_user_id r = user_id) new_rows.
Proof.
  intros Hfuel HP. induction habits as [|[[name description] P] habits IH]; intros h Hfk.
  - exists h, []. cbn. by rewrite app_nil_r.
  - apply Forall_cons in HP as [HP1 HP]. cbn in HP1.
    cbn [create_predefined_habits_for].
    destruct (create_predefined_habits_body_returns fuel user_id cd h name description P
                Hfuel HP1 Hfk) as (h1 & row & -> & Hfk1 & Hu1 & Hh1 & Hru).
    destruct (IH HP h1) as (h' & new_rows & Hfor & ? & ? & Hh' & Hlen & Hall).
    { rewrite Hfk1, Hu1. exact Hfk. }
    exists h', (row :: new_rows). split; [exact Hfor|].
    split; [congruence|]. split; [congruence|].
    split; [by rewrite Hh', Hh1, <- app_assoc|].
    split; [cbn; by rewrite Hlen|]. by constructor.
Qed.

(** X23.  [create_predefined_habits] always ends, within 29 turns of each
    loop: it fails with [IntegrityError] exactly when foreign keys are
    enforced and the user does not exist, and otherwise adds five habits to
    the user's habits (also when the user already has habits of these names)
    and leaves the users and the habits of other users unchanged. *)
Theorem create_predefined_habits_returns (fuel : nat) (h : handler) (user_id : Z)
    (current_date : datetime) :
  (29 ≤ fuel)%nat →
  if foreign_keys h && negb (bool_decide (user_id ∈ (ur_id <$> users_table h)))
  then create_predefined_habits isoformat clock fuel h user_id current_date
       = Some IntegrityError
  else ∃ h',
         create_predefined_habits isoformat clock fuel h user_id current_date
           = Some (Done () h')
         ∧ DatabaseHandler.get_all_users h' = DatabaseHandler.get_all_users h
         ∧ length (get_all_habits (tables h') user_id)
           = (length (get_all_habits (tables h) user_id) + 5)%nat
         ∧ ∀ other, other ≠ user_id →
             get_all_habits (tables h') other = get_all_habits (tables h) other.
Proof.
  intros Hfuel.
  destruct (foreign_keys h && negb (bool_decide (user_id ∈ (ur_id <$> users_table h))))
    eqn:E.
  - unfold create_predefined_habits, predefined_habits.
    cbn [create_predefined_habits_for create_predefined_habits_body].
    unfold DatabaseHandler.add_habit. by rewrite E.
  - assert (Hfk : foreign_keys h = true → user_id ∈ (ur_id <$> users_table h)).
    { intros Hfk. rewrite Hfk in E. cbn in E. apply negb_false_iff in E.
      by apply bool_decide_eq_true in E. }
    destruct (create_predefined_habits_for_returns fuel user_id current_date
                predefined_habits Hfuel) with (h := h)
      as (h' & new_rows & Hfor & _ & Hu & Hh' & Hlen & Hall); [|exact Hfk|].
    { unfold predefined_habits. repeat (apply Forall_cons; split; [cbn; lia|]).
      apply Forall_nil_2. }
    exists h'. split; [exact Hfor|]. split; [exact Hu|]. split.
    + unfold get_all_habits. rewrite Hh', filter_app, length_app.
      by rewrite (filter_all _ _ Hall), Hlen.
    + intros other Hother. unfold get_all_habits. rewrite Hh', filter_app.
      rewrite (filter_none _ new_rows); [by rewrite app_nil_r|].
      eapply Forall_impl; [exact Hall|]. cbn. intros; congruence.
Qed.

End returns.

Lemma Forall_bool_decide {A} (P : A → Prop) `{!∀ x, Decision (P x)} (l : list A) :
  forallb (λ x, bool_decide (P x)) l = true → Forall P l.
Proof.
  induction l as [|x l IH]; cbn; [constructor|].
  intros [Hx Hl]%andb_true_iff. constructor; [by apply bool_decide_eq_true in Hx|auto].
Qed.

Lemma registered_handler_ok : handler_ok registered_handler.
Proof. apply add_user_ok, sample_handler_ok. Qed.

Lemma registered_handler_no_completion_ahead : no_completion_ahead registered_handler.
Proof.
  unfold no_completion_ahead.
  apply (Forall_bool_decide (λ c, cr_habit_id c ≤ seq_habits registered_handler)).
  vm_compute. reflexivity.
Qed.

Lemma registered_handler_user :
  foreign_keys registered_handler = true → 2 ∈ (ur_id <$> users_table registered_handler).
Proof.
  intros _. change (ur_id <$> users_table registered_handler) with [1; 2].
  apply list_elem_of_further, list_elem_of_here.
Qed.

Lemma create_predefined_habits_streaks_witness :
  (29 ≤ 29)%nat
  ∧ handler_ok registered_handler
  ∧ no_completion_ahead registered_handler
  ∧ (foreign_keys registered_handler = true →
     2 ∈ (ur_id <$> users_table registered_handler))
  ∧ get_all_habits (tables registered_handler) 2 = []
  ∧ Forall (λ j, iso_format (63829533600000000 - j * us_per_day) ≠ ""
                 ∧ iso_parse (iso_format (63829533600000000 - j * us_per_day))
                   = Some (63829533600000000 - j * us_per_day)) (seqZ 0 29)
  ∧ ∃ h',
      create_predefined_habits iso_format sample_clock 29 registered_handler 2
        63829533600000000 = Some (Done () h')
      ∧ get_all_streaks iso_parse (tables h') 2
        = Return [("Exercise", 29); ("Reading", 15); ("Meditation", 10);
                  ("Weekly Cleaning", 5); ("Grocery Shopping", 5)].
Proof.
  assert (H1 : (29 ≤ 29)%nat) by lia.
  assert (H2 : get_all_habits (tables registered_handler) 2 = []) by reflexivity.
  assert (H3 : Forall (λ j, iso_format (63829533600000000 - j * us_per_day) ≠ ""
                 ∧ iso_parse (iso_format (63829533600000000 - j * us_per_day))
                   = Some (63829533600000000 - j * us_per_day)) (seqZ 0 29)).
  { apply (Forall_bool_decide
             (λ j, iso_format (63829533600000000 - j * us_per_day) ≠ ""
                   ∧ iso_parse (iso_format (63829533600000000 - j * us_per_day))
                     = Some (63829533600000000 - j * us_per_day))).
    vm_compute. reflexivity. }
  destruct (create_predefined_habits_streaks iso_parse iso_format sample_clock 29
              registered_handler 2 63829533600000000 H1 registered_handler_ok
              registered_handler_no_completion_ahead registered_handler_user H2 H3)
    as (h' & Hrun & _ & Hstreaks & _).
  split; [exact H1|]. split; [exact registered_handler_ok|].
  split; [exact registered_handler_no_completion_ahead|].
  split; [exact registered_handler_user|]. split; [exact H2|]. split; [exact H3|].
  exists h'. split; [exact Hrun|exact Hstreaks].
Defined.

Lemma create_predefined_habits_due_witness :
  (29 ≤ 29)%nat
  ∧ handler_ok registered_handler
  ∧ no_completion_ahead registered_handler
  ∧ (foreign_keys registered_handler = true →
     2 ∈ (ur_id <$> users_table registered_handler))
  ∧ get_all_habits (tables registered_handler) 2 = []
  ∧ Forall (λ j, iso_format (63829533600000000 - j * us_per_day) ≠ ""
                 ∧ iso_parse (iso_format (63829533600000000 - j * us_per_day))
                   = Some (63829533600000000 - j * us_per_day)
                 ∧ String.leb (iso_format (63829533600000000 - j * us_per_day))
                     (iso_format 63829533600000000) = true) (seqZ 0 29)
  ∧ ∃ h',
      create_predefined_habits iso_format sample_clock 29 registered_handler 2
        63829533600000000 = Some (Done () h')
      ∧ get_habits_to_complete_today iso_parse (tables h') 738767 2 = Return [].
Proof.
  assert (H1 : (29 ≤ 29)%nat) by lia.
  assert (H2 : get_all_habits (tables registered_handler) 2 = []) by reflexivity.
  assert (H3 : Forall (λ j, iso_format (63829533600000000 - j * us_per_day) ≠ ""
                 ∧ iso_parse (iso_format (63829533600000000 - j * us_per_day))
                   = Some (63829533600000000 - j * us_per_day)
                 ∧ String.leb (iso_format (63829533600000000 - j * us_per_day))
                     (iso_format 63829533600000000) = true) (seqZ 0 29)).
  { apply (Forall_bool_decide
             (λ j, iso_format (63829533600000000 - j * us_per_day) ≠ ""
                   ∧ iso_parse (iso_format (63829533600000000 - j * us_per_day))
                     = Some (63829533600000000 - j * us_per_day)
                   ∧ String.leb (iso_format (63829533600000000 - j * us_per_day))
                       (iso_format 63829533600000000) = true)).
    vm_compute. reflexivity. }
  destruct (create_predefined_habits_for_returns iso_format sample_clock 29 2
              63829533600000000 predefined_habits H1) with (h := registered_handler)
    as (h' & rows & Hrun & _); [|exact registered_handler_user|].
  { unfold predefined_habits. repeat (apply Forall_cons; split; [cbn; lia|]).
    apply Forall_nil_2. }
  destruct (create_predefined_habits_due iso_parse iso_format sample_clock 29
              registered_handler h' 2 63829533600000000 738767 Hrun H1
              registered_handler_ok registered_handler_no_completion_ahead
              registered_handler_user H2 H3)
    as (due & Hdue & _ & _ & Hnone & _).
  split; [exact H1|]. split; [exact registered_handler_ok|].
  split; [exact registered_handler_no_completion_ahead|].
  split; [exact registered_handler_user|]. split; [exact H2|]. split; [exact H3|].
  exists h'. split; [exact Hrun|].
  rewrite Hdue. f_equal. apply Hnone. vm_compute. discriminate.
Defined.

Lemma create_predefined_habits_returns_witness :
  (29 ≤ 29)%nat
  ∧ create_predefined_habits iso_format sample_clock 29 (sample_handler true) 7
      63829533600000000 = Some IntegrityError
  ∧ ∃ h',
      create_predefined_habits iso_format sample_clock 29 (sample_handler false) 7
        63829533600000000 = Some (Done () h')
      ∧ length (get_all_habits (tables h') 7) = 5%nat.
Proof.
  assert (H1 : (29 ≤ 29)%nat) by lia.
  split; [exact H1|]. split.
  - exact (create_predefined_habits_returns iso_format sample_clock 29
             (sample_handler true) 7 63829533600000000 H1).
  - destruct (create_predefined_habits_returns iso_format sample_clock 29
                (sample_handler false) 7 63829533600000000 H1)
      as (h' & Hrun & _ & Hlen & _).
    exists h'. split; [exact Hrun|exact Hlen].
Defined.

(** ** Renaming a user *)

Lemma filter_fmap_pre {A B} (P : B → Prop) `{!∀ y, Decision (P y)} (f : A → B)
    (l : list A) :
  filter P (f <$> l) = f <$> filter (λ x, P (f x)) l.
Proof.
  induction l as [|x l IH]; [done|].
  rewrite fmap_cons, !filter_cons. destruct (decide (P (f x))); by rewrite ?fmap_cons, IH.
Qed.

Lemma head_fmap {A B} (f : A → B) (l : list A) : head (f <$> l) = f <$> head l.
Proof. by destruct l. Qed.

(** X24.  [update_user] rewrites username and email of the user with the
    given id, in place, and keeps ids, creation dates, the other users and
    the tables of habits and completions; an unknown id changes nothing.
    Usernames are not checked for uniqueness: afterwards [new_username]
    resolves to the first user that has the id or already had that name, and
    any other name to its first holder other than the updated user. *)
Theorem update_user_spec (h : handler) (user_id : Z) (new_username new_email : string) :
  let h' := DatabaseHandler.update_user h user_id new_username new_email in
  let renamed := λ u, {| ur_id := ur_id u; ur_username := new_username;
                         ur_email := new_email;
                         ur_creation_date := ur_creation_date u |} in
  (∀ i u, DatabaseHandler.get_all_users h !! i = Some u →
     DatabaseHandler.get_all_users h' !! i
     = Some (if decide (ur_id u = user_id) then renamed u else u))
  ∧ ur_id <$> DatabaseHandler.get_all_users h' = ur_id <$> DatabaseHandler.get_all_users h
  ∧ ((user_id ∉ (ur_id <$> users_table h)) → users_table h' = users_table h)
  ∧ DatabaseHandler.get_user_id h' new_username
    = ur_id <$> head (filter (λ u, ur_id u = user_id ∨ ur_username u = new_username)
                        (users_table h))
  ∧ (∀ other, other ≠ new_username →
       DatabaseHandler.get_user_id h' other
       = ur_id <$> head (filter (λ u, ur_id u ≠ user_id ∧ ur_username u = other)
                           (users_table h)))
  ∧ tables h' = tables h.
Proof.
  cbv zeta. unfold DatabaseHandler.update_user, DatabaseHandler.get_user_id,
    DatabaseHandler.get_all_users. cbn [users_table tables].
  set (upd := λ u, if decide (ur_id u = user_id)
                   then {| ur_id := ur_id u; ur_username := new_username;
                           ur_email := new_email;
                           ur_creation_date := ur_creation_date u |} else u).
  assert (Hid : ∀ u, ur_id (upd u) = ur_id u).
  { intros u. unfold upd. by case_decide. }
  split; [|split; [|split; [|split; [|split]]]].
  - intros i u Hu. by rewrite list_lookup_fmap, Hu.
  - by apply fmap_same_key.
  - intros Hnot. apply fmap_fixed, Forall_forall. intros u Hu.
    unfold upd. rewrite decide_False; [done|]. intros E. apply Hnot.
    apply list_elem_of_fmap. eauto.
  - rewrite filter_fmap_pre, head_fmap.
    rewrite (list_filter_iff _ (λ u, ur_id u = user_id ∨ ur_username u = new_username)).
    + destruct (head _) as [u|]; cbn; [by rewrite Hid|done].
    + intros u. unfold upd. case_decide; cbn; tauto.
  - intros other Hother. rewrite filter_fmap_pre, head_fmap.
    rewrite (list_filter_iff _ (λ u, ur_id u ≠ user_id ∧ ur_username u = other)).
    + destruct (head _) as [u|]; cbn; [by rewrite Hid|done].
    + intros u. unfold upd. case_decide; cbn; [|tauto].
      split; [congruence|tauto].
  - done.
Qed.

Lemma update_user_spec_witness :
  (9 ∉ (ur_id <$> users_table registered_handler))
  ∧ "kate" ≠ "bob"
  ∧ users_table (DatabaseHandler.update_user registered_handler 9 "eve" "eve@example.com")
    = users_table registered_handler
  ∧ DatabaseHandler.get_user_id
      (DatabaseHandler.update_user registered_handler 2 "kate" "bob@example.com") "bob"
    = None
  ∧ DatabaseHandler.get_user_id
      (DatabaseHandler.update_user registered_handler 2 "kate" "bob@example.com") "kate"
    = Some 1.
Proof.
  assert (H1 : 9 ∉ (ur_id <$> users_table registered_handler)).
  { change (ur_id <$> users_table registered_handler) with [1; 2].
    rewrite !not_elem_of_cons. repeat split; [lia..|apply not_elem_of_nil]. }
  assert (H2 : "kate" ≠ "bob") by discriminate.
  destruct (update_user_spec registered_handler 9 "eve" "eve@example.com")
    as (_ & _ & Hnot & _).
  destruct (update_user_spec registered_handler 2 "kate" "bob@example.com")
    as (_ & _ & _ & Hnew & Hother & _).
  split; [exact H1|]. split; [exact H2|]. split; [exact (Hnot H1)|]. split.
  - rewrite (Hother "bob"); [reflexivity|]. intros E. apply H2. by rewrite E.
  - rewrite Hnew. reflexivity.
Defined.
